(** * MUK-BIOMEDSSA backend: the durable in-memory store and its handlers

    A shallow embedding of the Express handlers of the repository and of
    the snapshot routine that saves the in-memory collections to Cloudinary.
    Four near-identical servers live in the repository:

    - [Cloud]    : the in-memory server with the 10 second auto-save
                   (the unnamed source file, [part_000]);
    - [JsonFile] : the server that keeps every collection in a JSON file
                   ([Muk-backend/index.js], second program);
    - [Memory]   : the in-memory server with the 30 second auto-save
                   ([Muk-backend/index.js], third program);
    - [Mongo]    : the MongoDB server ([Muk-backend/index.js], first
                   program), of which only the push subscription is needed.

    JavaScript values are embedded in [Js]. *)

From stdpp Require Import gmap strings list fin_maps.
From Stdlib Require Import ZArith Ascii DecimalString DecimalZ DecimalN DecimalNat.

#[local] Set Warnings "-register-all".
#[local] Open Scope Z_scope.

(** ** JavaScript values, as far as the servers use them *)
Module Js.

(** Every value the servers hold comes from a JSON request body, a JSON
    snapshot, a clock reading or a literal, so a value is a JSON value.
    [undefined] is not a JSON value: an expression that may be [undefined]
    has type [option value], and an object property whose value is
    [undefined] is represented as an absent key. The servers read
    properties by name only and serialise objects with [JSON.stringify]
    ([res.json] included), and neither tells the two apart.

    Numbers are integers: clock readings, sizes and counters. Fractional
    numbers are outside the model. Inherited properties (those of
    [Object.prototype] and [Array.prototype]) are not modelled either. *)
Inductive value :=
| VNull
| VBool (b : bool)
| VNum (n : Z)
| VStr (s : string)
| VArr (l : list value)
| VObj (o : gmap string value).

Abbreviation undefined := (@None value).

(** What a [throw] carries. [NotFound] and [NetworkError] are rejections of
    the Cloudinary client and of the HTTPS request. *)
Inductive exn := TypeError | SyntaxError | NotFound | NetworkError | UploadError.

Inductive result (A : Type) :=
| Ok (a : A)
| Throw (e : exn).
Arguments Ok {A} a.
Arguments Throw {A} e.

Definition rbind {A B} (r : result A) (k : A → result B) : result B :=
  match r with Ok a => k a | Throw e => Throw e end.

Notation "'let*' x ':=' r 'in' k" := (rbind r (λ x, k))
  (at level 10, x name, r at level 100, k at level 200, only parsing).

(** [!!v] is [truthy v]; [!v] is its negation. *)
Definition truthy (v : option value) : bool :=
  match v with
  | None | Some VNull | Some (VBool false) | Some (VNum 0) | Some (VStr "") => false
  | Some _ => true
  end.

(** [a || b] *)
Definition or_else (a : option value) (b : value) : value :=
  match a with
  | Some v => if truthy a then v else b
  | None => b
  end.

(** [String(n)] for an integer. *)
Definition NumberToString (n : Z) : string := NilZero.string_of_int (Z.to_int n).

(** The key of array index [i]. *)
Definition index_key (i : nat) : string := NilZero.string_of_uint (Nat.to_uint i).

(** The array index a property key denotes, when it is the canonical
    rendering of one. *)
Definition to_index (k : string) : option nat :=
  match NilEmpty.uint_of_string k with
  | Some d => if bool_decide (index_key (Nat.of_uint d) = k) then Some (Nat.of_uint d) else None
  | None => None
  end.

Definition array_prop (l : list value) (k : string) : option value :=
  if bool_decide (k = "length") then Some (VNum (Z.of_nat (length l)))
  else match to_index k with Some i => l !! i | None => None end.

Definition string_prop (s : string) (k : string) : option value :=
  if bool_decide (k = "length") then Some (VNum (Z.of_nat (String.length s)))
  else match to_index k with
       | Some i => match String.get i s with Some c => Some (VStr (String c EmptyString)) | None => None end
       | None => None
       end.

(** [v.k] and [v[k]]: reading a property of [null] or [undefined] throws,
    a number or a boolean has no own property. *)
Definition get_prop (v : option value) (k : string) : result (option value) :=
  match v with
  | None | Some VNull => Throw TypeError
  | Some (VObj o) => Ok (o !! k)
  | Some (VArr l) => Ok (array_prop l k)
  | Some (VStr s) => Ok (string_prop s k)
  | Some (VBool _) | Some (VNum _) => Ok None
  end.

Fixpoint indexed (i : nat) (l : list value) : list (string * value) :=
  match l with
  | [] => []
  | v :: l' => (index_key i, v) :: indexed (S i) l'
  end.

Fixpoint chars (s : string) : list value :=
  match s with
  | EmptyString => []
  | String c s' => VStr (String c EmptyString) :: chars s'
  end.

(** The own enumerable properties that [{...v}] copies. Spreading [null],
    [undefined], a number or a boolean copies nothing. *)
Definition own_props (v : option value) : gmap string value :=
  match v with
  | Some (VObj o) => o
  | Some (VArr l) => list_to_map (indexed 0 l)
  | Some (VStr s) => list_to_map (indexed 0 (chars s))
  | _ => ∅
  end.

(** [{ ...o, k: e }] for one property: a property set to [undefined]
    reads as [undefined] from then on. *)
Definition set_field (k : string) (e : option value) (o : gmap string value) : gmap string value :=
  match e with
  | Some v => <[k := v]> o
  | None => delete k o
  end.

(** [const { k: _, ...rest } = v]: destructuring [null] or [undefined]
    throws. *)
Definition rest_without (k : string) (v : option value) : result (gmap string value) :=
  match v with
  | None | Some VNull => Throw TypeError
  | Some _ => Ok (delete k (own_props v))
  end.

(** [a === b]. Two arrays or two objects are equal only when they are the
    same reference; the servers compare a stored value with a value of the
    current request, which never share one. *)
Definition strict_eq (a b : option value) : bool :=
  match a, b with
  | None, None => true
  | Some VNull, Some VNull => true
  | Some (VBool x), Some (VBool y) => bool_decide (x = y)
  | Some (VNum x), Some (VNum y) => bool_decide (x = y)
  | Some (VStr x), Some (VStr y) => bool_decide (x = y)
  | _, _ => false
  end.

Definition is_space (c : ascii) : bool :=
  let n := nat_of_ascii c in
  bool_decide (n = 9 ∨ n = 10 ∨ n = 11 ∨ n = 12 ∨ n = 13 ∨ n = 32)%nat.

Fixpoint trim_left (s : string) : string :=
  match s with
  | String c s' => if is_space c then trim_left s' else s
  | EmptyString => EmptyString
  end.

Fixpoint trim_right (s : string) : string :=
  match s with
  | String c s' =>
      match trim_right s' with
      | EmptyString => if is_space c then EmptyString else String c EmptyString
      | t => String c t
      end
  | EmptyString => EmptyString
  end.

Definition trim (s : string) : string := trim_right (trim_left s).

(** A non-empty run of decimal digits. *)
Definition digits (s : string) : option Z :=
  match s with
  | EmptyString => None
  | _ => match NilEmpty.uint_of_string s with
         | Some d => Some (Z.of_N (N.of_uint d))
         | None => None
         end
  end.

(** [Number(s)]: [None] is [NaN]. Only integer literals in decimal
    notation are read as numbers; a literal with a fraction, an exponent or
    a radix prefix is outside the model. *)
Definition StringToNumber (s : string) : option Z :=
  match trim s with
  | EmptyString => Some 0
  | String "+" r => digits r
  | String "-" r => Z.opp <$> digits r
  | r => digits r
  end.

Definition is_digit (c : ascii) : bool :=
  let n := nat_of_ascii c in bool_decide (48 ≤ n ≤ 57)%nat.

Fixpoint digit_prefix (s : string) : string :=
  match s with
  | String c s' => if is_digit c then String c (digit_prefix s') else EmptyString
  | EmptyString => EmptyString
  end.

Definition hex_digit (c : ascii) : option Z :=
  let n := Z.of_nat (nat_of_ascii c) in
  if bool_decide (48 ≤ n ≤ 57) then Some (n - 48)
  else if bool_decide (65 ≤ n ≤ 70) then Some (n - 55)
  else if bool_decide (97 ≤ n ≤ 102) then Some (n - 87)
  else None.

(** The value of the longest run of hexadecimal digits [s] starts with,
    after the digits read so far. *)
Fixpoint hex_prefix (s : string) (acc : option Z) : option Z :=
  match s with
  | String c s' =>
      match hex_digit c with
      | Some d => hex_prefix s' (Some (16 * default 0 acc + d))
      | None => acc
      end
  | EmptyString => acc
  end.

(** The digits [parseInt] reads after the sign: hexadecimal ones after
    [0x] or [0X], decimal ones otherwise. *)
Definition unsigned_prefix (r : string) : option Z :=
  match r with
  | String "0" (String "x" h) | String "0" (String "X" h) => hex_prefix h None
  | _ => digits (digit_prefix r)
  end.

(** [parseInt(s)]: leading white space, a sign, then the longest run of
    digits; [None] is [NaN]. *)
Definition parseInt (s : string) : option Z :=
  match trim_left s with
  | String "+" r => unsigned_prefix r
  | String "-" r => Z.opp <$> unsigned_prefix r
  | r => unsigned_prefix r
  end.

Definition join (sep : string) (l : list string) : string := String.concat sep l.

(** [String(v)] ([ToPrimitive] then [ToString]). An array joins its
    elements with commas, [null] elements rendering as the empty string;
    a plain object renders as [[object Object]], unless an own property
    shadows [toString], which leaves no callable conversion. *)
Fixpoint ToString (v : value) : result string :=
  match v with
  | VNull => Ok "null"%string
  | VBool b => Ok (if b then "true" else "false")%string
  | VNum n => Ok (NumberToString n)
  | VStr s => Ok s
  | VArr l =>
      let fix elems (l : list value) : result (list string) :=
        match l with
        | [] => Ok []
        | VNull :: l' => let* r := elems l' in Ok (EmptyString :: r)
        | x :: l' => let* s := ToString x in let* r := elems l' in Ok (s :: r)
        end in
      let* ss := elems l in Ok (join "," ss)
  | VObj o => if bool_decide (is_Some (o !! "toString")) then Throw TypeError
              else Ok "[object Object]"%string
  end.

(** [Number(v)] for the left operand of a comparison; [None] is [NaN]. *)
Definition ToNumber (v : option value) : result (option Z) :=
  match v with
  | None => Ok None
  | Some VNull => Ok (Some 0)
  | Some (VBool b) => Ok (Some (if b then 1 else 0))
  | Some (VNum n) => Ok (Some n)
  | Some (VStr s) => Ok (StringToNumber s)
  | Some v => let* s := ToString v in Ok (StringToNumber s)
  end.

(** [a == s] for a string [s]. *)
Definition loose_eq (a : option value) (s : string) : result bool :=
  match a with
  | None | Some VNull => Ok false
  | Some (VNum n) => Ok (bool_decide (StringToNumber s = Some n))
  | Some (VBool b) => Ok (bool_decide (StringToNumber s = Some (if b then 1 else 0)))
  | Some (VStr t) => Ok (bool_decide (t = s))
  | Some v => let* t := ToString v in Ok (bool_decide (t = s))
  end.

(** [a < n] for a number [n]: a comparison with [NaN] is false. *)
Definition less_than (a : option value) (n : Z) : result bool :=
  let* x := ToNumber a in
  Ok (match x with Some m => bool_decide (m < n) | None => false end).

(** [{ ...o, k1: e1, ..., kn: en }] *)
Definition set_fields (fields : list (string * option value)) (o : gmap string value)
    : gmap string value :=
  foldl (λ o kv, set_field kv.1 kv.2 o) o fields.

(** [{ k1: e1, ..., kn: en }] *)
Definition object (fields : list (string * option value)) : gmap string value :=
  set_fields fields ∅.

(** What the last [k: e] among [fields] gives [k], if there is one. *)
Definition binding (k : string) (fields : list (string * option value)) : option (option value) :=
  foldl (λ acc kv, if bool_decide (kv.1 = k) then Some kv.2 else acc) None fields.

(** The text of a blob or of a file, represented by what [JSON.parse]
    makes of it: the JSON value it denotes, or none. *)
Inductive text :=
| JsonText (v : value)
| Garbled (raw : string).

Definition JSON_stringify (v : value) : text := JsonText v.

Definition JSON_parse (t : text) : result value :=
  match t with
  | JsonText v => Ok v
  | Garbled _ => Throw SyntaxError
  end.

End Js.

Import Js.

(** ** Effects shared by the servers *)

(** A handler runs on a state of type [S]; a [throw] leaves the state as
    it was when thrown, so that what a handler changed before it failed
    stays changed. *)
Definition M (S A : Type) : Type := S → S * result A.

Definition ret {S A} (a : A) : M S A := λ s, (s, Ok a).
Definition bind {S A B} (m : M S A) (k : A → M S B) : M S B :=
  λ s, match m s with
       | (s', Ok a) => k a s'
       | (s', Throw e) => (s', Throw e)
       end.
Definition lift {S A} (r : result A) : M S A := λ s, (s, r).
Definition gets {S A} (f : S → A) : M S A := λ s, (s, Ok (f s)).
Definition modify {S} (f : S → S) : M S unit := λ s, (f s, Ok tt).

(** [try { m } catch (error) { h error }] *)
Definition try_catch {S A} (m : M S A) (h : exn → M S A) : M S A :=
  λ s, match m s with
       | (s', Ok a) => (s', Ok a)
       | (s', Throw e) => h e s'
       end.

Notation "'let!' x ':=' m 'in' k" := (bind m (λ x, k))
  (at level 10, x name, m at level 100, k at level 200, only parsing).
Notation "m ';;' k" := (bind m (λ _, k))
  (at level 100, k at level 200, right associativity, only parsing).

(** What a request gets back. [Reply status body] is
    [res.status(status).json(body)], [ServerError e] is the reply of a
    handler's own [catch]: status 500 with the error message of [e];
    [Unhandled e] is an exception that leaves the handler; [Unmodelled]
    stands for a run that leaves the JavaScript modelled here. *)
Inductive response :=
| Reply (status : Z) (body : option value)
| ServerError (e : exn)
| Unhandled (e : exn)
| Unmodelled.

Definition run {S} (h : M S response) (s : S) : S * response :=
  match h s with
  | (s', Ok r) => (s', r)
  | (s', Throw e) => (s', Unhandled e)
  end.

Definition error_body (msg : string) : option value :=
  Some (VObj {[ "error"%string := VStr msg ]}).
Definition message_body (msg : string) : option value :=
  Some (VObj {[ "message"%string := VStr msg ]}).

(** A method of [Array.prototype] called on [v]: a value that is not an
    array has no such method. *)
Definition as_array (v : value) : result (list value) :=
  match v with
  | VArr l => Ok l
  | _ => Throw TypeError
  end.

(** [l.findIndex(p)]; [None] is [-1]. *)
Fixpoint findIndex (p : value → result bool) (l : list value) : result (option nat) :=
  match l with
  | [] => Ok None
  | a :: l' =>
      let* b := p a in
      if (b : bool) then Ok (Some 0%nat)
      else let* r := findIndex p l' in Ok (S <$> r)
  end.

(** [l.find(p)] *)
Fixpoint find (p : value → result bool) (l : list value) : result (option value) :=
  match l with
  | [] => Ok None
  | a :: l' =>
      let* b := p a in
      if (b : bool) then Ok (Some a) else find p l'
  end.

(** [l.map(f)] *)
Fixpoint map_array {A} (f : value → result A) (l : list value) : result (list A) :=
  match l with
  | [] => Ok []
  | a :: l' => let* x := f a in let* r := map_array f l' in Ok (x :: r)
  end.

(** [l.filter(p)] *)
Fixpoint filter_array (p : value → result bool) (l : list value) : result (list value) :=
  match l with
  | [] => Ok []
  | a :: l' =>
      let* b := p a in
      let* r := filter_array p l' in
      Ok (if (b : bool) then a :: r else r)
  end.

(** [a => a.id == id] *)
Definition id_loosely (id : string) (a : value) : result bool :=
  let* i := get_prop (Some a) "id" in loose_eq i id.

(** [a => a.id === parseInt(id)] *)
Definition id_strictly (id : string) (a : value) : result bool :=
  let* i := get_prop (Some a) "id" in
  Ok (match parseInt id with
      | Some n => strict_eq i (Some (VNum n))
      | None => false
      end).

(** [s => s.endpoint === endpoint] *)
Definition endpoint_is (endpoint : option value) (s : value) : result bool :=
  let* ep := get_prop (Some s) "endpoint" in Ok (strict_eq ep endpoint).

Definition is_object (v : value) : Prop := ∃ o, v = VObj o.

(** An uploaded file, as multer hands it over in [req.file]. *)
Abbreviation file := (gmap string value).

(** [{ title, category, description, authors, institution, publicationDate }]
    read off the request body. [req.body] is what body-parser or multer
    made of the request, an object or (for a JSON array) an array: it is
    never [null]. *)
Definition article_fields : list string :=
  ["title"; "category"; "description"; "authors"; "institution"; "publicationDate"]%string.

Fixpoint read_fields (body : value) (ks : list string) : result (list (string * option value)) :=
  match ks with
  | [] => Ok []
  | k :: ks' =>
      let* v := get_prop (Some body) k in
      let* r := read_fields body ks' in
      Ok ((k, v) :: r)
  end.

(** Requests served one after the other: a handler runs to its first
    [await] before the next request is looked at, and every change to
    the collections is made before that. *)
Fixpoint serve {S A} (h : A → M S response) (reqs : list A) (s : S) : S * list response :=
  match reqs with
  | [] => (s, [])
  | r :: reqs' =>
      let (s1, resp) := run (h r) s in
      let (s2, resps) := serve h reqs' s1 in
      (s2, resp :: resps)
  end.

(** [m] cannot leave [P]. *)
Definition preserves {S A} (P : S → Prop) (m : M S A) : Prop :=
  ∀ s, P s → P (m s).1.

(** Whatever [m] returns satisfies [Q]. *)
Definition returns {S} (Q : response → Prop) (m : M S response) : Prop :=
  ∀ s, match (m s).2 with Ok r => Q r | Throw _ => True end.

(** The record has no [password]. *)
Definition no_password (u : value) : Prop := get_prop (Some u) "password" = Ok None.

(** No user record in the response has a [password]: neither [body.user]
    nor, when the body is an array, one of its elements. *)
Definition hides_password (r : response) : Prop :=
  match r with
  | Reply _ (Some (VArr l)) => Forall no_password l
  | Reply _ (Some b) => ∀ u, get_prop (Some b) "user" = Ok (Some u) → no_password u
  | _ => True
  end.

(** The response is a 200. *)
Definition replied_ok (r : response) : bool :=
  match r with
  | Reply 200 _ => true
  | _ => false
  end.

(** ** The in-memory server with Cloudinary snapshots ([part_000]) *)
Module Cloud.

(** [let users = []; let articles = []; let config = {...};
     let understanding = {}; let pushSubscriptions = [];] *)
Record store := Store {
  users : value;
  articles : value;
  config : value;
  understanding : value;
  pushSubscriptions : value
}.

(** The process memory and the raw resources of the Cloudinary account,
    by public id. *)
Record world := World {
  mem : store;
  cloud : gmap string text
}.

Definition default_config : gmap string value :=
  object [
    ("app_title", Some (VStr "MUK-BIOMEDSSA"));
    ("app_subtitle", Some (VStr "Research App"));
    ("welcome_message", Some (VStr "Stay Updated with the Latest Biomedical Research Discoveries"));
    ("primary_color", Some (VStr "#0D7377"));
    ("secondary_color", Some (VStr "#f8fafc"));
    ("accent_color", Some (VStr "#16a34a"));
    ("text_color", Some (VStr "#1e293b"));
    ("about_description", Some (VStr "To provide biomedical science students with accessible, curated research content"));
    ("font_family", Some (VStr "Plus Jakarta Sans"));
    ("font_size", Some (VNum 16));
    ("contact_email", Some (VStr "biomedssa@muk.ac.zm"));
    ("contact_location", Some (VStr "Mukuba University, Kitwe"));
    ("contact_website", Some (VStr ""))
  ]%string.

Definition initial_store : store :=
  {| users := VArr [];
     articles := VArr [];
     config := VObj default_config;
     understanding := VObj ∅;
     pushSubscriptions := VArr [] |}.

(** The store after an assignment to one of its variables. *)
Definition with_users (v : value) (s : store) : store :=
  Store v (articles s) (config s) (understanding s) (pushSubscriptions s).
Definition with_articles (v : value) (s : store) : store :=
  Store (users s) v (config s) (understanding s) (pushSubscriptions s).
Definition with_config (v : value) (s : store) : store :=
  Store (users s) (articles s) v (understanding s) (pushSubscriptions s).
Definition with_understanding (v : value) (s : store) : store :=
  Store (users s) (articles s) (config s) v (pushSubscriptions s).
Definition with_pushSubscriptions (v : value) (s : store) : store :=
  Store (users s) (articles s) (config s) (understanding s) v.

Definition set_users (v : value) : M world unit :=
  modify (λ w, World (with_users v (mem w)) (cloud w)).
Definition set_articles (v : value) : M world unit :=
  modify (λ w, World (with_articles v (mem w)) (cloud w)).
Definition set_config (v : value) : M world unit :=
  modify (λ w, World (with_config v (mem w)) (cloud w)).
Definition set_understanding (v : value) : M world unit :=
  modify (λ w, World (with_understanding v (mem w)) (cloud w)).
Definition set_pushSubscriptions (v : value) : M world unit :=
  modify (λ w, World (with_pushSubscriptions v (mem w)) (cloud w)).
Definition set_cloud (c : gmap string text) : M world unit :=
  modify (λ w, World (mem w) c).

(** What a request observes of its environment: the clock, read when the
    record is built, when the snapshot is written and when the session
    token is made, and whether the upload goes through. *)
Record env := Env {
  date_now : Z;
  date_iso : string;
  save_iso : string;
  save_ok : bool;
  session_now : Z
}.

(** The public id of the snapshot. *)
Definition database : string := "muk-data/database".

(** [{ users, articles, config, understanding, lastUpdated }] *)
Definition snapshot (s : store) (iso : string) : value :=
  VObj (object [
    ("users", Some (users s));
    ("articles", Some (articles s));
    ("config", Some (config s));
    ("understanding", Some (understanding s));
    ("lastUpdated", Some (VStr iso))
  ]%string).

(** [cloudinary.uploader.upload_stream({ public_id, overwrite: true, ... })]:
    the upload replaces the resource or fails and rejects. *)
Definition upload_stream (ok : bool) (public_id : string) (t : text) : M world unit :=
  if ok then let! c := gets cloud in set_cloud (<[public_id := t]> c)
  else lift (Throw UploadError).

Definition saveDataToCloudinary (e : env) : M world bool :=
  try_catch
    (let! s := gets mem in
     let data := snapshot s (save_iso e) in
     let jsonString := JSON_stringify data in
     upload_stream (save_ok e) database jsonString;;
     ret true)
    (λ _, ret false).

(** [cloudinary.api.resource(public_id, ...)] rejects when the account has
    no such resource. *)
Definition api_resource (public_id : string) : M world text :=
  let! c := gets cloud in
  match c !! public_id with
  | Some t => ret t
  | None => lift (Throw NotFound)
  end.

(** [https.get(result.secure_url, ...)]: the body of the resource, or a
    network error. *)
Definition https_get (ok : bool) (t : text) : M world text :=
  if ok then ret t else lift (Throw NetworkError).

(** The line [loadDataFromCloudinary] logs. *)
Inductive load_log := DataLoaded | NoExistingData.

Definition loadDataFromCloudinary (fetch_ok : bool) : M world load_log :=
  try_catch
    (let! result := api_resource database in
     let! dataString := https_get fetch_ok result in
     let! data := lift (JSON_parse dataString) in
     let! u := lift (get_prop (Some data) "users") in
     set_users (or_else u (VArr []));;
     let! a := lift (get_prop (Some data) "articles") in
     set_articles (or_else a (VArr []));;
     let! c := lift (get_prop (Some data) "config") in
     let! config0 := gets (λ w, config (mem w)) in
     set_config (or_else c config0);;
     let! un := lift (get_prop (Some data) "understanding") in
     set_understanding (or_else un (VObj ∅));;
     let! articles1 := gets (λ w, articles (mem w)) in
     let! users1 := gets (λ w, users (mem w)) in
     lift (get_prop (Some articles1) "length");;
     lift (get_prop (Some users1) "length");;
     ret DataLoaded)
    (λ _, ret NoExistingData).

(** [loadDataFromCloudinary().then(() => app.listen(PORT, ...))]: the
    process starts from the declared collections, loads, and listens once
    the promise is fulfilled. *)
Record booted := Booted {
  boot_world : world;
  boot_log : option load_log;
  listening : bool
}.

Definition startup (fetch_ok : bool) (c : gmap string text) : booted :=
  match loadDataFromCloudinary fetch_ok (World initial_store c) with
  | (w, Ok log) => Booted w (Some log) true
  | (w, Throw _) => Booted w None false
  end.

(** *** Authentication *)

(** ['session_' + Date.now()] *)
Definition session (e : env) : value :=
  VStr ("session_" +:+ NumberToString (session_now e)).

(** [app.post('/auth/register', ...)] *)
Definition register (e : env) (body : value) : M world response :=
  try_catch
    (let! name := lift (get_prop (Some body) "name") in
     let! email := lift (get_prop (Some body) "email") in
     let! password := lift (get_prop (Some body) "password") in
     if negb (truthy name) || negb (truthy email) || negb (truthy password) then
       ret (Reply 400 (error_body "Please fill in all fields"))
     else
       let! len := lift (get_prop password "length") in
       let! short := lift (less_than len 6) in
       if (short : bool) then
         ret (Reply 400 (error_body "Password must be at least 6 characters"))
       else
         let! us := gets (λ w, users (mem w)) in
         let! l := lift (as_array us) in
         let! taken := lift (find (λ u, let* m := get_prop (Some u) "email" in
                                        Ok (strict_eq m email)) l) in
         if truthy taken then
           ret (Reply 400 (error_body "Email already registered"))
         else
           let newUser := object [
             ("id", Some (VNum (date_now e)));
             ("name", name);
             ("email", email);
             ("password", password);
             ("createdAt", Some (VStr (date_iso e)))
           ]%string in
           set_users (VArr (l ++ [VObj newUser]));;
           saveDataToCloudinary e;;
           let! userWithoutPassword := lift (rest_without "password" (Some (VObj newUser))) in
           ret (Reply 200 (Some (VObj (object [
             ("user", Some (VObj userWithoutPassword));
             ("session", Some (session e))
           ]%string)))))
    (λ error, ret (ServerError error)).

(** The user [POST /auth/register] stores for a request that passes the
    checks. *)
Definition new_user (e : env) (body : value) : gmap string value :=
  object [
    ("id", Some (VNum (date_now e)));
    ("name", match get_prop (Some body) "name" with Ok v => v | Throw _ => None end);
    ("email", match get_prop (Some body) "email" with Ok v => v | Throw _ => None end);
    ("password", match get_prop (Some body) "password" with Ok v => v | Throw _ => None end);
    ("createdAt", Some (VStr (date_iso e)))
  ]%string.

(** [app.post('/auth/login', ...)] *)
Definition login (e : env) (body : value) : M world response :=
  try_catch
    (let! email := lift (get_prop (Some body) "email") in
     let! password := lift (get_prop (Some body) "password") in
     if negb (truthy email) || negb (truthy password) then
       ret (Reply 400 (error_body "Please enter email and password"))
     else
       let! us := gets (λ w, users (mem w)) in
       let! l := lift (as_array us) in
       let! user := lift (find (λ u, let* m := get_prop (Some u) "email" in
                                     if strict_eq m email then
                                       let* p := get_prop (Some u) "password" in
                                       Ok (strict_eq p password)
                                     else Ok false) l) in
       if negb (truthy user) then
         ret (Reply 401 (error_body "Invalid email or password"))
       else
         let! userWithoutPassword := lift (rest_without "password" user) in
         ret (Reply 200 (Some (VObj (object [
           ("user", Some (VObj userWithoutPassword));
           ("session", Some (session e))
         ]%string)))))
    (λ error, ret (ServerError error)).

(** *** Users *)

(** [app.get('/users', ...)] *)
Definition get_users : M world response :=
  try_catch
    (let! us := gets (λ w, users (mem w)) in
     let! l := lift (as_array us) in
     let! safeUsers := lift (map_array (λ u, let* userWithoutPassword := rest_without "password" (Some u) in
                                             Ok (VObj userWithoutPassword)) l) in
     ret (Reply 200 (Some (VArr safeUsers))))
    (λ error, ret (ServerError error)).

(** [app.delete('/users/:id', ...)] *)
Definition delete_user (e : env) (id : string) : M world response :=
  try_catch
    (let! us := gets (λ w, users (mem w)) in
     let! l := lift (as_array us) in
     let! index := lift (findIndex (id_loosely id) l) in
     match index with
     | None => ret (Reply 404 (error_body "User not found"))
     | Some i =>
         set_users (VArr (delete i l));;
         saveDataToCloudinary e;;
         let! _ := lift (get_prop (l !! i) "email") in
         ret (Reply 200 (message_body "User deleted successfully"))
     end)
    (λ error, ret (ServerError error)).

(** *** Articles *)

(** [app.get('/articles', ...)] *)
Definition get_articles : M world response :=
  let! arts := gets (λ w, articles (mem w)) in
  ret (Reply 200 (Some arts)).

(** [app.get('/articles/:id', ...)] *)
Definition get_article (id : string) : M world response :=
  let! arts := gets (λ w, articles (mem w)) in
  let! l := lift (as_array arts) in
  let! article := lift (find (id_loosely id) l) in
  if negb (truthy article) then
    ret (Reply 404 (error_body "Article not found"))
  else
    ret (Reply 200 article).

(** [req.file.url || req.file.path] *)
Definition file_url (f : file) : option value :=
  if truthy (f !! "url") then f !! "url" else f !! "path".

(** [app.post('/articles', upload.single('pdf'), ...)] *)
Definition post_article (e : env) (body : value) (req_file : option file) : M world response :=
  try_catch
    (let! fields := lift (read_fields body article_fields) in
     let! title := lift (get_prop (Some body) "title") in
     let! category := lift (get_prop (Some body) "category") in
     if negb (truthy title) || negb (truthy category) then
       ret (Reply 400 (error_body "Title and category are required"))
     else
       let newArticle := object (
         [("id"%string, Some (VNum (date_now e)))] ++ fields ++
         [("pdfName", match req_file with Some f => f !! "originalname" | None => Some (VStr "") end);
          ("pdfUrl", match req_file with Some f => file_url f | None => Some (VStr "") end);
          ("pdfFile", Some (VBool (bool_decide (is_Some req_file))));
          ("createdAt", Some (VStr (date_iso e)))]%string) in
       let! arts := gets (λ w, articles (mem w)) in
       let! l := lift (as_array arts) in
       set_articles (VArr (l ++ [VObj newArticle]));;
       saveDataToCloudinary e;;
       ret (Reply 200 (Some (VObj newArticle))))
    (λ error, ret (ServerError error)).

(** The article [POST /articles] stores for a request that passes the
    check. *)
Definition new_article (e : env) (body : value) (f : option file) : gmap string value :=
  object (
    [("id"%string, Some (VNum (date_now e)))] ++
    ((λ k, (k, match get_prop (Some body) k with Ok v => v | Throw _ => None end))
       <$> article_fields) ++
    [("pdfName", match f with Some f => f !! "originalname" | None => Some (VStr "") end);
     ("pdfUrl", match f with Some f => file_url f | None => Some (VStr "") end);
     ("pdfFile", Some (VBool (bool_decide (is_Some f))));
     ("createdAt", Some (VStr (date_iso e)))]%string).

(** [app.put('/articles/:id', upload.single('pdf'), ...)] *)
Definition put_article (e : env) (id : string) (body : value) (req_file : option file) : M world response :=
  try_catch
    (let! fields := lift (read_fields body article_fields) in
     let! arts := gets (λ w, articles (mem w)) in
     let! l := lift (as_array arts) in
     let! index := lift (findIndex (id_loosely id) l) in
     match index with
     | None => ret (Reply 404 (error_body "Article not found"))
     | Some i =>
         let pdf := match req_file with
                    | Some f => [("pdfName", f !! "originalname");
                                 ("pdfUrl", file_url f);
                                 ("pdfFile", Some (VBool true))]%string
                    | None => []
                    end in
         let updated := VObj (set_fields (fields ++ pdf) (own_props (l !! i))) in
         set_articles (VArr (<[i := updated]> l));;
         saveDataToCloudinary e;;
         ret (Reply 200 (Some updated))
     end)
    (λ error, ret (ServerError error)).

(** [app.delete('/articles/:id', ...)] *)
Definition delete_article (e : env) (id : string) : M world response :=
  try_catch
    (let! arts := gets (λ w, articles (mem w)) in
     let! l := lift (as_array arts) in
     let! index := lift (findIndex (id_loosely id) l) in
     match index with
     | None => ret (Reply 404 (error_body "Article not found"))
     | Some i =>
         set_articles (VArr (delete i l));;
         saveDataToCloudinary e;;
         ret (Reply 200 (message_body "Article deleted successfully"))
     end)
    (λ error, ret (ServerError error)).

(** *** Config *)

(** [app.get('/config', ...)] *)
Definition get_config : M world response :=
  let! c := gets (λ w, config (mem w)) in
  ret (Reply 200 (Some c)).

(** [app.post('/config', ...)]: [config = { ...config, ...req.body }] *)
Definition post_config (e : env) (body : value) : M world response :=
  try_catch
    (let! config0 := gets (λ w, config (mem w)) in
     let merged := VObj (own_props (Some body) ∪ own_props (Some config0)) in
     set_config merged;;
     saveDataToCloudinary e;;
     ret (Reply 200 (Some merged)))
    (λ error, ret (ServerError error)).

(** *** Understanding materials *)

(** [{ summary: '', materials: [] }] *)
Definition no_materials : value :=
  VObj (object [("summary", Some (VStr "")); ("materials", Some (VArr []))]%string).

(** [app.get('/understanding', ...)] *)
Definition get_understanding : M world response :=
  let! u := gets (λ w, understanding (mem w)) in
  ret (Reply 200 (Some u)).

(** [app.get('/understanding/:articleId', ...)] *)
Definition get_understanding_of (articleId : string) : M world response :=
  let! u := gets (λ w, understanding (mem w)) in
  let! entry := lift (get_prop (Some u) articleId) in
  ret (Reply 200 (Some (or_else entry no_materials))).

(** [file => ({ name: file.originalname, url: file.path, size: file.size })] *)
Definition material (f : file) : value :=
  VObj (object [("name", f !! "originalname"); ("url", f !! "path"); ("size", f !! "size")]%string).

(** [{ summary: summary || '', materials }], as [POST /understanding/:articleId]
    builds it. *)
Definition new_entry (body : value) (req_files : option (list file)) : value :=
  VObj (object [
    ("summary", Some (or_else (match get_prop (Some body) "summary" with
                               | Ok v => v
                               | Throw _ => None
                               end) (VStr "")));
    ("materials", Some (VArr (material <$> default [] req_files)))
  ]%string).

(** [app.post('/understanding/:articleId', upload.array('materials', 10), ...)].
    The assignment [understanding[articleId] = ...] adds or replaces a
    property of an object, throws on [null] and does nothing to a number, a
    string or a boolean; on an array it would add a property that is not
    part of the array's JSON value, which the model cannot hold. *)
Definition post_understanding (e : env) (articleId : string) (body : value)
    (req_files : option (list file)) : M world response :=
  try_catch
    (let! summary := lift (get_prop (Some body) "summary") in
     let materials := match req_files with
                      | Some fs => material <$> fs
                      | None => []
                      end in
     let entry := VObj (object [
       ("summary", Some (or_else summary (VStr "")));
       ("materials", Some (VArr materials))
     ]%string) in
     let! u := gets (λ w, understanding (mem w)) in
     match u with
     | VArr _ => ret Unmodelled
     | _ =>
         match u with
         | VObj o => set_understanding (VObj (<[articleId := entry]> o))
         | VNull => lift (Throw TypeError)
         | _ => ret tt
         end;;
         saveDataToCloudinary e;;
         let! u' := gets (λ w, understanding (mem w)) in
         let! stored := lift (get_prop (Some u') articleId) in
         ret (Reply 200 stored)
     end)
    (λ error, ret (ServerError error)).

(** *** Push subscriptions *)

(** [app.post('/push/subscribe', ...)] *)
Definition push_subscribe (body : value) : M world response :=
  try_catch
    (let! endpoint := lift (get_prop (Some body) "endpoint") in
     let! keys := lift (get_prop (Some body) "keys") in
     let! subs := gets (λ w, pushSubscriptions (mem w)) in
     let! l := lift (as_array subs) in
     let! found := lift (find (endpoint_is endpoint) l) in
     (if negb (truthy found) then
        set_pushSubscriptions (VArr (l ++ [VObj (object [("endpoint", endpoint); ("keys", keys)]%string)]))
      else ret tt);;
     ret (Reply 200 (message_body "Subscribed successfully")))
    (λ error, ret (ServerError error)).

(** [app.post('/push/unsubscribe', ...)] *)
Definition push_unsubscribe (body : value) : M world response :=
  try_catch
    (let! endpoint := lift (get_prop (Some body) "endpoint") in
     let! subs := gets (λ w, pushSubscriptions (mem w)) in
     let! l := lift (as_array subs) in
     let! kept := lift (filter_array (λ s, let* b := endpoint_is endpoint s in Ok (negb b)) l) in
     set_pushSubscriptions (VArr kept);;
     ret (Reply 200 (message_body "Unsubscribed successfully")))
    (λ error, ret (ServerError error)).

(** *** Inserts, as requests to serve *)

Definition insert_article (r : env * value * option file) : M world response :=
  post_article r.1.1 r.1.2 r.2.

Definition insert_user (r : env * value) : M world response :=
  register r.1 r.2.

(** The [id]s of the records of a collection. *)
Definition ids (l : list value) : list (result (option value)) :=
  (λ a, get_prop (Some a) "id") <$> l.

(** The clock readings as [id]s. *)
Definition as_ids (clocks : list Z) : list (result (option value)) :=
  (λ n, Ok (Some (VNum n))) <$> clocks.

(** *** The server as a transition system *)

Inductive request :=
| Register (body : value)
| Login (body : value)
| GetUsers
| DeleteUser (id : string)
| GetArticles
| GetArticle (id : string)
| PostArticle (body : value) (req_file : option file)
| PutArticle (id : string) (body : value) (req_file : option file)
| DeleteArticle (id : string)
| GetConfig
| PostConfig (body : value)
| GetUnderstanding
| GetUnderstandingOf (articleId : string)
| PostUnderstanding (articleId : string) (body : value) (req_files : option (list file))
| PushSubscribe (body : value)
| PushUnsubscribe (body : value).

Definition handle (e : env) (r : request) : M world response :=
  match r with
  | Register body => register e body
  | Login body => login e body
  | GetUsers => get_users
  | DeleteUser id => delete_user e id
  | GetArticles => get_articles
  | GetArticle id => get_article id
  | PostArticle body f => post_article e body f
  | PutArticle id body f => put_article e id body f
  | DeleteArticle id => delete_article e id
  | GetConfig => get_config
  | PostConfig body => post_config e body
  | GetUnderstanding => get_understanding
  | GetUnderstandingOf a => get_understanding_of a
  | PostUnderstanding a body fs => post_understanding e a body fs
  | PushSubscribe body => push_subscribe body
  | PushUnsubscribe body => push_unsubscribe body
  end.

(** What happens to a running server: a request is handled; the timer
    ([setInterval], every 10 seconds) or [SIGTERM] saves a snapshot; the
    process is started again and loads what the account holds. *)
Inductive event :=
| Request (e : env) (r : request)
| Save (e : env)
| Restart (fetch_ok : bool).

Definition step (w : world) (ev : event) : world :=
  match ev with
  | Request e r => (run (handle e r) w).1
  | Save e => (saveDataToCloudinary e w).1
  | Restart fetch_ok => boot_world (startup fetch_ok (cloud w))
  end.

(** The world after a first start on an account holding [c] and the
    events [evs]. *)
Definition after (fetch_ok : bool) (c : gmap string text) (evs : list event) : world :=
  foldl step (boot_world (startup fetch_ok c)) evs.

(** The collections a snapshot can restore: [data.users || []] keeps
    [data.users] when it is truthy, as every array and object is. *)
Definition collections_truthy (s : store) : bool :=
  truthy (Some (users s)) && truthy (Some (articles s)) &&
  truthy (Some (config s)) && truthy (Some (understanding s)).

Definition truthy_world (w : world) : Prop := collections_truthy (mem w) = true.

(** The push subscriptions are an array of objects. *)
Definition subscriptions_ok (w : world) : Prop :=
  ∃ l, pushSubscriptions (mem w) = VArr l ∧ Forall is_object l.


(** *** Names of uploaded files *)

(** A character that [[^/.]] matches. *)
Definition plain_char (c : ascii) : bool :=
  negb (bool_decide (c = "/"%char ∨ c = "."%char)).

Fixpoint plain (s : string) : bool :=
  match s with
  | EmptyString => true
  | String c s' => plain_char c && plain s'
  end.

(** [/\.[^/.]+$/] matches all of [s]: a dot, then one character or more,
    none of them a dot or a slash, up to the end. *)
Definition is_extension (s : string) : bool :=
  match s with
  | String "." (String c r) => plain (String c r)
  | _ => false
  end.

(** [s.replace(/\.[^/.]+$/, '')]: the first match from the left is
    removed, and a match runs to the end of [s]. *)
Fixpoint without_extension (s : string) : string :=
  if is_extension s then EmptyString
  else match s with
       | String c s' => String c (without_extension s')
       | EmptyString => EmptyString
       end.

(** [s] has no dot. *)
Fixpoint dotless (s : string) : bool :=
  match s with
  | EmptyString => true
  | String c s' => negb (bool_decide (c = "."%char)) && dotless s'
  end.

(** [public_id: (req, file) => ...] of the PDF storage: [originalname] is
    the name of the uploaded file as multer gives it, a string. *)
Definition public_id (now : Z) (originalname : string) : string :=
  let name := without_extension originalname in
  NumberToString now +:+ "-" +:+ name.

(** *** Health *)

(** [app.get('/health', ...)]; [cloud_name] is
    [process.env.CLOUDINARY_CLOUD_NAME], a string when the variable is
    set. *)
Definition health (cloud_name : option string) : M world response :=
  let! arts := gets (λ w, articles (mem w)) in
  let! n_articles := lift (get_prop (Some arts) "length") in
  let! us := gets (λ w, users (mem w)) in
  let! n_users := lift (get_prop (Some us) "length") in
  ret (Reply 200 (Some (VObj (object [
    ("status", Some (VStr "ok"));
    ("message", Some (VStr "Server is running"));
    ("storage", Some (VStr "Cloudinary"));
    ("cloudinary", Some (VStr (if truthy (VStr <$> cloud_name) then "configured" else "missing")));
    ("articles", n_articles);
    ("users", n_users)
  ]%string)))).

(** *** The shape of the collections *)

(** A stored record: an object whose [id] is a number. *)
Definition is_record (v : value) : bool :=
  match v with
  | VObj o => match o !! "id"%string with Some (VNum _) => true | _ => false end
  | _ => false
  end.

(** An array of records. *)
Definition records (v : value) : bool :=
  match v with
  | VArr l => forallb is_record l
  | _ => false
  end.

Definition is_obj (v : value) : bool :=
  match v with
  | VObj _ => true
  | _ => false
  end.

(** The users and the articles are arrays of records, the configuration
    and the understanding materials are objects. *)
Definition well_formed (s : store) : bool :=
  records (users s) && records (articles s) && is_obj (config s) && is_obj (understanding s).

(** [data.k || ...] keeps [data.k] only when it is truthy: the property
    [k] of a snapshot is fit when it is missing, falsy or of the shape
    [shape]. *)
Definition fit (shape : value → bool) (data : value) (k : string) : bool :=
  match get_prop (Some data) k with
  | Ok (Some v) => negb (truthy (Some v)) || shape v
  | _ => true
  end.

(** A resource a start can load without harm: text that is not JSON, or a
    document whose collections are fit. *)
Definition restorable (t : text) : bool :=
  match t with
  | Garbled _ => true
  | JsonText data =>
      fit records data "users" && fit records data "articles" &&
      fit is_obj data "config" && fit is_obj data "understanding"
  end.

(** The account holds no snapshot, or a restorable one. *)
Definition clean (c : gmap string text) : bool :=
  match c !! database with
  | Some t => restorable t
  | None => true
  end.

(** A request as the body parsers and the router hand it over: a body is
    never [null], and the password of a registration is not an object. *)
Definition parsed (body : value) : bool :=
  match body with
  | VNull => false
  | _ => true
  end.

Definition plain_password (body : value) : bool :=
  match get_prop (Some body) "password" with
  | Ok (Some (VObj _)) => false
  | _ => true
  end.

Definition usual (r : request) : bool :=
  match r with
  | Register body => parsed body && plain_password body
  | Login body | PostArticle body _ | PutArticle _ body _ | PostConfig body
  | PostUnderstanding _ body _ | PushSubscribe body | PushUnsubscribe body => parsed body
  | _ => true
  end.

(** The statuses the handlers send themselves. *)
Definition expected (r : response) : bool :=
  match r with
  | Reply status _ => bool_decide (status ∈ [200; 400; 401; 404])
  | _ => false
  end.



(** [s.endpoint], where [s] is an object. *)
Definition endpoint_of (s : value) : option value :=
  match get_prop (Some s) "endpoint" with
  | Ok v => v
  | Throw _ => None
  end.

(** No two subscriptions have the same endpoint, as [===] sees it. *)
Fixpoint distinct_endpoints (l : list value) : bool :=
  match l with
  | [] => true
  | s :: l' => forallb (λ s', negb (strict_eq (endpoint_of s') (endpoint_of s))) l' &&
               distinct_endpoints l'
  end.

End Cloud.

(** ** The server on JSON files ([Muk-backend/index.js], second program) *)
Module JsonFile.

(** The [data] directory, by file path, and the names of the files in
    [uploads/pdfs]. *)
Record disk := Disk {
  data : gmap string text;
  uploads : gset string
}.

Definition USERS_FILE : string := "data/users.json".
Definition ARTICLES_FILE : string := "data/articles.json".
Definition CONFIG_FILE : string := "data/config.json".
Definition UNDERSTANDING_FILE : string := "data/understanding.json".

Definition default_config : gmap string value :=
  object [
    ("app_title", Some (VStr "MUK-BIOMEDSSA"));
    ("app_subtitle", Some (VStr "Research App"));
    ("welcome_message", Some (VStr "Stay Updated with the Latest Biomedical Research Discoveries"));
    ("primary_color", Some (VStr "#0D7377"));
    ("secondary_color", Some (VStr "#f8fafc"));
    ("accent_color", Some (VStr "#16a34a"));
    ("text_color", Some (VStr "#1e293b"));
    ("about_description", Some (VStr "To provide biomedical science students with accessible, curated research content that bridges the gap between academic literature and practical understanding, fostering the next generation of healthcare researchers and professionals."));
    ("font_family", Some (VStr "Plus Jakarta Sans"));
    ("font_size", Some (VNum 16));
    ("contact_email", Some (VStr "biomedssa@muk.ac.zm"));
    ("contact_location", Some (VStr "Mukuba University, Kitwe"));
    ("contact_website", Some (VStr ""))
  ]%string.

(** [initFile(filePath, defaultData)] *)
Definition initFile (filePath : string) (defaultData : value) (d : disk) : disk :=
  match data d !! filePath with
  | Some _ => d
  | None => Disk (<[filePath := JSON_stringify defaultData]> (data d)) (uploads d)
  end.

Definition init_files (d : disk) : disk :=
  initFile UNDERSTANDING_FILE (VObj ∅)
    (initFile CONFIG_FILE (VObj default_config)
       (initFile ARTICLES_FILE (VArr [])
          (initFile USERS_FILE (VArr []) d))).

(** What a request observes of its environment: the clock and whether
    [fs.writeFileSync] goes through. *)
Record env := Env {
  date_now : Z;
  date_iso : string;
  session_now : Z;
  write_ok : bool
}.

(** [readJSON(filePath)]: a file that is missing or does not parse reads as
    the empty collection of its kind. *)
Definition readJSON (filePath : string) : M disk value :=
  let! files := gets data in
  match files !! filePath with
  | Some t =>
      match JSON_parse t with
      | Ok v => ret v
      | Throw _ =>
          ret (if bool_decide (filePath = USERS_FILE) then VArr []
               else if bool_decide (filePath = UNDERSTANDING_FILE) then VObj ∅
               else if bool_decide (filePath = CONFIG_FILE) then VObj ∅
               else VArr [])
      end
  | None =>
      ret (if bool_decide (filePath = USERS_FILE) then VArr []
           else if bool_decide (filePath = UNDERSTANDING_FILE) then VObj ∅
           else if bool_decide (filePath = CONFIG_FILE) then VObj ∅
           else VArr [])
  end.

(** What [readJSON(filePath)] returns on disk [d]. *)
Definition stored (filePath : string) (d : disk) : value :=
  match (readJSON filePath d).2 with
  | Ok v => v
  | Throw _ => VNull
  end.

(** [writeJSON(filePath, data)] *)
Definition writeJSON (e : env) (filePath : string) (v : value) : M disk bool :=
  if write_ok e then
    modify (λ d, Disk (<[filePath := JSON_stringify v]> (data d)) (uploads d));;
    ret true
  else ret false.

Definition session (e : env) : value :=
  VStr ("session_" +:+ NumberToString (session_now e)).

(** [app.post('/auth/register', ...)] *)
Definition register (e : env) (body : value) : M disk response :=
  let! name := lift (get_prop (Some body) "name") in
  let! email := lift (get_prop (Some body) "email") in
  let! password := lift (get_prop (Some body) "password") in
  if negb (truthy name) || negb (truthy email) || negb (truthy password) then
    ret (Reply 400 (error_body "Please fill in all fields"))
  else
    let! len := lift (get_prop password "length") in
    let! short := lift (less_than len 6) in
    if (short : bool) then
      ret (Reply 400 (error_body "Password must be at least 6 characters"))
    else
      let! users := readJSON USERS_FILE in
      let! l := lift (as_array users) in
      let! taken := lift (find (λ u, let* m := get_prop (Some u) "email" in
                                     Ok (strict_eq m email)) l) in
      if truthy taken then
        ret (Reply 400 (error_body "Email already registered"))
      else
        let newUser := object [
          ("id", Some (VNum (Z.of_nat (length l) + 1)));
          ("name", name);
          ("email", email);
          ("password", password);
          ("createdAt", Some (VStr (date_iso e)))
        ]%string in
        writeJSON e USERS_FILE (VArr (l ++ [VObj newUser]));;
        let! userWithoutPassword := lift (rest_without "password" (Some (VObj newUser))) in
        ret (Reply 200 (Some (VObj (object [
          ("user", Some (VObj userWithoutPassword));
          ("session", Some (session e))
        ]%string)))).

(** [app.post('/auth/login', ...)] *)
Definition login (e : env) (body : value) : M disk response :=
  let! email := lift (get_prop (Some body) "email") in
  let! password := lift (get_prop (Some body) "password") in
  if negb (truthy email) || negb (truthy password) then
    ret (Reply 400 (error_body "Please enter email and password"))
  else
    let! users := readJSON USERS_FILE in
    let! l := lift (as_array users) in
    let! user := lift (find (λ u, let* m := get_prop (Some u) "email" in
                                  if strict_eq m email then
                                    let* p := get_prop (Some u) "password" in
                                    Ok (strict_eq p password)
                                  else Ok false) l) in
    if negb (truthy user) then
      ret (Reply 401 (error_body "Invalid email or password"))
    else
      let! userWithoutPassword := lift (rest_without "password" user) in
      ret (Reply 200 (Some (VObj (object [
        ("user", Some (VObj userWithoutPassword));
        ("session", Some (session e))
      ]%string)))).

(** [app.get('/articles/:id', ...)] *)
Definition get_article (id : string) : M disk response :=
  let! articles := readJSON ARTICLES_FILE in
  let! l := lift (as_array articles) in
  let! article := lift (find (id_strictly id) l) in
  if negb (truthy article) then
    ret (Reply 404 (error_body "Article not found"))
  else
    ret (Reply 200 article).

(** [app.post('/articles', upload.single('pdf'), ...)] *)
Definition post_article (e : env) (body : value) (req_file : option file) : M disk response :=
  let! fields := lift (read_fields body article_fields) in
  let! articles := readJSON ARTICLES_FILE in
  let newArticle := object (
    [("id"%string, Some (VNum (date_now e)))] ++ fields ++
    [("pdfName", match req_file with Some f => f !! "filename" | None => Some (VStr "") end);
     ("pdfFile", Some (VBool (bool_decide (is_Some req_file))));
     ("createdAt", Some (VStr (date_iso e)))]%string) in
  let! l := lift (as_array articles) in
  writeJSON e ARTICLES_FILE (VArr (l ++ [VObj newArticle]));;
  ret (Reply 200 (Some (VObj newArticle))).

(** The article [POST /articles] stores. *)
Definition new_article (e : env) (body : value) (f : option file) : gmap string value :=
  object (
    [("id"%string, Some (VNum (date_now e)))] ++
    ((λ k, (k, match get_prop (Some body) k with Ok v => v | Throw _ => None end))
       <$> article_fields) ++
    [("pdfName", match f with Some f => f !! "filename" | None => Some (VStr "") end);
     ("pdfFile", Some (VBool (bool_decide (is_Some f))));
     ("createdAt", Some (VStr (date_iso e)))]%string).

(** [app.put('/articles/:id', upload.single('pdf'), ...)] *)
Definition put_article (e : env) (id : string) (body : value) (req_file : option file) : M disk response :=
  let! fields := lift (read_fields body article_fields) in
  let! articles := readJSON ARTICLES_FILE in
  let! l := lift (as_array articles) in
  let! index := lift (findIndex (id_strictly id) l) in
  match index with
  | None => ret (Reply 404 (error_body "Article not found"))
  | Some i =>
      let pdf := match req_file with
                 | Some f => [("pdfName", f !! "filename"); ("pdfFile", Some (VBool true))]%string
                 | None => []
                 end in
      let updated := VObj (set_fields (fields ++ pdf) (own_props (l !! i))) in
      writeJSON e ARTICLES_FILE (VArr (<[i := updated]> l));;
      ret (Reply 200 (Some updated))
  end.

(** [path.join(uploadsDir, pdfName)] takes strings only;
    [fs.existsSync] and [fs.unlinkSync] then remove the file if it is
    there. *)
Definition unlink_pdf (pdfName : option value) : M disk unit :=
  match pdfName with
  | Some (VStr name) => modify (λ d, Disk (data d) (uploads d ∖ {[ name ]}))
  | _ => lift (Throw TypeError)
  end.

(** [app.delete('/articles/:id', ...)] *)
Definition delete_article (e : env) (id : string) : M disk response :=
  let! articles := readJSON ARTICLES_FILE in
  let! l := lift (as_array articles) in
  let! index := lift (findIndex (id_strictly id) l) in
  match index with
  | None => ret (Reply 404 (error_body "Article not found"))
  | Some i =>
      let! pdfFile := lift (get_prop (l !! i) "pdfFile") in
      let! pdfName := lift (get_prop (l !! i) "pdfName") in
      (if truthy pdfFile && truthy pdfName then unlink_pdf pdfName else ret tt);;
      writeJSON e ARTICLES_FILE (VArr (delete i l));;
      ret (Reply 200 (message_body "Article deleted successfully"))
  end.

(** [app.get('/config', ...)] *)
Definition get_config : M disk response :=
  let! config := readJSON CONFIG_FILE in
  ret (Reply 200 (Some config)).

(** [app.post('/config', ...)]: the request body is written as the new
    configuration. *)
Definition post_config (e : env) (body : value) : M disk response :=
  let config := body in
  writeJSON e CONFIG_FILE config;;
  ret (Reply 200 (Some config)).

(** [file => ({ name: file.originalname, size: file.size, filename: file.filename })] *)
Definition material (f : file) : value :=
  VObj (object [("name", f !! "originalname"); ("size", f !! "size"); ("filename", f !! "filename")]%string).

(** [app.get('/understanding/:articleId', ...)] *)
Definition get_understanding_of (articleId : string) : M disk response :=
  let! understanding := readJSON UNDERSTANDING_FILE in
  let! entry := lift (get_prop (Some understanding) articleId) in
  ret (Reply 200 (Some (or_else entry Cloud.no_materials))).

(** [{ summary: summary || '', materials }], as [POST /understanding/:articleId]
    builds it. *)
Definition new_entry (body : value) (req_files : option (list file)) : value :=
  VObj (object [
    ("summary", Some (or_else (match get_prop (Some body) "summary" with
                               | Ok v => v
                               | Throw _ => None
                               end) (VStr "")));
    ("materials", Some (VArr (material <$> default [] req_files)))
  ]%string).

(** [app.post('/understanding/:articleId', upload.array('materials', 10), ...)];
    for the assignment see [Cloud.post_understanding]. *)
Definition post_understanding (e : env) (articleId : string) (body : value)
    (req_files : option (list file)) : M disk response :=
  let! summary := lift (get_prop (Some body) "summary") in
  let! understanding := readJSON UNDERSTANDING_FILE in
  let materials := match req_files with
                   | Some fs => material <$> fs
                   | None => []
                   end in
  let entry := VObj (object [
    ("summary", Some (or_else summary (VStr "")));
    ("materials", Some (VArr materials))
  ]%string) in
  match understanding with
  | VArr _ => ret Unmodelled
  | VNull => lift (Throw TypeError)
  | _ =>
      let understanding' := match understanding with
                            | VObj o => VObj (<[articleId := entry]> o)
                            | _ => understanding
                            end in
      writeJSON e UNDERSTANDING_FILE understanding';;
      let! stored := lift (get_prop (Some understanding') articleId) in
      ret (Reply 200 stored)
  end.

(** [app.get('/health', ...)] *)
Definition health : M disk response :=
  ret (Reply 200 (Some (VObj (object [
    ("status", Some (VStr "ok"));
    ("message", Some (VStr "Server is running"))
  ]%string)))).

(** [app.get('/auth/verify', ...)]; [userId] is [req.headers['user-id']],
    a string when the request has the header. *)
Definition verify (userId : option string) : M disk response :=
  if negb (truthy (VStr <$> userId)) then
    ret (Reply 401 (error_body "No user ID provided"))
  else
    let! users := readJSON USERS_FILE in
    let! l := lift (as_array users) in
    let! user := lift (find (id_strictly (default EmptyString userId)) l) in
    if negb (truthy user) then
      ret (Reply 401 (error_body "Invalid session"))
    else
      let! userWithoutPassword := lift (rest_without "password" user) in
      ret (Reply 200 (Some (VObj (object [
        ("user", Some (VObj userWithoutPassword))
      ]%string)))).

(** [app.get('/articles', ...)] *)
Definition get_articles : M disk response :=
  let! articles := readJSON ARTICLES_FILE in
  ret (Reply 200 (Some articles)).

(** [app.get('/understanding', ...)] *)
Definition get_understanding : M disk response :=
  let! understanding := readJSON UNDERSTANDING_FILE in
  ret (Reply 200 (Some understanding)).

(** *** The server as a transition system *)

Inductive request :=
| Health
| Register (body : value)
| Login (body : value)
| Verify (userId : option string)
| GetArticles
| GetArticle (id : string)
| PostArticle (body : value) (req_file : option file)
| PutArticle (id : string) (body : value) (req_file : option file)
| DeleteArticle (id : string)
| GetConfig
| PostConfig (body : value)
| GetUnderstanding
| GetUnderstandingOf (articleId : string)
| PostUnderstanding (articleId : string) (body : value) (req_files : option (list file)).

Definition handle (e : env) (r : request) : M disk response :=
  match r with
  | Health => health
  | Register body => register e body
  | Login body => login e body
  | Verify userId => verify userId
  | GetArticles => get_articles
  | GetArticle id => get_article id
  | PostArticle body f => post_article e body f
  | PutArticle id body f => put_article e id body f
  | DeleteArticle id => delete_article e id
  | GetConfig => get_config
  | PostConfig body => post_config e body
  | GetUnderstanding => get_understanding
  | GetUnderstandingOf a => get_understanding_of a
  | PostUnderstanding a body fs => post_understanding e a body fs
  end.

(** What happens to the server: a request is handled, or the process is
    started again and makes sure its files are there. *)
Inductive event :=
| Request (e : env) (r : request)
| Restart.

Definition step (d : disk) (ev : event) : disk :=
  match ev with
  | Request e r => (run (handle e r) d).1
  | Restart => init_files d
  end.

(** The disk after a first start on [d] and the events [evs]. *)
Definition after (d : disk) (evs : list event) : disk :=
  foldl step (init_files d) evs.

(** The [id]s [1], [2], ..., [n]. *)
Definition counting (n : nat) : list (result (option value)) :=
  (λ i, Ok (Some (VNum (Z.of_nat i)))) <$> seq 1 n.

(** The stored users are numbered from [1] on, in the order they are
    stored in. *)
Definition numbered (d : disk) : Prop :=
  ∃ l, stored USERS_FILE d = VArr l ∧ Cloud.ids l = counting (length l).

End JsonFile.

(** ** The in-memory server with the 30 second auto-save
       ([Muk-backend/index.js], third program) *)
Module Memory.

Import Cloud.

(** The public id of the snapshot. *)
Definition database : string := "muk-data/database.json".

(** [fetch(result.secure_url)] then [response.json()] *)
Definition fetch_json (ok : bool) (t : text) : M world value :=
  if ok then lift (JSON_parse t) else lift (Throw NetworkError).

Definition loadDataFromCloudinary (fetch_ok : bool) : M world load_log :=
  try_catch
    (let! result := api_resource database in
     let! data := fetch_json fetch_ok result in
     let! u := lift (get_prop (Some data) "users") in
     set_users (or_else u (VArr []));;
     let! a := lift (get_prop (Some data) "articles") in
     set_articles (or_else a (VArr []));;
     let! c := lift (get_prop (Some data) "config") in
     let! config0 := gets (λ w, config (mem w)) in
     set_config (or_else c config0);;
     let! un := lift (get_prop (Some data) "understanding") in
     set_understanding (or_else un (VObj ∅));;
     ret DataLoaded)
    (λ _, ret NoExistingData).

Definition startup (fetch_ok : bool) (c : gmap string text) : booted :=
  match loadDataFromCloudinary fetch_ok (World initial_store c) with
  | (w, Ok log) => Booted w (Some log) true
  | (w, Throw _) => Booted w None false
  end.

(** [app.post('/push/subscribe', ...)] *)
Definition push_subscribe (body : value) : M world response :=
  let! endpoint := lift (get_prop (Some body) "endpoint") in
  let! keys := lift (get_prop (Some body) "keys") in
  let! subs := gets (λ w, pushSubscriptions (mem w)) in
  let! l := lift (as_array subs) in
  let! found := lift (find (endpoint_is endpoint) l) in
  (if negb (truthy found) then
     set_pushSubscriptions (VArr (l ++ [VObj (object [("endpoint", endpoint); ("keys", keys)]%string)]))
   else ret tt);;
  ret (Reply 200 (message_body "Subscribed successfully")).

(** [{ users, articles, config, understanding }] *)
Definition snapshot (s : store) : value :=
  VObj (object [
    ("users", Some (users s));
    ("articles", Some (articles s));
    ("config", Some (config s));
    ("understanding", Some (understanding s))
  ]%string).

(** [saveDataToCloudinary]: the snapshot is handed to an upload stream
    and the function returns; how the upload ends only the callback sees,
    which logs it. [uploaded] tells whether the upload replaces the
    resource. *)
Definition saveDataToCloudinary (uploaded : bool) : M world unit :=
  try_catch
    (let! s := gets mem in
     let data := JSON_stringify (snapshot s) in
     if uploaded then let! c := gets cloud in set_cloud (<[database := data]> c)
     else ret tt)
    (λ _, ret tt).

End Memory.

(** ** The MongoDB server ([Muk-backend/index.js], first program):
       push subscriptions *)
Module Mongo.

(** A document of the [PushSubscription] collection. The schema makes
    [endpoint] a string; a request whose endpoint is not one goes through
    Mongoose's casting, which is not modelled. *)
Record subscription := Subscription {
  endpoint : string;
  keys : option value;
  createdAt : Z
}.

(** [PushSubscription.findOne({ endpoint })] *)
Definition findOne (ep : string) (coll : list subscription) : option subscription :=
  List.find (λ s, bool_decide (endpoint s = ep)) coll.

(** [app.post('/push/subscribe', ...)]; [db_ok] tells whether the
    database answers. *)
Definition push_subscribe (db_ok : bool) (now : Z) (ep : string) (ks : option value)
    : M (list subscription) response :=
  try_catch
    (let! coll := (if db_ok then gets id else lift (Throw NetworkError)) in
     match findOne ep coll with
     | Some existing => ret (Reply 200 (message_body "Already subscribed"))
     | None =>
         modify (λ c, c ++ [Subscription ep ks now]);;
         ret (Reply 200 (message_body "Subscribed successfully"))
     end)
    (λ _, ret (Reply 500 (error_body "Server error"))).

End Mongo.

(** ** Sample requests and states *)
Module Sample.

Import Cloud.

Definition clock : env :=
  Env 1700000000000 "2023-11-14T22:13:20.000Z" "2023-11-14T22:13:20.005Z" true 1700000000010.

Definition later : env :=
  Env 1700000000999 "2023-11-14T22:13:20.999Z" "2023-11-14T22:13:21.005Z" true 1700000001010.

Definition article_A : value :=
  VObj {[ "title"%string := VStr "A"; "category"%string := VStr "C" ]}.

Definition article_B : value :=
  VObj {[ "title"%string := VStr "B"; "category"%string := VStr "C" ]}.

(** A server that has handled one [POST /articles]. *)
Definition one_article : world :=
  after true ∅ [Request clock (PostArticle article_A None)].

(** A server that has handled two [POST /articles] within one
    millisecond. *)
Definition twins : world :=
  after true ∅ [Request clock (PostArticle article_A None);
                Request clock (PostArticle article_B None)].

Definition file_clock : JsonFile.env :=
  JsonFile.Env 1700000000000 "2023-11-14T22:13:20.000Z" 1700000000010 true.

(** The disk of a server on JSON files after its first start. *)
Definition fresh_disk : JsonFile.disk := JsonFile.init_files (JsonFile.Disk ∅ ∅).



Definition alice : value :=
  VObj {[ "name"%string := VStr "Alice"; "email"%string := VStr "alice@muk.ac.zm";
          "password"%string := VStr "s3cret!" ]}.

Definition bob : value :=
  VObj {[ "name"%string := VStr "Bob"; "email"%string := VStr "bob@muk.ac.zm";
          "password"%string := VStr "hunter22" ]}.

Definition device : value :=
  VObj {[ "endpoint"%string := VStr "https://push.example/device-1";
          "keys"%string := VObj {[ "auth"%string := VStr "k1" ]} ]}.

(** A server that holds the subscription of [device]. *)
Definition subscribed : world :=
  (run (push_subscribe device) (World initial_store ∅)).1.

Definition font_payload : value := VObj {[ "font_size"%string := VNum 18 ]}.

Definition file_one : JsonFile.disk :=
  (run (JsonFile.post_article file_clock article_A None) fresh_disk).1.


(** A log-in with the email of [alice] and a password that is not hers,
    and a second registration with her email. *)
Definition mallory : value :=
  VObj {[ "email"%string := VStr "alice@muk.ac.zm"; "password"%string := VStr "letmein" ]}.


(** A registration with a password of five characters. *)
Definition short_password : value :=
  VObj {[ "name"%string := VStr "Carol"; "email"%string := VStr "carol@muk.ac.zm";
          "password"%string := VStr "12345" ]}.




(** The disk of [file_one] after a write of the articles file that was
    cut short. *)
Definition torn_disk : JsonFile.disk :=
  JsonFile.Disk (<[JsonFile.ARTICLES_FILE := Garbled "[{"]> (JsonFile.data file_one))
                (JsonFile.uploads file_one).

End Sample.

(** * Properties *)

#[local] Arguments get_prop : simpl never.
#[local] Arguments loose_eq : simpl never.
#[local] Arguments strict_eq : simpl never.
#[local] Arguments truthy : simpl never.

(** ** What a handler preserves *)
Section Preservation.
Context {S : Type} (P : S → Prop).

Lemma preserves_ret {A} (a : A) : preserves P (ret a).
Proof. by intros s. Qed.

Lemma preserves_lift {A} (r : result A) : preserves P (lift r).
Proof. by intros s. Qed.

Lemma preserves_gets {A} (f : S → A) : preserves P (gets f).
Proof. by intros s. Qed.

Lemma preserves_modify (f : S → S) : (∀ s, P s → P (f s)) → preserves P (modify f).
Proof. intros Hf s Hs. by apply Hf. Qed.

Lemma preserves_bind {A B} (m : M S A) (k : A → M S B) :
  preserves P m → (∀ a, preserves P (k a)) → preserves P (bind m k).
Proof.
  intros Hm Hk s Hs. unfold bind. specialize (Hm s Hs).
  destruct (m s) as [s' [a|e]]; [by apply Hk|done].
Qed.

Lemma preserves_bind_gets {A B} (f : S → A) (k : A → M S B) (Q : A → Prop) :
  (∀ s, P s → Q (f s)) → (∀ a, Q a → preserves P (k a)) → preserves P (bind (gets f) k).
Proof. intros Hf Hk s Hs. unfold bind, gets. by apply Hk; [apply Hf|]. Qed.

Lemma preserves_try_catch {A} (m : M S A) (h : exn → M S A) :
  preserves P m → (∀ e, preserves P (h e)) → preserves P (try_catch m h).
Proof.
  intros Hm Hh s Hs. unfold try_catch. specialize (Hm s Hs).
  destruct (m s) as [s' [a|e]]; [done|by apply Hh].
Qed.

Lemma preserves_run (h : M S response) (s : S) : preserves P h → P s → P (run h s).1.
Proof.
  intros Hh Hs. unfold run. specialize (Hh s Hs). by destruct (h s) as [s' [r|e]].
Qed.

End Preservation.

Create HintDb preserve.

Ltac preserve_step :=
  first
    [ solve [auto with preserve]
    | apply preserves_ret | apply preserves_lift | apply preserves_gets
    | apply preserves_bind; [|intros ?]
    | apply preserves_try_catch; [|intros ?]
    | match goal with
      | |- preserves _ (if ?b then _ else _) => destruct b
      | |- preserves _ (match ?x with _ => _ end) => destruct x
      end ].

Import Cloud.
Import Sample.

(** ** The collections stay truthy *)

Ltac truthy_setter :=
  intros Hv; apply preserves_modify; intros [[] ?] Hw;
  unfold truthy_world, collections_truthy, with_users, with_articles, with_config,
    with_understanding in *;
  cbn [mem users articles config understanding] in *;
  rewrite ?andb_true_iff in Hw |- *; tauto.

Lemma truthy_set_users (v : value) :
  truthy (Some v) = true → preserves truthy_world (set_users v).
Proof. truthy_setter. Qed.

Lemma truthy_set_articles (v : value) :
  truthy (Some v) = true → preserves truthy_world (set_articles v).
Proof. truthy_setter. Qed.

Lemma truthy_set_config (v : value) :
  truthy (Some v) = true → preserves truthy_world (set_config v).
Proof. truthy_setter. Qed.

Lemma truthy_set_understanding (v : value) :
  truthy (Some v) = true → preserves truthy_world (set_understanding v).
Proof. truthy_setter. Qed.

Lemma truthy_set_pushSubscriptions (v : value) :
  preserves truthy_world (set_pushSubscriptions v).
Proof. apply preserves_modify. by intros [[] c]. Qed.

Lemma truthy_set_cloud (c : gmap string text) : preserves truthy_world (set_cloud c).
Proof. apply preserves_modify. by intros [[] c']. Qed.

Lemma truthy_save (e : env) : preserves truthy_world (saveDataToCloudinary e).
Proof.
  unfold saveDataToCloudinary, upload_stream.
  repeat preserve_step. apply truthy_set_cloud.
Qed.

#[local] Hint Resolve truthy_set_users truthy_set_articles truthy_set_config
  truthy_set_understanding truthy_set_pushSubscriptions truthy_set_cloud truthy_save : preserve.

Lemma truthy_handle (e : env) (r : request) : preserves truthy_world (handle e r).
Proof.
  destruct r; simpl;
    unfold register, login, get_users, delete_user, get_articles, get_article,
      post_article, put_article, delete_article, get_config, post_config,
      get_understanding, get_understanding_of, post_understanding,
      push_subscribe, push_unsubscribe;
    repeat preserve_step.
Qed.


(** ** Snapshots: flush and hydrate *)



(** Reading a property throws for [null] only, whatever the property. *)
Lemma get_prop_throws (v : value) (k : string) (e : exn) :
  get_prop (Some v) k = Throw e → v = VNull.
Proof. by destruct v. Qed.

Lemma get_prop_total (v : value) (k : string) :
  v ≠ VNull → ∃ r, get_prop (Some v) k = Ok r.
Proof. destruct v; simpl; eauto; done. Qed.

Lemma snapshot_lookup (s : store) (iso : string) :
  get_prop (Some (snapshot s iso)) "users" = Ok (Some (users s)) ∧
  get_prop (Some (snapshot s iso)) "articles" = Ok (Some (articles s)) ∧
  get_prop (Some (snapshot s iso)) "config" = Ok (Some (config s)) ∧
  get_prop (Some (snapshot s iso)) "understanding" = Ok (Some (understanding s)) ∧
  get_prop (Some (snapshot s iso)) "lastUpdated" = Ok (Some (VStr iso)).
Proof. repeat split. Qed.

Lemma snapshot_keys (s : store) (iso : string) :
  ∃ o, snapshot s iso = VObj o ∧
       dom o = {[ "users"; "articles"; "config"; "understanding"; "lastUpdated" ]}%string.
Proof.
  eexists. split; [reflexivity|].
  unfold object. simpl. unfold set_field. simpl.
  rewrite !dom_insert_L, dom_empty_L. set_solver.
Qed.




Lemma or_else_keeps_truthy (a : option value) (b : value) :
  truthy (Some b) = true → truthy (Some (or_else a b)) = true.
Proof.
  intros Hb. unfold or_else. destruct a as [v|]; [|done].
  by destruct (truthy (Some v)) eqn:Hv.
Qed.

#[local] Hint Resolve or_else_keeps_truthy : preserve.

Lemma truthy_config (w : world) : truthy_world w → truthy (Some (config (mem w))) = true.
Proof.
  unfold truthy_world, collections_truthy. rewrite !andb_true_iff. tauto.
Qed.

Lemma truthy_load (fetch : bool) : preserves truthy_world (loadDataFromCloudinary fetch).
Proof.
  unfold loadDataFromCloudinary, api_resource, https_get.
  repeat first
    [ match goal with
      | |- preserves truthy_world (bind (gets (λ w, config (mem w))) _) =>
          apply (preserves_bind_gets _ _ _ (λ a, truthy (Some a) = true));
          [intros ?; apply truthy_config | intros ? ?]
      end
    | preserve_step ].
Qed.

Lemma truthy_startup (fetch : bool) (c : gmap string text) :
  truthy_world (boot_world (startup fetch c)).
Proof.
  unfold startup.
  pose proof (truthy_load fetch (World initial_store c) eq_refl) as H.
  by destruct (loadDataFromCloudinary fetch (World initial_store c)) as [w [l|e]].
Qed.

Lemma truthy_step (w : world) (ev : event) : truthy_world w → truthy_world (step w ev).
Proof.
  intros Hw. destruct ev as [e r|e|fetch]; simpl.
  - by apply preserves_run; [apply truthy_handle|].
  - by apply truthy_save.
  - apply truthy_startup.
Qed.

(** Whatever has happened to the server, its four collections are
    truthy. *)
Lemma truthy_after (fetch : bool) (c : gmap string text) (evs : list event) :
  truthy_world (after fetch c evs).
Proof.
  unfold after. generalize (truthy_startup fetch c).
  generalize (boot_world (startup fetch c)).
  induction evs as [|ev evs IH]; intros w Hw; simpl; [done|].
  by apply IH, truthy_step.
Qed.


Lemma save_uploads (e : env) (w : world) :
  save_ok e = true →
  saveDataToCloudinary e w =
    (World (mem w) (<[database := JSON_stringify (snapshot (mem w) (save_iso e))]> (cloud w)),
     Ok true).
Proof.
  intros He. cbv [saveDataToCloudinary try_catch bind gets upload_stream ret]. rewrite He.
  by destruct w.
Qed.

Lemma save_fails (e : env) (w : world) :
  save_ok e = false → saveDataToCloudinary e w = (w, Ok false).
Proof.
  intros He. cbv [saveDataToCloudinary try_catch bind gets upload_stream ret lift]. by rewrite He.
Qed.




(** ** A failed load *)








(** ** Numbers and their decimal rendering *)
Section Decimal_rendering.
Import Decimal.

Lemma render_trim_left (d : uint) :
  trim_left (NilEmpty.string_of_uint d) = NilEmpty.string_of_uint d.
Proof. by destruct d. Qed.

Lemma render_trim_right (d : uint) :
  trim_right (NilEmpty.string_of_uint d) = NilEmpty.string_of_uint d.
Proof.
  induction d as [|d IH|d IH|d IH|d IH|d IH|d IH|d IH|d IH|d IH|d IH]; [done|..];
    cbn [NilEmpty.string_of_uint trim_right]; rewrite IH;
    by destruct (NilEmpty.string_of_uint d).
Qed.

Lemma render_digit_prefix (d : uint) :
  digit_prefix (NilEmpty.string_of_uint d) = NilEmpty.string_of_uint d.
Proof.
  induction d as [|d IH|d IH|d IH|d IH|d IH|d IH|d IH|d IH|d IH|d IH]; [done|..];
    cbn [NilEmpty.string_of_uint digit_prefix]; by rewrite IH.
Qed.

Lemma render_digits (d : uint) :
  d ≠ Nil → digits (NilEmpty.string_of_uint d) = Some (Z.of_N (N.of_uint d)).
Proof.
  intros Hd. unfold digits. rewrite NilEmpty.usu.
  by destruct d.
Qed.

Lemma render_positive (p : positive) :
  NilZero.string_of_uint (Pos.to_uint p) = NilEmpty.string_of_uint (Pos.to_uint p).
Proof.
  pose proof (DecimalPos.Unsigned.to_uint_nonnil p). by destruct (Pos.to_uint p).
Qed.

Lemma digits_positive (p : positive) :
  digits (NilEmpty.string_of_uint (Pos.to_uint p)) = Some (Z.pos p).
Proof.
  rewrite render_digits by apply DecimalPos.Unsigned.to_uint_nonnil.
  unfold N.of_uint. by rewrite DecimalPos.Unsigned.of_to.
Qed.

(** [Number(String(n))] is [n]. *)
Lemma StringToNumber_NumberToString (n : Z) : StringToNumber (NumberToString n) = Some n.
Proof.
  destruct n as [|p|p]; [done|..]; unfold NumberToString, StringToNumber, trim; simpl Z.to_int;
    cbn [NilZero.string_of_int]; rewrite render_positive.
  - rewrite render_trim_left, render_trim_right.
    pose proof (digits_positive p) as Hp.
    pose proof (DecimalPos.Unsigned.to_uint_nonnil p).
    by destruct (Pos.to_uint p).
  - cbn [trim_left]. 
    change (is_space "-") with false. cbn [trim_right]. rewrite render_trim_right.
    pose proof (digits_positive p) as Hp.
    pose proof (DecimalPos.Unsigned.to_uint_nonnil p).
    destruct (NilEmpty.string_of_uint (Pos.to_uint p)) eqn:Hs.
    + by destruct (Pos.to_uint p).
    + by rewrite Hp.
Qed.

Lemma render_no_prefix (d : uint) :
  unsigned_prefix (NilEmpty.string_of_uint d) =
    digits (digit_prefix (NilEmpty.string_of_uint d)).
Proof. destruct d as [|d|d|d|d|d|d|d|d|d|d]; try done. by destruct d. Qed.

Lemma render_unsigned (p : positive) :
  unsigned_prefix (NilEmpty.string_of_uint (Pos.to_uint p)) = Some (Z.pos p).
Proof. by rewrite render_no_prefix, render_digit_prefix, digits_positive. Qed.

(** [parseInt(String(n))] is [n]. *)
Lemma parseInt_NumberToString (n : Z) : parseInt (NumberToString n) = Some n.
Proof.
  destruct n as [|p|p]; [done|..]; unfold NumberToString, parseInt; simpl Z.to_int;
    cbn [NilZero.string_of_int]; rewrite render_positive.
  - rewrite render_trim_left.
    pose proof (render_unsigned p) as Hp.
    pose proof (DecimalPos.Unsigned.to_uint_nonnil p).
    by destruct (Pos.to_uint p).
  - cbn [trim_left]. change (is_space "-") with false. cbn iota.
    by rewrite render_unsigned.
Qed.

End Decimal_rendering.

(** A stored numeric id is found under its own rendering. *)
Lemma loose_eq_number (n : Z) : loose_eq (Some (VNum n)) (NumberToString n) = Ok true.
Proof.
  unfold loose_eq. rewrite StringToNumber_NumberToString. by rewrite bool_decide_eq_true_2.
Qed.

(** ** Searching an array *)
Section Search.
Variable p : value → result bool.


Lemma find_no_match (l : list value) :
  Forall (λ a, p a = Ok false) l → find p l = Ok None.
Proof.
  induction 1 as [|a l Ha _ IH]; [done|]. simpl. by rewrite Ha.
Qed.

Lemma find_last (l : list value) (x : value) :
  Forall (λ a, p a = Ok false) l → p x = Ok true → find p (l ++ [x]) = Ok (Some x).
Proof.
  intros Hl Hx. induction Hl as [|a l Ha _ IH]; simpl; [by rewrite Hx|by rewrite Ha].
Qed.



End Search.

(** ** Articles of the in-memory server *)

Lemma save_mem (e : env) (w : world) : mem (saveDataToCloudinary e w).1 = mem w.
Proof.
  destruct (save_ok e) eqn:He; [by rewrite save_uploads|by rewrite save_fails].
Qed.

Lemma save_returns (e : env) (w : world) : (saveDataToCloudinary e w).2 = Ok (save_ok e).
Proof.
  destruct (save_ok e) eqn:He; [by rewrite save_uploads|by rewrite save_fails].
Qed.

Lemma get_article_spec (id : string) (w : world) (l : list value) :
  articles (mem w) = VArr l →
  run (get_article id) w =
    (w, match find (id_loosely id) l with
        | Ok article => if truthy article then Reply 200 article
                        else Reply 404 (error_body "Article not found")
        | Throw e => Unhandled e
        end).
Proof.
  intros Hl. cbv [run get_article bind gets lift ret]. rewrite Hl. cbv [as_array].
  destruct (find (id_loosely id) l) as [a|]; [|done]. by destruct (truthy a).
Qed.

Lemma delete_article_spec (e : env) (id : string) (w : world) (l : list value) :
  articles (mem w) = VArr l →
  run (delete_article e id) w =
    match findIndex (id_loosely id) l with
    | Ok None => (w, Reply 404 (error_body "Article not found"))
    | Ok (Some i) =>
        ((saveDataToCloudinary e (World (with_articles (VArr (delete i l)) (mem w)) (cloud w))).1,
         Reply 200 (message_body "Article deleted successfully"))
    | Throw err => (w, ServerError err)
    end.
Proof.
  intros Hl. cbv [run delete_article try_catch bind gets lift ret set_articles modify].
  rewrite Hl. cbv [as_array].
  destruct (findIndex (id_loosely id) l) as [[i|]|]; [|done..].
  pose proof (save_returns e (World (with_articles (VArr (delete i l)) (mem w)) (cloud w))) as Hs.
  destruct (saveDataToCloudinary e _) as [w' r]. simpl in Hs. by subst r.
Qed.

Lemma put_article_spec (e : env) (id : string) (body : value) (f : option file)
    (w : world) (l : list value) :
  articles (mem w) = VArr l → body ≠ VNull →
  run (put_article e id body f) w =
    match findIndex (id_loosely id) l with
    | Ok None => (w, Reply 404 (error_body "Article not found"))
    | Ok (Some i) =>
        let pdf := match f with
                   | Some f => [("pdfName", f !! "originalname");
                                ("pdfUrl", file_url f);
                                ("pdfFile", Some (VBool true))]%string
                   | None => []
                   end in
        let fields := (λ k, (k, match get_prop (Some body) k with Ok v => v | Throw _ => None end))
                        <$> article_fields in
        let updated := VObj (set_fields (fields ++ pdf) (own_props (l !! i))) in
        ((saveDataToCloudinary e (World (with_articles (VArr (<[i := updated]> l)) (mem w)) (cloud w))).1,
         Reply 200 (Some updated))
    | Throw err => (w, ServerError err)
    end.
Proof.
  intros Hl Hb.
  assert (read_fields body article_fields =
          Ok ((λ k, (k, match get_prop (Some body) k with Ok v => v | Throw _ => None end))
                <$> article_fields)) as Hf.
  { unfold article_fields. simpl.
    repeat match goal with
    | |- context [get_prop (Some body) ?k] =>
        destruct (get_prop_total body k Hb) as [? ->]; simpl
    end. done. }
  cbv [run put_article try_catch bind gets lift ret set_articles modify].
  rewrite Hf, Hl. cbv [as_array].
  destruct (findIndex (id_loosely id) l) as [[i|]|]; [|done..].
  match goal with |- context [saveDataToCloudinary e ?w0] =>
    pose proof (save_returns e w0) as Hs; destruct (saveDataToCloudinary e w0) as [w' r] end.
  simpl in Hs. by subst r.
Qed.

Lemma post_article_spec (e : env) (body : value) (f : option file) (w : world) (l : list value) :
  articles (mem w) = VArr l → body ≠ VNull →
  run (post_article e body f) w =
    if truthy (match get_prop (Some body) "title" with Ok v => v | Throw _ => None end) &&
       truthy (match get_prop (Some body) "category" with Ok v => v | Throw _ => None end)
    then
      ((saveDataToCloudinary e
          (World (with_articles (VArr (l ++ [VObj (new_article e body f)])) (mem w)) (cloud w))).1,
       Reply 200 (Some (VObj (new_article e body f))))
    else (w, Reply 400 (error_body "Title and category are required")).
Proof.
  intros Hl Hb.
  assert (read_fields body article_fields =
          Ok ((λ k, (k, match get_prop (Some body) k with Ok v => v | Throw _ => None end))
                <$> article_fields)) as Hf.
  { unfold article_fields. simpl.
    repeat match goal with
    | |- context [get_prop (Some body) ?k] =>
        destruct (get_prop_total body k Hb) as [? ->]; simpl
    end. done. }
  unfold new_article.
  cbv [run post_article try_catch bind gets lift ret set_articles modify].
  rewrite Hf.
  destruct (get_prop_total body "title" Hb) as [title ->].
  destruct (get_prop_total body "category" Hb) as [category ->].
  destruct (truthy title), (truthy category); cbn [negb orb andb]; try done.
  rewrite Hl. cbv [as_array].
  match goal with |- context [saveDataToCloudinary e ?w0] =>
    pose proof (save_returns e w0) as Hs; destruct (saveDataToCloudinary e w0) as [w' r] end.
  simpl in Hs. subst r. reflexivity.
Qed.

(** ** Articles of the server on JSON files *)

Lemma readJSON_stored (filePath : string) (d : JsonFile.disk) :
  JsonFile.readJSON filePath d = (d, Ok (JsonFile.stored filePath d)).
Proof.
  unfold JsonFile.stored. cbv [JsonFile.readJSON bind gets ret].
  destruct (JsonFile.data d !! filePath) as [[v|raw]|]; simpl; done.
Qed.

Lemma stored_after_write (filePath : string) (v : value) (d : JsonFile.disk) (u : gset string) :
  JsonFile.stored filePath (JsonFile.Disk (<[filePath := JSON_stringify v]> (JsonFile.data d)) u) = v.
Proof.
  unfold JsonFile.stored. cbv [JsonFile.readJSON bind gets ret JsonFile.data].
  by rewrite lookup_insert_eq.
Qed.

Lemma json_get_article_spec (id : string) (d : JsonFile.disk) (l : list value) :
  JsonFile.stored JsonFile.ARTICLES_FILE d = VArr l →
  run (JsonFile.get_article id) d =
    (d, match find (id_strictly id) l with
        | Ok article => if truthy article then Reply 200 article
                        else Reply 404 (error_body "Article not found")
        | Throw e => Unhandled e
        end).
Proof.
  intros Hl. unfold run, JsonFile.get_article, bind. rewrite readJSON_stored, Hl.
  cbv [lift as_array ret].
  destruct (find (id_strictly id) l) as [a|]; [|done]. by destruct (truthy a).
Qed.




(** ** Object literals *)

Lemma lookup_set_field (k k' : string) (e : option value) (o : gmap string value) :
  set_field k e o !! k' = if bool_decide (k = k') then e else o !! k'.
Proof.
  unfold set_field. case_bool_decide as Hk.
  - subst k'. destruct e; [apply lookup_insert_eq|apply lookup_delete_eq].
  - destruct e; [by apply lookup_insert_ne|by apply lookup_delete_ne].
Qed.

Lemma lookup_set_fields (fields : list (string * option value)) (o : gmap string value) (k : string) :
  set_fields fields o !! k =
    match binding k fields with Some e => e | None => o !! k end.
Proof.
  unfold set_fields, binding.
  induction fields as [|[k' e] fields IH] using rev_ind; [done|].
  rewrite !foldl_app. simpl. rewrite lookup_set_field.
  by case_bool_decide.
Qed.

Lemma lookup_object (fields : list (string * option value)) (k : string) :
  object fields !! k = match binding k fields with Some e => e | None => None end.
Proof. unfold object. by rewrite lookup_set_fields, lookup_empty. Qed.

(** ** Looking an article up by id *)






(** ** Creating an article *)

Lemma new_article_id (e : env) (body : value) (f : option file) :
  new_article e body f !! "id"%string = Some (VNum (date_now e)).
Proof. unfold new_article. by rewrite lookup_object. Qed.

Lemma new_article_field (e : env) (body : value) (f : option file) (k : string) :
  body ≠ VNull → k ∈ article_fields →
  get_prop (Some body) k = Ok (new_article e body f !! k).
Proof.
  intros Hb Hk. destruct (get_prop_total body k Hb) as [v Hv]. rewrite Hv. f_equal.
  unfold new_article. rewrite lookup_object.
  unfold article_fields in *. cbn [fmap list_fmap app].
  repeat (apply elem_of_cons in Hk as [->|Hk]; [rewrite Hv; reflexivity|]).
  by apply elem_of_nil in Hk.
Qed.

Lemma new_article_found (e : env) (body : value) (f : option file) :
  id_loosely (NumberToString (date_now e)) (VObj (new_article e body f)) = Ok true.
Proof.
  unfold id_loosely. cbn [get_prop]. unfold get_prop. rewrite new_article_id.
  apply loose_eq_number.
Qed.

Lemma json_new_article_id (e : JsonFile.env) (body : value) (f : option file) :
  JsonFile.new_article e body f !! "id"%string = Some (VNum (JsonFile.date_now e)).
Proof. unfold JsonFile.new_article. by rewrite lookup_object. Qed.

Lemma json_new_article_field (e : JsonFile.env) (body : value) (f : option file) (k : string) :
  body ≠ VNull → k ∈ article_fields →
  get_prop (Some body) k = Ok (JsonFile.new_article e body f !! k).
Proof.
  intros Hb Hk. destruct (get_prop_total body k Hb) as [v Hv]. rewrite Hv. f_equal.
  unfold JsonFile.new_article. rewrite lookup_object.
  unfold article_fields in *. cbn [fmap list_fmap app].
  repeat (apply elem_of_cons in Hk as [->|Hk]; [rewrite Hv; reflexivity|]).
  by apply elem_of_nil in Hk.
Qed.

Lemma json_new_article_found (e : JsonFile.env) (body : value) (f : option file) :
  id_strictly (NumberToString (JsonFile.date_now e)) (VObj (JsonFile.new_article e body f)) = Ok true.
Proof.
  unfold id_strictly, get_prop. rewrite json_new_article_id. cbn [rbind].
  rewrite parseInt_NumberToString. unfold strict_eq. by rewrite bool_decide_eq_true_2.
Qed.

Lemma json_post_article_spec (e : JsonFile.env) (body : value) (f : option file)
    (d : JsonFile.disk) (l : list value) :
  JsonFile.stored JsonFile.ARTICLES_FILE d = VArr l → body ≠ VNull →
  JsonFile.write_ok e = true →
  run (JsonFile.post_article e body f) d =
    (JsonFile.Disk (<[JsonFile.ARTICLES_FILE :=
                       JSON_stringify (VArr (l ++ [VObj (JsonFile.new_article e body f)]))]>
                      (JsonFile.data d)) (JsonFile.uploads d),
     Reply 200 (Some (VObj (JsonFile.new_article e body f)))).
Proof.
  intros Hl Hb Hw.
  assert (read_fields body article_fields =
          Ok ((λ k, (k, match get_prop (Some body) k with Ok v => v | Throw _ => None end))
                <$> article_fields)) as Hf.
  { unfold article_fields. simpl.
    repeat match goal with
    | |- context [get_prop (Some body) ?k] =>
        destruct (get_prop_total body k Hb) as [? ->]; simpl
    end. done. }
  unfold run, JsonFile.post_article, bind, lift. rewrite Hf, readJSON_stored, Hl.
  cbv [as_array]. unfold JsonFile.writeJSON. rewrite Hw. reflexivity.
Qed.

(** C4, as the servers have it. When no article already stored has the
    id that the clock gives the new one, a lookup of that id after a
    successful create returns the article created: the six fields of the
    request and the id assigned. On JSON files the create has to have
    written the file. *)
Theorem insert_then_get_by_id (body : value) (f : option file) :
  body ≠ VNull →
  (∀ (e : env) (w : world) (l : list value) (b : option value),
     articles (mem w) = VArr l →
     Forall (λ a, id_loosely (NumberToString (date_now e)) a = Ok false) l →
     (run (post_article e body f) w).2 = Reply 200 b →
     let w1 := (run (post_article e body f) w).1 in
     ∃ article,
       b = Some (VObj article) ∧
       article !! "id"%string = Some (VNum (date_now e)) ∧
       (∀ k, k ∈ article_fields → get_prop (Some body) k = Ok (article !! k)) ∧
       run (get_article (NumberToString (date_now e))) w1 = (w1, Reply 200 (Some (VObj article)))) ∧
  (∀ (e : JsonFile.env) (d : JsonFile.disk) (l : list value),
     JsonFile.stored JsonFile.ARTICLES_FILE d = VArr l →
     Forall (λ a, id_strictly (NumberToString (JsonFile.date_now e)) a = Ok false) l →
     JsonFile.write_ok e = true →
     let d1 := (run (JsonFile.post_article e body f) d).1 in
     ∃ article,
       (run (JsonFile.post_article e body f) d).2 = Reply 200 (Some (VObj article)) ∧
       article !! "id"%string = Some (VNum (JsonFile.date_now e)) ∧
       (∀ k, k ∈ article_fields → get_prop (Some body) k = Ok (article !! k)) ∧
       run (JsonFile.get_article (NumberToString (JsonFile.date_now e))) d1 =
         (d1, Reply 200 (Some (VObj article)))).
Proof.
  intros Hb. split.
  - intros e w l b Hl Hno. rewrite (post_article_spec e body f w l Hl Hb).
    destruct (truthy _ && truthy _); [|done]. cbn [fst snd]. intros [= <-].
    exists (new_article e body f). split; [done|]. split; [apply new_article_id|].
    split; [intros k; by apply new_article_field|].
    set (w1 := (saveDataToCloudinary e _).1).
    assert (articles (mem w1) = VArr (l ++ [VObj (new_article e body f)])) as Hl1
      by (unfold w1; by rewrite save_mem).
    rewrite (get_article_spec _ w1 _ Hl1).
    by rewrite (find_last _ _ _ Hno (new_article_found e body f)).
  - intros e d l Hl Hno Hw. rewrite (json_post_article_spec e body f d l Hl Hb Hw).
    cbn [fst snd]. exists (JsonFile.new_article e body f). split; [done|].
    split; [apply json_new_article_id|].
    split; [intros k; by apply json_new_article_field|].
    rewrite (json_get_article_spec _ _ _ (stored_after_write _ _ d _)).
    by rewrite (find_last _ _ _ Hno (json_new_article_found e body f)).
Qed.

Lemma insert_then_get_by_id_witness :
  article_B ≠ VNull ∧
  (articles (mem one_article) = VArr [VObj (new_article clock article_A None)] ∧
   Forall (λ a, id_loosely (NumberToString (date_now later)) a = Ok false)
     [VObj (new_article clock article_A None)] ∧
   (run (post_article later article_B None) one_article).2 =
     Reply 200 (Some (VObj (new_article later article_B None))) ∧
   ∃ article,
     Some (VObj (new_article later article_B None)) = Some (VObj article) ∧
     article !! "id"%string = Some (VNum (date_now later)) ∧
     (∀ k, k ∈ article_fields → get_prop (Some article_B) k = Ok (article !! k)) ∧
     run (get_article (NumberToString (date_now later)))
         (run (post_article later article_B None) one_article).1 =
       ((run (post_article later article_B None) one_article).1,
        Reply 200 (Some (VObj article)))) ∧
  (JsonFile.stored JsonFile.ARTICLES_FILE fresh_disk = VArr [] ∧
   Forall (λ a, id_strictly (NumberToString (JsonFile.date_now file_clock)) a = Ok false) [] ∧
   JsonFile.write_ok file_clock = true ∧
   ∃ article,
     (run (JsonFile.post_article file_clock article_B None) fresh_disk).2 =
       Reply 200 (Some (VObj article)) ∧
     article !! "id"%string = Some (VNum (JsonFile.date_now file_clock)) ∧
     (∀ k, k ∈ article_fields → get_prop (Some article_B) k = Ok (article !! k)) ∧
     run (JsonFile.get_article (NumberToString (JsonFile.date_now file_clock)))
         (run (JsonFile.post_article file_clock article_B None) fresh_disk).1 =
       ((run (JsonFile.post_article file_clock article_B None) fresh_disk).1,
        Reply 200 (Some (VObj article)))).
Proof.
  assert (article_B ≠ VNull) as H0 by done.
  assert (articles (mem one_article) = VArr [VObj (new_article clock article_A None)]) as H1
    by reflexivity.
  assert (Forall (λ a, id_loosely (NumberToString (date_now later)) a = Ok false)
            [VObj (new_article clock article_A None)]) as H2 by (by repeat constructor).
  assert ((run (post_article later article_B None) one_article).2 =
          Reply 200 (Some (VObj (new_article later article_B None)))) as H3 by reflexivity.
  assert (JsonFile.stored JsonFile.ARTICLES_FILE fresh_disk = VArr []) as H4 by reflexivity.
  assert (Forall (λ a, id_strictly (NumberToString (JsonFile.date_now file_clock)) a = Ok false)
            []) as H5 by constructor.
  assert (JsonFile.write_ok file_clock = true) as H6 by reflexivity.
  split; [exact H0|]. split.
  - split; [exact H1|]. split; [exact H2|]. split; [exact H3|].
    exact (proj1 (insert_then_get_by_id article_B None H0) later one_article _ _ H1 H2 H3).
  - split; [exact H4|]. split; [exact H5|]. split; [exact H6|].
    exact (proj2 (insert_then_get_by_id article_B None H0) file_clock fresh_disk _ H4 H5 H6).
Defined.

(** C4, as stated, fails: an article created in the millisecond of an
    earlier one gets the same id, and the lookup of that id returns the
    earlier article. *)
Lemma insert_then_get_returns_older :
  (run (post_article clock article_B None) one_article).2 =
    Reply 200 (Some (VObj (new_article clock article_B None))) ∧
  new_article clock article_B None !! "id"%string = Some (VNum 1700000000000) ∧
  (run (get_article "1700000000000") (run (post_article clock article_B None) one_article).1).2 =
    Reply 200 (Some (VObj (new_article clock article_A None))) ∧
  new_article clock article_A None !! "title"%string = Some (VStr "A") ∧
  new_article clock article_B None !! "title"%string = Some (VStr "B").
Proof. repeat split; reflexivity. Qed.

(** ** Updating the configuration *)

(** The in-memory server merges: the keys of the request take the
    request's values, every other key keeps its value, and no other
    collection changes. *)
Lemma config_update_merges (e : env) (body : value) (w : world) :
  ∃ merged : gmap string value,
    (run (post_config e body) w).2 = Reply 200 (Some (VObj merged)) ∧
    mem (run (post_config e body) w).1 = with_config (VObj merged) (mem w) ∧
    (∀ k v, own_props (Some body) !! k = Some v → merged !! k = Some v) ∧
    (∀ k, own_props (Some body) !! k = None →
          merged !! k = own_props (Some (config (mem w))) !! k).
Proof.
  exists (own_props (Some body) ∪ own_props (Some (config (mem w)))).
  cbv [run post_config try_catch bind gets set_config modify ret].
  match goal with |- context [saveDataToCloudinary e ?w0] =>
    pose proof (save_returns e w0) as Hs; pose proof (save_mem e w0) as Hm;
    destruct (saveDataToCloudinary e w0) as [w' r] end.
  simpl in Hs, Hm. subst r. cbn [fst snd]. repeat split; [done|..].
  - intros k v Hk. by apply lookup_union_Some_l.
  - intros k Hk. by rewrite lookup_union_r.
Qed.

(** The server on JSON files replaces: what it writes, and what the next
    read of the configuration returns, is the request body. *)
Lemma json_file_config_update_replaces (e : JsonFile.env) (body : value) (d : JsonFile.disk) :
  JsonFile.write_ok e = true →
  (run (JsonFile.post_config e body) d).2 = Reply 200 (Some body) ∧
  JsonFile.stored JsonFile.CONFIG_FILE (run (JsonFile.post_config e body) d).1 = body.
Proof.
  intros Hw. cbv [run JsonFile.post_config JsonFile.writeJSON bind modify ret]. rewrite Hw.
  cbn [fst snd]. split; [done|]. apply stored_after_write.
Qed.

(** C2 fails on the server on JSON files. Its configuration starts with
    the title [MUK-BIOMEDSSA]; after an update that supplies [font_size]
    only, the configuration it serves is that update and has no title. *)
Theorem json_file_config_update_drops_keys :
  (run JsonFile.get_config fresh_disk).2 = Reply 200 (Some (VObj JsonFile.default_config)) ∧
  JsonFile.default_config !! "app_title"%string = Some (VStr "MUK-BIOMEDSSA") ∧
  get_prop (Some font_payload) "app_title" = Ok None ∧
  (run (JsonFile.post_config file_clock font_payload) fresh_disk).2 =
    Reply 200 (Some font_payload) ∧
  (run JsonFile.get_config (run (JsonFile.post_config file_clock font_payload) fresh_disk).1).2 =
    Reply 200 (Some font_payload).
Proof. repeat split; reflexivity. Qed.

(** On the same update the in-memory server keeps the title. *)
Lemma config_update_keeps_title :
  ∃ merged : gmap string value,
    (run (post_config clock font_payload) (World initial_store ∅)).2 =
      Reply 200 (Some (VObj merged)) ∧
    merged !! "font_size"%string = Some (VNum 18) ∧
    merged !! "app_title"%string = Some (VStr "MUK-BIOMEDSSA").
Proof.
  destruct (config_update_merges clock font_payload (World initial_store ∅))
    as (merged & Hr & _ & Hin & Hout).
  exists merged. split; [exact Hr|]. split.
  - by apply Hin.
  - by rewrite Hout.
Qed.

(** ** Understanding materials *)







(** ** What a handler returns *)
Section Returns.
Context {S : Type} (Q : response → Prop).

Lemma returns_ret (r : response) : Q r → returns (S := S) Q (ret r).
Proof. by intros Hr s. Qed.

Lemma returns_bind {A} (m : M S A) (k : A → M S response) :
  (∀ a, returns Q (k a)) → returns Q (bind m k).
Proof.
  intros Hk s. unfold bind. destruct (m s) as [s' [a|e]]; [apply Hk|done].
Qed.

Lemma returns_bind_lift {A} (r : result A) (k : A → M S response) :
  (∀ a, r = Ok a → returns Q (k a)) → returns Q (bind (lift r) k).
Proof.
  intros Hk s. unfold bind, lift. destruct r as [a|e]; [by apply Hk|done].
Qed.

Lemma returns_try_catch (m : M S response) (h : exn → M S response) :
  returns Q m → (∀ e, returns Q (h e)) → returns Q (try_catch m h).
Proof.
  intros Hm Hh s. unfold try_catch. specialize (Hm s).
  destruct (m s) as [s' [a|e]]; [done|apply Hh].
Qed.

Lemma returns_run (h : M S response) (s : S) :
  returns Q h → (∀ e, Q (Unhandled e)) → Q (run h s).2.
Proof.
  intros Hh Hu. unfold run. specialize (Hh s). destruct (h s) as [s' [r|e]]; [done|apply Hu].
Qed.

End Returns.

Ltac returns_step :=
  first
    [ apply returns_try_catch; [|intros ?]
    | apply returns_bind_lift; intros ? ?
    | apply returns_bind; intros ?
    | match goal with
      | |- returns _ (if ?b then _ else _) => destruct b
      | |- returns _ (match ?x with _ => _ end) => destruct x
      end
    | apply returns_ret ].

(** ** Passwords *)

Lemma error_hides_password (status : Z) (msg : string) :
  hides_password (Reply status (error_body msg)).
Proof.
  unfold hides_password, error_body, get_prop. intros u.
  by rewrite lookup_singleton_ne.
Qed.

Lemma rest_without_password (v : option value) (rest : gmap string value) :
  rest_without "password" v = Ok rest → no_password (VObj rest).
Proof.
  unfold rest_without, no_password, get_prop.
  destruct v as [[]|]; try done; intros [= <-]; by rewrite lookup_delete_eq.
Qed.

Lemma user_hides_password (v : option value) (rest : gmap string value) (sess : value) :
  rest_without "password" v = Ok rest →
  hides_password (Reply 200 (Some (VObj (object [("user", Some (VObj rest));
                                                  ("session", Some sess)]%string)))).
Proof.
  intros Hrest u. unfold get_prop at 1. rewrite lookup_object. simpl.
  intros [= <-]. by eapply rest_without_password.
Qed.

Lemma safe_users_hide_password (l safeUsers : list value) :
  map_array (λ u, let* userWithoutPassword := rest_without "password" (Some u) in
                  Ok (VObj userWithoutPassword)) l = Ok safeUsers →
  Forall no_password safeUsers.
Proof.
  revert safeUsers. induction l as [|u l IH]; intros safeUsers; cbn [map_array];
    [intros [= <-]; constructor|].
  destruct (rest_without "password" (Some u)) as [rest|] eqn:Hrest; cbn [rbind]; [|done].
  destruct (map_array _ l) as [r|]; cbn [rbind]; [|done].
  intros [= <-]. constructor; [by eapply rest_without_password|by apply IH].
Qed.

Lemma register_hides_password (e : env) (body : value) :
  returns (S := world) hides_password (register e body).
Proof.
  unfold register.
  repeat returns_step; try apply error_hides_password; try done.
  by eapply user_hides_password.
Qed.

Lemma login_hides_password (e : env) (body : value) :
  returns (S := world) hides_password (login e body).
Proof.
  unfold login.
  repeat returns_step; try apply error_hides_password; try done.
  by eapply user_hides_password.
Qed.

Lemma get_users_hides_password : returns (S := world) hides_password get_users.
Proof.
  unfold get_users.
  repeat returns_step; try done.
  by eapply safe_users_hide_password.
Qed.

Lemma json_register_hides_password (e : JsonFile.env) (body : value) :
  returns (S := JsonFile.disk) hides_password (JsonFile.register e body).
Proof.
  unfold JsonFile.register.
  repeat returns_step; try apply error_hides_password; try done.
  by eapply user_hides_password.
Qed.

Lemma json_login_hides_password (e : JsonFile.env) (body : value) :
  returns (S := JsonFile.disk) hides_password (JsonFile.login e body).
Proof.
  unfold JsonFile.login.
  repeat returns_step; try apply error_hides_password; try done.
  by eapply user_hides_password.
Qed.

(** ** Registering a user *)

(** A registration either stores the new user, password included, after
    the users there were, and answers 200 with that user less the
    password; or it changes nothing and answers something else. *)
Lemma register_cases (e : env) (body : value) (w : world) (l : list value) :
  users (mem w) = VArr l →
  ((run (register e body) w).2 =
     Reply 200 (Some (VObj (object [("user", Some (VObj (delete "password" (new_user e body))));
                                    ("session", Some (session e))]%string))) ∧
   mem (run (register e body) w).1 = with_users (VArr (l ++ [VObj (new_user e body)])) (mem w) ∧
   get_prop (Some body) "password" = Ok (new_user e body !! "password"%string) ∧
   truthy (new_user e body !! "password"%string) = true) ∨
  ((run (register e body) w).1 = w ∧ replied_ok (run (register e body) w).2 = false).
Proof.
  intros Hl. unfold new_user.
  cbv [run register try_catch bind gets lift ret set_users modify].
  destruct (get_prop (Some body) "name") as [name|]; [|by right].
  destruct (get_prop (Some body) "email") as [email|]; [|by right].
  destruct (get_prop (Some body) "password") as [password|]; [|by right].
  destruct (truthy name); [|by right].
  destruct (truthy email); [|by right].
  destruct (truthy password) eqn:Hp; [|by right]. cbn [negb orb].
  destruct (get_prop password "length") as [len|]; [|by right].
  destruct (less_than len 6) as [[]|]; [by right| |by right].
  rewrite Hl. cbv [as_array].
  destruct (find _ l) as [taken|]; [|by right].
  destruct (truthy taken); [by right|].
  match goal with |- context [saveDataToCloudinary ?e0 ?w0] =>
    pose proof (save_returns e0 w0) as Hs; pose proof (save_mem e0 w0) as Hm;
    destruct (saveDataToCloudinary e0 w0) as [w' r] end.
  simpl in Hs, Hm. subst r. cbv [rest_without own_props]. cbn [fst snd].
  left. split; [done|]. split; [done|].
  rewrite lookup_object. by cbn.
Qed.

(** C9. No response of register, login or the list of users carries a
    user record with a [password], in memory and on JSON files, although a
    registration stores the password as it was sent. *)
Theorem responses_hide_password :
  (∀ (e : env) (body : value) (w : world), hides_password (run (register e body) w).2) ∧
  (∀ (e : env) (body : value) (w : world), hides_password (run (login e body) w).2) ∧
  (∀ w : world, hides_password (run get_users w).2) ∧
  (∀ (e : JsonFile.env) (body : value) (d : JsonFile.disk),
     hides_password (run (JsonFile.register e body) d).2) ∧
  (∀ (e : JsonFile.env) (body : value) (d : JsonFile.disk),
     hides_password (run (JsonFile.login e body) d).2) ∧
  (∀ (e : env) (body : value) (w : world) (l : list value),
     users (mem w) = VArr l →
     replied_ok (run (register e body) w).2 = true →
     users (mem (run (register e body) w).1) = VArr (l ++ [VObj (new_user e body)]) ∧
     get_prop (Some body) "password" = Ok (new_user e body !! "password"%string) ∧
     truthy (new_user e body !! "password"%string) = true).
Proof.
  split; [|split; [|split; [|split; [|split]]]].
  - intros e body w. by apply returns_run; [apply register_hides_password|].
  - intros e body w. by apply returns_run; [apply login_hides_password|].
  - intros w. by apply returns_run; [apply get_users_hides_password|].
  - intros e body d. by apply returns_run; [apply json_register_hides_password|].
  - intros e body d. by apply returns_run; [apply json_login_hides_password|].
  - intros e body w l Hl Hok.
    destruct (register_cases e body w l Hl) as [(_ & Hm & Hp & Ht)|[_ Hr]]; [|congruence].
    by rewrite Hm.
Qed.

Lemma responses_hide_password_witness :
  users (mem (World initial_store ∅)) = VArr [] ∧
  replied_ok (run (register clock alice) (World initial_store ∅)).2 = true ∧
  users (mem (run (register clock alice) (World initial_store ∅)).1) =
    VArr [VObj (new_user clock alice)] ∧
  new_user clock alice !! "password"%string = Some (VStr "s3cret!") ∧
  (run (register clock alice) (World initial_store ∅)).2 =
    Reply 200 (Some (VObj {[
      "user"%string := VObj {[ "id"%string := VNum 1700000000000;
                               "name"%string := VStr "Alice";
                               "email"%string := VStr "alice@muk.ac.zm";
                               "createdAt"%string := VStr "2023-11-14T22:13:20.000Z" ]};
      "session"%string := VStr "session_1700000000010" ]})) ∧
  hides_password (run (register clock alice) (World initial_store ∅)).2.
Proof.
  assert (users (mem (World initial_store ∅)) = VArr []) as H1 by reflexivity.
  assert (replied_ok (run (register clock alice) (World initial_store ∅)).2 = true) as H2
    by reflexivity.
  pose proof responses_hide_password as (Hreg & _ & _ & _ & _ & Hstored).
  destruct (Hstored clock alice (World initial_store ∅) [] H1 H2) as (Hu & _ & _).
  split; [exact H1|]. split; [exact H2|]. split; [exact Hu|].
  split; [reflexivity|]. split; [vm_compute; reflexivity|]. apply Hreg.
Defined.

(** ** Push subscriptions *)

Lemma find_first_match (p : value → result bool) (l : list value) :
  Forall (λ s, ∃ b, p s = Ok b) l → Exists (λ s, p s = Ok true) l →
  ∃ s, find p l = Ok (Some s) ∧ s ∈ l ∧ p s = Ok true.
Proof.
  induction 1 as [|a l [b Ha] _ IH]; intros Hex; [by apply Exists_nil in Hex|].
  simpl. rewrite Ha. destruct b.
  - exists a. split; [done|]. split; [apply list_elem_of_here|done].
  - apply Exists_cons in Hex as [Hex|Hex]; [congruence|].
    destruct (IH Hex) as (s & Hs & Hin & Hp). exists s. split; [done|].
    split; [by apply list_elem_of_further|done].
Qed.

Lemma endpoint_is_total (endpoint : option value) (l : list value) :
  Forall is_object l → Forall (λ s, ∃ b, endpoint_is endpoint s = Ok b) l.
Proof.
  intros Hl. eapply Forall_impl; [exact Hl|].
  intros s [o ->]. unfold endpoint_is, get_prop. simpl. eauto.
Qed.

Lemma object_truthy (s : value) : is_object s → truthy (Some s) = true.
Proof. by intros [o ->]. Qed.

Lemma present_found (endpoint : option value) (l : list value) :
  Forall is_object l → Exists (λ s, endpoint_is endpoint s = Ok true) l →
  ∃ s, find (endpoint_is endpoint) l = Ok (Some s) ∧ truthy (Some s) = true.
Proof.
  intros Hl Hex.
  destruct (find_first_match _ l (endpoint_is_total endpoint l Hl) Hex) as (s & Hs & Hin & _).
  exists s. split; [done|]. apply object_truthy.
  by apply (proj1 (Forall_forall _ _) Hl).
Qed.

Lemma push_subscribe_present (body : value) (w : world) (l : list value) (endpoint : option value) :
  get_prop (Some body) "endpoint" = Ok endpoint →
  pushSubscriptions (mem w) = VArr l →
  Forall is_object l →
  Exists (λ s, endpoint_is endpoint s = Ok true) l →
  run (Cloud.push_subscribe body) w = (w, Reply 200 (message_body "Subscribed successfully")) ∧
  run (Memory.push_subscribe body) w = (w, Reply 200 (message_body "Subscribed successfully")).
Proof.
  intros Hep Hl Hobj Hex.
  destruct (present_found endpoint l Hobj Hex) as (s & Hs & Ht).
  assert (body ≠ VNull) as Hb by (by intros ->).
  destruct (get_prop_total body "keys" Hb) as [keys Hk].
  split.
  - cbv [run Cloud.push_subscribe try_catch bind gets lift ret]. rewrite Hep, Hk, Hl.
    cbv [as_array]. by rewrite Hs, Ht.
  - cbv [run Memory.push_subscribe bind gets lift ret]. rewrite Hep, Hk, Hl.
    cbv [as_array]. by rewrite Hs, Ht.
Qed.

Lemma push_subscribe_absent (body : value) (w : world) (l : list value) (endpoint keys : option value) :
  get_prop (Some body) "endpoint" = Ok endpoint →
  get_prop (Some body) "keys" = Ok keys →
  pushSubscriptions (mem w) = VArr l →
  Forall (λ s, endpoint_is endpoint s = Ok false) l →
  run (Cloud.push_subscribe body) w =
    (World (with_pushSubscriptions
              (VArr (l ++ [VObj (object [("endpoint", endpoint); ("keys", keys)]%string)])) (mem w))
           (cloud w),
     Reply 200 (message_body "Subscribed successfully")).
Proof.
  intros Hep Hk Hl Hno.
  cbv [run Cloud.push_subscribe try_catch bind gets lift ret set_pushSubscriptions modify].
  rewrite Hep, Hk, Hl. cbv [as_array]. by rewrite (find_no_match _ _ Hno).
Qed.

Lemma mongo_findOne_present (ep : string) (coll : list Mongo.subscription) :
  (∃ s, s ∈ coll ∧ Mongo.endpoint s = ep) → is_Some (Mongo.findOne ep coll).
Proof.
  intros (s & Hin & Hs). unfold Mongo.findOne.
  induction coll as [|a coll IH]; [by apply elem_of_nil in Hin|].
  simpl. case_bool_decide; [done|].
  apply elem_of_cons in Hin as [->|Hin]; [done|by apply IH].
Qed.

Lemma match_or_not (p : value → result bool) (l : list value) :
  Forall (λ s, ∃ b, p s = Ok b) l →
  Exists (λ s, p s = Ok true) l ∨ Forall (λ s, p s = Ok false) l.
Proof.
  induction 1 as [|a l [[] Ha] _ [IH|IH]].
  - right. constructor.
  - left. by apply Exists_cons_hd.
  - left. by apply Exists_cons_hd.
  - left. by apply Exists_cons_tl.
  - right. by constructor.
Qed.

Lemma new_subscription_matches (ep : string) (keys : option value) :
  endpoint_is (Some (VStr ep))
    (VObj (object [("endpoint", Some (VStr ep)); ("keys", keys)]%string)) = Ok true.
Proof.
  unfold endpoint_is, get_prop. rewrite lookup_object.
  cbn. unfold strict_eq.
  rewrite (bool_decide_eq_false_2 ("keys" = "endpoint")%string) by done.
  rewrite (bool_decide_eq_true_2 ("endpoint" = "endpoint")%string) by done.
  by rewrite bool_decide_eq_true_2.
Qed.

(** C10. A subscription whose endpoint a stored subscription already
    has leaves the subscriptions as they are and is answered with a 200:
    in both in-memory servers and in the MongoDB server. So subscribing
    twice with the same endpoint string adds at most one subscription. *)
Theorem subscribe_again_changes_nothing :
  (∀ (body : value) (w : world) (l : list value) (endpoint : option value),
     get_prop (Some body) "endpoint" = Ok endpoint →
     pushSubscriptions (mem w) = VArr l →
     Forall is_object l →
     Exists (λ s, endpoint_is endpoint s = Ok true) l →
     run (Cloud.push_subscribe body) w = (w, Reply 200 (message_body "Subscribed successfully")) ∧
     run (Memory.push_subscribe body) w = (w, Reply 200 (message_body "Subscribed successfully"))) ∧
  (∀ (body : value) (w : world) (l : list value) (ep : string),
     get_prop (Some body) "endpoint" = Ok (Some (VStr ep)) →
     pushSubscriptions (mem w) = VArr l →
     Forall is_object l →
     let w1 := (run (Cloud.push_subscribe body) w).1 in
     run (Cloud.push_subscribe body) w1 = (w1, Reply 200 (message_body "Subscribed successfully"))) ∧
  (∀ (now : Z) (ep : string) (ks : option value) (coll : list Mongo.subscription),
     (∃ s, s ∈ coll ∧ Mongo.endpoint s = ep) →
     run (Mongo.push_subscribe true now ep ks) coll =
       (coll, Reply 200 (message_body "Already subscribed"))).
Proof.
  split; [|split].
  - intros body w l endpoint. apply push_subscribe_present.
  - intros body w l ep Hep Hl Hobj w1. subst w1.
    assert (body ≠ VNull) as Hb by (by intros ->).
    destruct (get_prop_total body "keys" Hb) as [keys Hk].
    destruct (match_or_not _ l (endpoint_is_total (Some (VStr ep)) l Hobj)) as [Hex|Hno].
    + destruct (push_subscribe_present body w l _ Hep Hl Hobj Hex) as [-> _]. cbn [fst].
      by destruct (push_subscribe_present body w l _ Hep Hl Hobj Hex) as [-> _].
    + rewrite (push_subscribe_absent body w l _ _ Hep Hk Hl Hno). cbn [fst].
      eapply push_subscribe_present; [exact Hep|reflexivity|..].
      * apply Forall_app. split; [done|]. constructor; [by eexists|constructor].
      * apply Exists_app. right. apply Exists_cons_hd. apply new_subscription_matches.
  - intros now ep ks coll Hin.
    cbv [run Mongo.push_subscribe try_catch bind gets ret id].
    by destruct (mongo_findOne_present ep coll Hin) as [s ->].
Qed.

Lemma subscribe_again_changes_nothing_witness :
  (get_prop (Some device) "endpoint" = Ok (Some (VStr "https://push.example/device-1")) ∧
   pushSubscriptions (mem subscribed) = VArr [device] ∧
   Forall is_object [device] ∧
   Exists (λ s, endpoint_is (Some (VStr "https://push.example/device-1")) s = Ok true) [device] ∧
   run (Cloud.push_subscribe device) subscribed =
     (subscribed, Reply 200 (message_body "Subscribed successfully")) ∧
   run (Memory.push_subscribe device) subscribed =
     (subscribed, Reply 200 (message_body "Subscribed successfully"))) ∧
  (pushSubscriptions (mem (World initial_store ∅)) = VArr [] ∧
   Forall is_object [] ∧
   run (Cloud.push_subscribe device) (run (Cloud.push_subscribe device) (World initial_store ∅)).1 =
     ((run (Cloud.push_subscribe device) (World initial_store ∅)).1,
      Reply 200 (message_body "Subscribed successfully"))) ∧
  ((∃ s, s ∈ [Mongo.Subscription "https://push.example/device-1" None 1700000000000] ∧
         Mongo.endpoint s = "https://push.example/device-1"%string) ∧
   run (Mongo.push_subscribe true 1700000000999 "https://push.example/device-1" None)
       [Mongo.Subscription "https://push.example/device-1" None 1700000000000] =
     ([Mongo.Subscription "https://push.example/device-1" None 1700000000000],
      Reply 200 (message_body "Already subscribed"))).
Proof.
  assert (get_prop (Some device) "endpoint" = Ok (Some (VStr "https://push.example/device-1")))
    as H1 by reflexivity.
  assert (pushSubscriptions (mem subscribed) = VArr [device]) as H2 by reflexivity.
  assert (Forall is_object [device]) as H3 by (constructor; [by eexists|constructor]).
  assert (Exists (λ s, endpoint_is (Some (VStr "https://push.example/device-1")) s = Ok true)
            [device]) as H4 by (by apply Exists_cons_hd).
  assert (pushSubscriptions (mem (World initial_store ∅)) = VArr []) as H5 by reflexivity.
  assert (Forall is_object []) as H6 by constructor.
  assert (∃ s, s ∈ [Mongo.Subscription "https://push.example/device-1" None 1700000000000] ∧
               Mongo.endpoint s = "https://push.example/device-1"%string) as H7
    by (eexists; split; [apply list_elem_of_here|reflexivity]).
  destruct subscribe_again_changes_nothing as (Hpresent & Htwice & Hmongo).
  split; [|split].
  - split; [exact H1|]. split; [exact H2|]. split; [exact H3|]. split; [exact H4|].
    exact (Hpresent device subscribed _ _ H1 H2 H3 H4).
  - split; [exact H5|]. split; [exact H6|].
    exact (Htwice device (World initial_store ∅) [] _ H1 H5 H6).
  - split; [exact H7|]. exact (Hmongo 1700000000999 _ None _ H7).
Defined.

(** ** Sequences of inserts *)
Section Inserts.
Context {A : Type}.
Variable h : A → M world response.
Variable coll : store → value.
Variable clock_of : A → Z.
Variable record_of : A → value.

(** An insert either answers 200 and appends its record, whose id is the
    clock reading, or changes nothing and answers something else. *)
Hypothesis insert_cases : ∀ (r : A) (w : world) (l : list value),
  coll (mem w) = VArr l →
  (replied_ok (run (h r) w).2 = true ∧
   coll (mem (run (h r) w).1) = VArr (l ++ [record_of r]) ∧
   get_prop (Some (record_of r)) "id" = Ok (Some (VNum (clock_of r)))) ∨
  ((run (h r) w).1 = w ∧ replied_ok (run (h r) w).2 = false).

Lemma serve_inserts (reqs : list A) (w : world) (l : list value) :
  coll (mem w) = VArr l →
  ∃ added,
    coll (mem (serve h reqs w).1) = VArr (l ++ added) ∧
    length added = length (List.filter replied_ok (serve h reqs w).2) ∧
    sublist (ids added) (as_ids (clock_of <$> reqs)).
Proof.
  revert w l. induction reqs as [|r reqs IH]; intros w l Hl.
  - exists []. by rewrite app_nil_r.
  - cbn [serve]. destruct (insert_cases r w l Hl) as [(Hok & Hl1 & Hid)|[Hw Hno]];
      destruct (run (h r) w) as [w1 resp] eqn:Hrun; cbn [fst snd] in *.
    + destruct (IH w1 _ Hl1) as (added & Hl2 & Hlen & Hsub).
      destruct (serve h reqs w1) as [w2 resps]. cbn [fst snd] in *.
      exists (record_of r :: added). cbn [List.filter]. rewrite Hok. cbn [length].
      split; [by rewrite Hl2, <- app_assoc|]. split; [by rewrite Hlen|].
      unfold ids, as_ids. cbn [fmap list_fmap]. rewrite Hid. by apply sublist_skip.
    + subst w1. destruct (IH w l Hl) as (added & Hl2 & Hlen & Hsub).
      destruct (serve h reqs w) as [w2 resps]. cbn [fst snd] in *.
      exists added. cbn [List.filter]. rewrite Hno.
      split; [done|]. split; [done|]. by apply sublist_cons.
Qed.

Lemma serve_inserts_distinct (reqs : list A) (added : list value) :
  sublist (ids added) (as_ids (clock_of <$> reqs)) →
  NoDup (clock_of <$> reqs) → NoDup (ids added).
Proof.
  intros Hsub Hnd. eapply sublist_NoDup; [|exact Hsub].
  unfold as_ids. apply NoDup_fmap_2; [|done]. by intros x y [= ->].
Qed.

End Inserts.

Lemma post_article_cases (r : env * value * option file) (w : world) (l : list value) :
  articles (mem w) = VArr l →
  (replied_ok (run (insert_article r) w).2 = true ∧
   articles (mem (run (insert_article r) w).1) =
     VArr (l ++ [VObj (new_article r.1.1 r.1.2 r.2)]) ∧
   get_prop (Some (VObj (new_article r.1.1 r.1.2 r.2))) "id" = Ok (Some (VNum (date_now r.1.1)))) ∨
  ((run (insert_article r) w).1 = w ∧ replied_ok (run (insert_article r) w).2 = false).
Proof.
  destruct r as [[e body] f]. intros Hl. unfold insert_article. cbn [fst snd].
  assert (body = VNull ∨ body ≠ VNull) as [->|Hb]
    by (destruct body; (by left) || (by right)).
  - right. done.
  - rewrite (post_article_spec e body f w l Hl Hb).
    destruct (truthy _ && truthy _); [left|by right]. cbn [fst snd].
    split; [done|]. rewrite save_mem. split; [done|].
    unfold get_prop. by rewrite new_article_id.
Qed.

Lemma new_user_id (e : env) (body : value) :
  new_user e body !! "id"%string = Some (VNum (date_now e)).
Proof. unfold new_user. by rewrite lookup_object. Qed.

Lemma register_insert_cases (r : env * value) (w : world) (l : list value) :
  users (mem w) = VArr l →
  (replied_ok (run (insert_user r) w).2 = true ∧
   users (mem (run (insert_user r) w).1) = VArr (l ++ [VObj (new_user r.1 r.2)]) ∧
   get_prop (Some (VObj (new_user r.1 r.2))) "id" = Ok (Some (VNum (date_now r.1)))) ∨
  ((run (insert_user r) w).1 = w ∧ replied_ok (run (insert_user r) w).2 = false).
Proof.
  destruct r as [e body]. intros Hl. unfold insert_user. cbn [fst snd].
  destruct (register_cases e body w l Hl) as [(Hr & Hm & _)|?]; [left|by right].
  rewrite Hr, Hm. split; [done|]. split; [done|].
  unfold get_prop. by rewrite new_user_id.
Qed.

(** C7, as the server has it. Of a sequence of inserts into the articles,
    or of registrations, each one that succeeds appends one record: the
    collection grows by as many records as there were successes, none
    replaces another. The id of a record is the reading of the clock at
    its insert, so the ids assigned are pairwise distinct whenever those
    readings are. *)
Theorem inserts_append_with_clock_ids :
  (∀ (reqs : list (env * value * option file)) (w : world) (l : list value),
     articles (mem w) = VArr l →
     ∃ added,
       articles (mem (serve insert_article reqs w).1) = VArr (l ++ added) ∧
       length added = length (List.filter replied_ok (serve insert_article reqs w).2) ∧
       sublist (ids added) (as_ids ((λ r, date_now r.1.1) <$> reqs)) ∧
       (NoDup ((λ r, date_now r.1.1) <$> reqs) → NoDup (ids added))) ∧
  (∀ (reqs : list (env * value)) (w : world) (l : list value),
     users (mem w) = VArr l →
     ∃ added,
       users (mem (serve insert_user reqs w).1) = VArr (l ++ added) ∧
       length added = length (List.filter replied_ok (serve insert_user reqs w).2) ∧
       sublist (ids added) (as_ids ((λ r, date_now r.1) <$> reqs)) ∧
       (NoDup ((λ r, date_now r.1) <$> reqs) → NoDup (ids added))).
Proof.
  split.
  - intros reqs w l Hl.
    destruct (serve_inserts insert_article articles (λ r, date_now r.1.1)
                (λ r, VObj (new_article r.1.1 r.1.2 r.2)) post_article_cases reqs w l Hl)
      as (added & H1 & H2 & H3).
    exists added. repeat split; try done. by apply serve_inserts_distinct.
  - intros reqs w l Hl.
    destruct (serve_inserts insert_user users (λ r, date_now r.1)
                (λ r, VObj (new_user r.1 r.2)) register_insert_cases reqs w l Hl)
      as (added & H1 & H2 & H3).
    exists added. repeat split; try done. by apply serve_inserts_distinct.
Qed.

Lemma inserts_append_with_clock_ids_witness :
  articles (mem (World initial_store ∅)) = VArr [] ∧
  NoDup ((λ r : env * value * option file, date_now r.1.1)
           <$> [(clock, article_A, None); (later, article_B, None)]) ∧
  ∃ added,
    articles (mem (serve insert_article [(clock, article_A, None); (later, article_B, None)]
                     (World initial_store ∅)).1) = VArr ([] ++ added) ∧
    length added = 2%nat ∧
    NoDup (ids added).
Proof.
  assert (articles (mem (World initial_store ∅)) = VArr []) as H1 by reflexivity.
  assert (NoDup ((λ r : env * value * option file, date_now r.1.1)
                   <$> [(clock, article_A, None); (later, article_B, None)])) as H2.
  { cbn. apply NoDup_cons. split; [|apply NoDup_singleton].
    intros Hin. by apply list_elem_of_singleton in Hin. }
  split; [exact H1|]. split; [exact H2|].
  destruct (proj1 inserts_append_with_clock_ids
              [(clock, article_A, None); (later, article_B, None)] (World initial_store ∅) [] H1)
    as (added & Ha & Hlen & _ & Hnd).
  exists added. split; [exact Ha|]. split; [exact Hlen|]. exact (Hnd H2).
Defined.

(** C7, as stated, fails: two articles created within one millisecond
    are both stored and both answered with a 200, and carry the same id;
    so do two users registered within one millisecond. *)
Lemma same_millisecond_same_id :
  (serve insert_article [(clock, article_A, None); (clock, article_B, None)]
         (World initial_store ∅)).2 =
    [Reply 200 (Some (VObj (new_article clock article_A None)));
     Reply 200 (Some (VObj (new_article clock article_B None)))] ∧
  ids [VObj (new_article clock article_A None); VObj (new_article clock article_B None)] =
    [Ok (Some (VNum 1700000000000)); Ok (Some (VNum 1700000000000))] ∧
  users (mem (serve insert_user [(clock, alice); (clock, bob)] (World initial_store ∅)).1) =
    VArr [VObj (new_user clock alice); VObj (new_user clock bob)] ∧
  ids [VObj (new_user clock alice); VObj (new_user clock bob)] =
    [Ok (Some (VNum 1700000000000)); Ok (Some (VNum 1700000000000))] ∧
  ¬ NoDup (ids [VObj (new_article clock article_A None); VObj (new_article clock article_B None)]).
Proof.
  split; [reflexivity|]. split; [reflexivity|]. split; [reflexivity|]. split; [reflexivity|].
  intros Hnd. apply NoDup_cons in Hnd as [Hnotin _]. apply Hnotin.
  apply list_elem_of_here.
Qed.

(** ** The push subscriptions stay an array of objects *)

Lemma preserves_bind_lift {S A B} (P : S → Prop) (r : result A) (k : A → M S B) :
  (∀ a, r = Ok a → preserves P (k a)) → preserves P (bind (lift r) k).
Proof.
  intros Hk s Hs. unfold bind, lift. destruct r as [a|e]; [by apply Hk|done].
Qed.

Lemma filter_array_Forall (P : value → Prop) (p : value → result bool) (l kept : list value) :
  Forall P l → filter_array p l = Ok kept → Forall P kept.
Proof.
  intros Hl. revert kept. induction Hl as [|a l Ha _ IH]; intros kept; cbn [filter_array].
  - intros [= <-]. constructor.
  - destruct (p a) as [b|]; cbn [rbind]; [|done].
    destruct (filter_array p l) as [r|]; cbn [rbind]; [|done].
    intros [= <-]. destruct b; [constructor|]; auto.
Qed.

Ltac subscriptions_setter :=
  apply preserves_modify; intros [[] ?] Hw; exact Hw.

Lemma subscriptions_set_users (v : value) : preserves subscriptions_ok (set_users v).
Proof. subscriptions_setter. Qed.

Lemma subscriptions_set_articles (v : value) : preserves subscriptions_ok (set_articles v).
Proof. subscriptions_setter. Qed.

Lemma subscriptions_set_config (v : value) : preserves subscriptions_ok (set_config v).
Proof. subscriptions_setter. Qed.

Lemma subscriptions_set_understanding (v : value) :
  preserves subscriptions_ok (set_understanding v).
Proof. subscriptions_setter. Qed.

Lemma subscriptions_set_cloud (c : gmap string text) : preserves subscriptions_ok (set_cloud c).
Proof. subscriptions_setter. Qed.

Lemma subscriptions_set (l : list value) :
  Forall is_object l → preserves subscriptions_ok (set_pushSubscriptions (VArr l)).
Proof. intros Hl. apply preserves_modify. intros [[] ?] _. by exists l. Qed.

Lemma subscriptions_save (e : env) : preserves subscriptions_ok (saveDataToCloudinary e).
Proof.
  unfold saveDataToCloudinary, upload_stream.
  repeat preserve_step. apply subscriptions_set_cloud.
Qed.

Create HintDb subscriptions.
#[local] Hint Resolve subscriptions_set_users subscriptions_set_articles subscriptions_set_config
  subscriptions_set_understanding subscriptions_set_cloud subscriptions_save : subscriptions.

Ltac subscriptions_step :=
  first
    [ solve [auto with subscriptions]
    | apply preserves_ret | apply preserves_lift | apply preserves_gets
    | apply preserves_bind; [|intros ?]
    | apply preserves_try_catch; [|intros ?]
    | match goal with
      | |- preserves _ (if ?b then _ else _) => destruct b
      | |- preserves _ (match ?x with _ => _ end) => destruct x
      end ].

Lemma subscriptions_push_subscribe (body : value) :
  preserves subscriptions_ok (push_subscribe body).
Proof.
  unfold push_subscribe.
  apply preserves_try_catch; [|intros; apply preserves_ret].
  do 2 (apply preserves_bind; [apply preserves_lift|intros ?]).
  apply (preserves_bind_gets _ _ _ (λ subs, ∃ l, subs = VArr l ∧ Forall is_object l)); [done|].
  intros subs (l & -> & Hl). cbn [as_array].
  apply preserves_bind_lift. intros l' [= <-].
  apply preserves_bind; [apply preserves_lift|intros found].
  apply preserves_bind; [|intros; apply preserves_ret].
  destruct (negb (truthy found)); [|apply preserves_ret].
  apply subscriptions_set, Forall_app. split; [done|].
  constructor; [by eexists|constructor].
Qed.

Lemma subscriptions_push_unsubscribe (body : value) :
  preserves subscriptions_ok (push_unsubscribe body).
Proof.
  unfold push_unsubscribe.
  apply preserves_try_catch; [|intros; apply preserves_ret].
  apply preserves_bind; [apply preserves_lift|intros endpoint].
  apply (preserves_bind_gets _ _ _ (λ subs, ∃ l, subs = VArr l ∧ Forall is_object l)); [done|].
  intros subs (l & -> & Hl). cbn [as_array].
  apply preserves_bind_lift. intros l' [= <-].
  apply preserves_bind_lift. intros kept Hkept.
  apply preserves_bind; [|intros; apply preserves_ret].
  apply subscriptions_set. by eapply filter_array_Forall.
Qed.

Lemma subscriptions_handle (e : env) (r : request) : preserves subscriptions_ok (handle e r).
Proof.
  destruct r; simpl;
    try apply subscriptions_push_subscribe; try apply subscriptions_push_unsubscribe;
    unfold register, login, get_users, delete_user, get_articles, get_article,
      post_article, put_article, delete_article, get_config, post_config,
      get_understanding, get_understanding_of, post_understanding;
    repeat subscriptions_step.
Qed.

Lemma subscriptions_load (fetch : bool) :
  preserves subscriptions_ok (loadDataFromCloudinary fetch).
Proof.
  unfold loadDataFromCloudinary, api_resource, https_get. repeat subscriptions_step.
Qed.

Lemma subscriptions_startup (fetch : bool) (c : gmap string text) :
  subscriptions_ok (boot_world (startup fetch c)).
Proof.
  unfold startup.
  assert (subscriptions_ok (World initial_store c)) as H0 by (exists []; by split).
  pose proof (subscriptions_load fetch (World initial_store c) H0) as H.
  by destruct (loadDataFromCloudinary fetch (World initial_store c)) as [w [l|e]].
Qed.

(** Whatever has happened to the server, its push subscriptions are an
    array of objects. *)
Lemma subscriptions_after (fetch : bool) (c : gmap string text) (evs : list event) :
  subscriptions_ok (after fetch c evs).
Proof.
  unfold after. generalize (subscriptions_startup fetch c).
  generalize (boot_world (startup fetch c)).
  induction evs as [|ev evs IH]; intros w Hw; simpl; [done|].
  apply IH. destruct ev as [e r|e|fetch']; simpl.
  - by apply preserves_run; [apply subscriptions_handle|].
  - by apply subscriptions_save.
  - apply subscriptions_startup.
Qed.

(** * Further properties of the servers *)

(** ** Names of uploaded files *)

Lemma plain_app (s t : string) : plain (s +:+ t) = plain s && plain t.
Proof.
  induction s as [|c s IH]; simpl; [done|]. rewrite IH. by rewrite andb_assoc.
Qed.

Lemma without_extension_cons (c : ascii) (s : string) :
  without_extension (String c s) =
    if is_extension (String c s) then EmptyString else String c (without_extension s).
Proof. done. Qed.

Lemma plain_with_dot (s r : string) : plain (s +:+ String "." r) = false.
Proof.
  induction s as [|c s IH]; [done|]. simpl. by rewrite IH, andb_false_r.
Qed.

Lemma not_extension_inside (c : ascii) (base rest : string) :
  is_extension (String c base +:+ "." +:+ rest) = false.
Proof.
  destruct base as [|c' base].
  - by destruct c as [[] [] [] [] [] [] [] []].
  - change (String c (String c' base) +:+ "." +:+ rest)
      with (String c (String c' (base +:+ String "." rest))).
    unfold is_extension. destruct c as [[] [] [] [] [] [] [] []]; try done.
    change (String c' (base +:+ String "." rest)) with (String c' base +:+ String "." rest).
    apply plain_with_dot.
Qed.

Lemma dotless_not_extension (s : string) : dotless s = true → is_extension s = false.
Proof. destruct s as [|c s]; [done|]. by destruct c as [[] [] [] [] [] [] [] []]. Qed.

Lemma without_extension_dotless (s : string) : dotless s = true → without_extension s = s.
Proof.
  induction s as [|c s IH]; [done|]. intros Hs.
  rewrite without_extension_cons, dotless_not_extension by done.
  simpl in Hs. apply andb_true_iff in Hs as [_ Hs]. by rewrite IH.
Qed.

(** X1. The public id of an uploaded PDF is the clock reading, a dash, and
    the name of the file less its extension: what follows the last dot of
    the name, when that is not empty and has neither dot nor slash, goes
    with the dot. *)
Theorem public_id_strips_extension (now : Z) (base ext : string) :
  ext ≠ EmptyString → plain ext = true →
  public_id now (base +:+ "." +:+ ext) = NumberToString now +:+ "-" +:+ base.
Proof.
  intros Hne Hp. unfold public_id. f_equal. f_equal.
  induction base as [|c base IH].
  - destruct ext as [|c ext]; [done|].
    change (EmptyString +:+ "." +:+ String c ext) with (String "." (String c ext)).
    rewrite without_extension_cons. unfold is_extension. by rewrite Hp.
  - change (without_extension (String c base +:+ "." +:+ ext))
      with (if is_extension (String c base +:+ "." +:+ ext) then EmptyString
            else String c (without_extension (base +:+ "." +:+ ext))).
    by rewrite not_extension_inside, IH.
Qed.

Lemma public_id_strips_extension_witness :
  "pdf" ≠ EmptyString ∧ plain "pdf" = true ∧
  public_id 1700000000000 "report.v2.pdf" = "1700000000000-report.v2"%string.
Proof.
  split; [done|]. split; [reflexivity|].
  apply (public_id_strips_extension 1700000000000 "report.v2" "pdf"); [done|reflexivity].
Defined.

(** X2. Every other name is kept whole: a name with no dot, and a name
    whose last dot is its last character or has a slash after it. *)
Theorem public_id_keeps_other_names (now : Z) :
  (∀ name, dotless name = true →
     public_id now name = NumberToString now +:+ "-" +:+ name) ∧
  (∀ base rest, dotless rest = true → rest = EmptyString ∨ plain rest = false →
     public_id now (base +:+ "." +:+ rest) = NumberToString now +:+ "-" +:+ base +:+ "." +:+ rest).
Proof.
  split.
  - intros name Hd. unfold public_id. by rewrite without_extension_dotless.
  - intros base rest Hd Hr. unfold public_id. f_equal. f_equal.
    induction base as [|c base IH].
    + change (EmptyString +:+ "." +:+ rest) with (String "." rest).
      rewrite without_extension_cons.
      assert (is_extension (String "." rest) = false) as ->.
      { destruct Hr as [->|Hr]; [done|]. destruct rest; [done|]. exact Hr. }
      by rewrite without_extension_dotless.
    + change (without_extension (String c base +:+ "." +:+ rest))
        with (if is_extension (String c base +:+ "." +:+ rest) then EmptyString
              else String c (without_extension (base +:+ "." +:+ rest))).
      by rewrite not_extension_inside, IH.
Qed.

Lemma public_id_keeps_other_names_witness :
  (dotless "README" = true ∧
   public_id 1700000000000 "README" = "1700000000000-README"%string) ∧
  (dotless "2/readme" = true ∧ plain "2/readme" = false ∧
   public_id 1700000000000 "v1.2/readme" = "1700000000000-v1.2/readme"%string).
Proof.
  split.
  - split; [reflexivity|].
    apply (proj1 (public_id_keeps_other_names 1700000000000) "README"). reflexivity.
  - split; [reflexivity|]. split; [reflexivity|].
    apply (proj2 (public_id_keeps_other_names 1700000000000) "v1" "2/readme");
      [reflexivity|right; reflexivity].
Defined.

(** ** Health *)

Lemma truthy_not_null (v : value) : truthy (Some v) = true → v ≠ VNull.
Proof. by intros Hv ->. Qed.

Lemma array_length (l : list value) :
  get_prop (Some (VArr l)) "length" = Ok (Some (VNum (Z.of_nat (length l)))).
Proof. done. Qed.

Lemma health_truthy (cloud_name : option string) (w : world) :
  truthy_world w →
  ∃ n_articles n_users,
    get_prop (Some (articles (mem w))) "length" = Ok n_articles ∧
    get_prop (Some (users (mem w))) "length" = Ok n_users ∧
    run (health cloud_name) w =
      (w, Reply 200 (Some (VObj (object [
        ("status", Some (VStr "ok"));
        ("message", Some (VStr "Server is running"));
        ("storage", Some (VStr "Cloudinary"));
        ("cloudinary", Some (VStr (if truthy (VStr <$> cloud_name)
                                   then "configured" else "missing")));
        ("articles", n_articles);
        ("users", n_users)
      ]%string)))).
Proof.
  unfold truthy_world, collections_truthy. rewrite !andb_true_iff.
  intros [[[Hu Ha] _] _].
  destruct (get_prop_total _ "length" (truthy_not_null _ Ha)) as [na Hna].
  destruct (get_prop_total _ "length" (truthy_not_null _ Hu)) as [nu Hnu].
  exists na, nu. split; [done|]. split; [done|].
  cbv [run health bind gets lift ret]. by rewrite Hna, Hnu.
Qed.

(** X3. Whatever the account held when the server started and whatever has
    happened since, the health check answers 200 with the status [ok],
    changes nothing, and counts the articles and the users when these
    are arrays. *)
Theorem health_always_answers (fetch : bool) (c : gmap string text) (evs : list event)
    (cloud_name : option string) :
  ∃ body : gmap string value,
    run (health cloud_name) (after fetch c evs) =
      (after fetch c evs, Reply 200 (Some (VObj body))) ∧
    body !! "status"%string = Some (VStr "ok") ∧
    (∀ l, articles (mem (after fetch c evs)) = VArr l →
          body !! "articles"%string = Some (VNum (Z.of_nat (length l)))) ∧
    (∀ l, users (mem (after fetch c evs)) = VArr l →
          body !! "users"%string = Some (VNum (Z.of_nat (length l)))).
Proof.
  destruct (health_truthy cloud_name _ (truthy_after fetch c evs)) as (na & nu & Hna & Hnu & Hrun).
  eexists. split; [exact Hrun|]. rewrite !lookup_object. cbn.
  split; [done|]. split.
  - intros l Hl. rewrite Hl, array_length in Hna. by injection Hna as <-.
  - intros l Hl. rewrite Hl, array_length in Hnu. by injection Hnu as <-.
Qed.

Lemma health_always_answers_witness :
  ∃ body : gmap string value,
    run (health (Some "demo"%string)) twins = (twins, Reply 200 (Some (VObj body))) ∧
    body !! "status"%string = Some (VStr "ok") ∧
    (∀ l, articles (mem twins) = VArr l →
          body !! "articles"%string = Some (VNum (Z.of_nat (length l)))) ∧
    (∀ l, users (mem twins) = VArr l →
          body !! "users"%string = Some (VNum (Z.of_nat (length l)))).
Proof.
  exact (health_always_answers true ∅
           [Request clock (PostArticle article_A None);
            Request clock (PostArticle article_B None)] (Some "demo"%string)).
Defined.

(** ** What a restart forgets *)

Section Kept_subscriptions.
Variable v : value.

Ltac kept_setter := apply preserves_modify; intros [[] ?] Hw; exact Hw.

Lemma kept_load (fetch : bool) :
  preserves (λ w, pushSubscriptions (mem w) = v) (loadDataFromCloudinary fetch).
Proof.
  unfold loadDataFromCloudinary, api_resource, https_get, set_users, set_articles,
    set_config, set_understanding.
  repeat first
    [ apply preserves_ret | apply preserves_lift | apply preserves_gets
    | kept_setter
    | apply preserves_bind; [|intros ?]
    | apply preserves_try_catch; [|intros ?]
    | match goal with
      | |- preserves _ (if ?b then _ else _) => destruct b
      | |- preserves _ (match ?x with _ => _ end) => destruct x
      end ].
Qed.

Lemma kept_memory_load (fetch : bool) :
  preserves (λ w, pushSubscriptions (mem w) = v) (Memory.loadDataFromCloudinary fetch).
Proof.
  unfold Memory.loadDataFromCloudinary, api_resource, Memory.fetch_json, set_users,
    set_articles, set_config, set_understanding.
  repeat first
    [ apply preserves_ret | apply preserves_lift | apply preserves_gets
    | kept_setter
    | apply preserves_bind; [|intros ?]
    | apply preserves_try_catch; [|intros ?]
    | match goal with
      | |- preserves _ (if ?b then _ else _) => destruct b
      | |- preserves _ (match ?x with _ => _ end) => destruct x
      end ].
Qed.

End Kept_subscriptions.

(** X4. A start never restores a push subscription, whatever the account
    holds: the server that comes up has none, on both in-memory
    servers. *)
Theorem restart_forgets_subscriptions (fetch : bool) (c : gmap string text) :
  pushSubscriptions (mem (boot_world (startup fetch c))) = VArr [] ∧
  pushSubscriptions (mem (boot_world (Memory.startup fetch c))) = VArr [].
Proof.
  split.
  - unfold startup.
    pose proof (kept_load (VArr []) fetch (World initial_store c) eq_refl) as H.
    by destruct (loadDataFromCloudinary fetch (World initial_store c)) as [w [l|e]].
  - unfold Memory.startup.
    pose proof (kept_memory_load (VArr []) fetch (World initial_store c) eq_refl) as H.
    by destruct (Memory.loadDataFromCloudinary fetch (World initial_store c)) as [w [l|e]].
Qed.

(** ** Requests that are refused *)

(** One step of a case analysis of a handler that has been unfolded: a
    snapshot is taken for what it returns, anything else that is matched
    on is split. *)
Ltac split_save :=
  match goal with
  | |- context [saveDataToCloudinary ?e0 ?w0] =>
      let Hs := fresh "Hsave" in
      let Hm := fresh "Hmem" in
      pose proof (save_returns e0 w0) as Hs; pose proof (save_mem e0 w0) as Hm;
      destruct (saveDataToCloudinary e0 w0) as [? ?]; cbn [fst snd mem] in Hs, Hm; subst;
      try rewrite Hm
  end.

(** [x] is not itself a case analysis. *)
Ltac no_match_inside x :=
  lazymatch x with
  | context [match _ with _ => _ end] => fail
  | _ => idtac
  end.

Ltac split_match :=
  match goal with
  | |- context [find ?p ?l] => destruct (find p l) eqn:?
  | |- context [findIndex ?p ?l] => destruct (findIndex p l) eqn:?
  | |- context [map_array ?f ?l] => destruct (map_array f l) eqn:?
  | |- context [filter_array ?p ?l] => destruct (filter_array p l) eqn:?
  | |- context [match ?x with _ => _ end] => no_match_inside x; destruct x eqn:?
  end.

Ltac unfold_handlers :=
  cbv [run handle register login get_users delete_user get_articles get_article
       post_article put_article delete_article get_config post_config
       get_understanding get_understanding_of post_understanding
       push_subscribe push_unsubscribe
       try_catch bind gets lift ret modify rest_without
       set_users set_articles set_config set_understanding set_pushSubscriptions].

Lemma findIndex_found (p : value → result bool) (l : list value) (i : nat) :
  findIndex p l = Ok (Some i) → ∃ a, l !! i = Some a ∧ p a = Ok true.
Proof.
  revert i. induction l as [|a l IH]; intros i; cbn [findIndex]; [done|].
  destruct (p a) as [[]|] eqn:Ha; cbn [rbind]; [|destruct (findIndex p l) as [[j|]|]|]; try done.
  - intros [= <-]. by exists a.
  - cbn. intros [= <-]. by apply IH.
Qed.

Lemma id_loosely_not_null (id : string) (a : value) (b : bool) :
  id_loosely id a = Ok b → a ≠ VNull.
Proof. by intros H ->. Qed.

(** The record a search by id stops at is not [null]: any of its
    properties can be read. *)
Lemma found_readable (id : string) (l : list value) (i : nat) (k : string) :
  findIndex (id_loosely id) l = Ok (Some i) → ∃ v, get_prop (l !! i) k = Ok v.
Proof.
  intros Hi. destruct (findIndex_found _ _ _ Hi) as (a & -> & Ha).
  apply get_prop_total. by eapply id_loosely_not_null.
Qed.



(** ** The account and the answers *)

(** X6. What a request is answered, and what it leaves in memory, depends
    neither on what the account holds nor on whether the snapshot the
    handler takes goes through: a failed upload fails no request. *)
Theorem answers_ignore_the_account (e : env) (r : request) (s : store)
    (c c' : gmap string text) (iso : string) (ok : bool) :
  let e' := Env (date_now e) (date_iso e) iso ok (session_now e) in
  (run (handle e r) (World s c)).2 = (run (handle e' r) (World s c')).2 ∧
  mem (run (handle e r) (World s c)).1 = mem (run (handle e' r) (World s c')).1.
Proof.
  intros e'. subst e'.
  destruct r; unfold_handlers; cbv [session];
    cbn [mem cloud date_now date_iso session_now].
  all: repeat first [progress cbn [mem cloud] | split_save | split_match];
    cbn [fst snd mem]; split; congruence.
Qed.

(** ** Writes that are acknowledged *)

Ltac keep_save :=
  match goal with
  | |- context [saveDataToCloudinary ?e0 ?w0] =>
      let Hs := fresh "Hsave" in
      pose proof (save_returns e0 w0) as Hs;
      destruct (saveDataToCloudinary e0 w0) as [? ?] eqn:?; cbn [fst snd mem] in Hs; subst
  end.




(** ** The shape of the collections *)

Lemma records_array (v : value) :
  records v = true → ∃ l, v = VArr l ∧ Forall (λ a, is_record a = true) l.
Proof.
  destruct v as [| | | |l|]; try done. intros Hl. exists l. split; [done|].
  simpl in Hl. apply Forall_forall. intros a Ha.
  rewrite forallb_forall in Hl. apply Hl. by apply list_elem_of_In.
Qed.

Lemma array_records (l : list value) :
  Forall (λ a, is_record a = true) l → records (VArr l) = true.
Proof.
  intros Hl. simpl. apply forallb_forall. intros a Ha.
  rewrite Forall_forall in Hl. apply Hl. by apply list_elem_of_In.
Qed.

Lemma is_obj_object (v : value) : is_obj v = true → ∃ o, v = VObj o.
Proof. destruct v; try done. eauto. Qed.

Lemma record_object (a : value) :
  is_record a = true → ∃ o n, a = VObj o ∧ o !! "id"%string = Some (VNum n).
Proof.
  destruct a as [| | | | |o]; try done. simpl.
  destruct (o !! "id"%string) as [[]|] eqn:Ho; try done. eauto.
Qed.

Lemma well_formed_store (s : store) :
  well_formed s = true ↔
  records (users s) = true ∧ records (articles s) = true ∧
  is_obj (config s) = true ∧ is_obj (understanding s) = true.
Proof. unfold well_formed. rewrite !andb_true_iff. tauto. Qed.

(** *** A snapshot of well-formed collections is restorable *)

Lemma snapshot_restorable (s : store) (iso : string) :
  well_formed s = true → restorable (JSON_stringify (snapshot s iso)) = true.
Proof.
  rewrite well_formed_store. intros (Hu & Ha & Hc & Hn).
  unfold restorable, JSON_stringify, fit.
  destruct (snapshot_lookup s iso) as (-> & -> & -> & -> & _).
  rewrite Hu, Ha, Hc, Hn. by rewrite !orb_true_r.
Qed.

Lemma save_clean (e : env) (w : world) :
  well_formed (mem w) = true → clean (cloud w) = true →
  clean (cloud (saveDataToCloudinary e w).1) = true.
Proof.
  intros Hw Hc. destruct (save_ok e) eqn:He.
  - rewrite save_uploads by done. cbn [fst cloud]. unfold clean.
    rewrite lookup_insert_eq. by apply snapshot_restorable.
  - by rewrite save_fails.
Qed.

(** *** What a start loads *)

Lemma fit_or_else (shape : value → bool) (data : value) (k : string) (v : option value)
    (b : value) :
  fit shape data k = true → get_prop (Some data) k = Ok v → shape b = true →
  shape (or_else v b) = true.
Proof.
  unfold fit. intros Hf Hg Hb. rewrite Hg in Hf. destruct v as [v|]; [|done].
  unfold or_else. by destruct (truthy (Some v)).
Qed.

Lemma load_well_formed (fetch : bool) (w : world) :
  well_formed (mem w) = true → clean (cloud w) = true →
  well_formed (mem (loadDataFromCloudinary fetch w).1) = true ∧
  cloud (loadDataFromCloudinary fetch w).1 = cloud w.
Proof.
  destruct w as [s c]. cbn [mem cloud]. intros Hs Hc.
  cbv [loadDataFromCloudinary try_catch bind api_resource gets https_get
    lift ret set_users set_articles set_config set_understanding modify cloud mem
    with_users with_articles with_config with_understanding
    users articles config understanding pushSubscriptions].
  unfold clean in Hc.
  destruct (c !! database) as [t|]; [|done].
  destruct fetch; [|done].
  destruct t as [data|raw]; cbv [JSON_parse]; [|done].
  simpl in Hc. rewrite !andb_true_iff in Hc. destruct Hc as [[[Fu Fa] Fc] Fn].
  apply well_formed_store in Hs as (Hu & Ha & Hcf & Hn).
  destruct (get_prop (Some data) "users") as [u|] eqn:Eu; [|by rewrite well_formed_store].
  destruct (get_prop (Some data) "articles") as [a|] eqn:Ea;
    [|by apply get_prop_throws in Ea; subst data].
  destruct (get_prop (Some data) "config") as [cf|] eqn:Ec;
    [|by apply get_prop_throws in Ec; subst data].
  destruct (get_prop (Some data) "understanding") as [un|] eqn:En;
    [|by apply get_prop_throws in En; subst data].
  pose proof (fit_or_else records data "users" u (VArr []) Fu Eu eq_refl) as Ru.
  pose proof (fit_or_else records data "articles" a (VArr []) Fa Ea eq_refl) as Ra.
  pose proof (fit_or_else is_obj data "config" cf (config s) Fc Ec Hcf) as Rc.
  pose proof (fit_or_else is_obj data "understanding" un (VObj ∅) Fn En eq_refl) as Rn.
  destruct (or_else u (VArr [])) as [| | | |lu|] eqn:Ou; try done.
  destruct (or_else a (VArr [])) as [| | | |la|] eqn:Oa; try done.
  cbv [get_prop]. cbn [fst snd mem cloud]. split; [|done].
  apply well_formed_store. by destruct s.
Qed.

Lemma startup_well_formed (fetch : bool) (c : gmap string text) :
  clean c = true →
  well_formed (mem (boot_world (startup fetch c))) = true ∧
  cloud (boot_world (startup fetch c)) = c.
Proof.
  intros Hc. unfold startup.
  destruct (load_well_formed fetch (World initial_store c) eq_refl Hc) as [Hw Hk].
  by destruct (loadDataFromCloudinary fetch (World initial_store c)) as [w [l|e]].
Qed.

(** *** What a handler leaves *)

Lemma read_fields_parsed (body : value) (ks : list string) :
  body ≠ VNull →
  read_fields body ks =
    Ok ((λ k, (k, match get_prop (Some body) k with Ok v => v | Throw _ => None end)) <$> ks).
Proof.
  intros Hb. induction ks as [|k ks IH]; [done|]. cbn [read_fields fmap list_fmap].
  destruct (get_prop_total body k Hb) as [v Hv]. rewrite Hv. cbn [rbind]. by rewrite IH.
Qed.

Lemma read_fields_keys (body : value) (ks : list string) (fields : list (string * option value)) :
  read_fields body ks = Ok fields → fields.*1 = ks.
Proof.
  revert fields. induction ks as [|k ks IH]; intros fields; cbn [read_fields].
  - by intros [= <-].
  - destruct (get_prop (Some body) k) as [v|]; cbn [rbind]; [|done].
    destruct (read_fields body ks) as [r|]; cbn [rbind]; [|done].
    intros [= <-]. cbn. by rewrite (IH r).
Qed.

Lemma binding_app (k : string) (fs gs : list (string * option value)) :
  binding k (fs ++ gs) = match binding k gs with Some e => Some e | None => binding k fs end.
Proof.
  unfold binding. rewrite foldl_app. generalize (foldl (λ acc kv, if bool_decide (kv.1 = k) then Some kv.2 else acc) None fs).
  induction gs as [|[k' e] gs IH] using rev_ind; intros acc; [by destruct acc|].
  rewrite !foldl_app. cbn. case_bool_decide; [done|]. apply IH.
Qed.

Lemma binding_none (k : string) (fs : list (string * option value)) :
  k ∉ fs.*1 → binding k fs = None.
Proof.
  induction fs as [|[k' e] fs IH] using rev_ind; [done|].
  rewrite fmap_app, not_elem_of_app. cbn. intros [Hfs Hk].
  rewrite binding_app. cbn. rewrite bool_decide_eq_false_2; [by apply IH|].
  intros ->. apply Hk, list_elem_of_here.
Qed.

Lemma Forall_records_app (l : list value) (o : gmap string value) (n : Z) :
  Forall (λ a, is_record a = true) l → o !! "id"%string = Some (VNum n) →
  Forall (λ a, is_record a = true) (l ++ [VObj o]).
Proof.
  intros Hl Ho. apply Forall_app. split; [done|]. constructor; [|constructor].
  simpl. by rewrite Ho.
Qed.

Lemma object_id (v : value) (fields rest : list (string * option value)) :
  "id"%string ∉ fields.*1 → "id"%string ∉ rest.*1 →
  object ([("id"%string, Some v)] ++ fields ++ rest) !! "id"%string = Some v.
Proof.
  intros Hf Hr. rewrite lookup_object, !binding_app.
  by rewrite (binding_none _ rest), (binding_none _ fields).
Qed.

Ltac not_a_key :=
  cbn [fmap list_fmap fst]; rewrite ?not_elem_of_cons; split_and?; try done;
  apply not_elem_of_nil.

Lemma article_fields_no_id : "id"%string ∉ article_fields.
Proof. unfold article_fields. not_a_key. Qed.

Lemma set_fields_id (fields pdf : list (string * option value)) (o : gmap string value) :
  "id"%string ∉ fields.*1 → "id"%string ∉ pdf.*1 →
  set_fields (fields ++ pdf) o !! "id"%string = o !! "id"%string.
Proof.
  intros Hf Hp. rewrite lookup_set_fields, binding_app.
  by rewrite (binding_none _ pdf), (binding_none _ fields).
Qed.

Lemma updated_record (id : string) (l : list value) (i : nat)
    (fields pdf : list (string * option value)) :
  Forall (λ a, is_record a = true) l →
  findIndex (id_loosely id) l = Ok (Some i) →
  "id"%string ∉ fields.*1 → "id"%string ∉ pdf.*1 →
  Forall (λ a, is_record a = true)
    (<[i := VObj (set_fields (fields ++ pdf) (own_props (l !! i)))]> l).
Proof.
  intros Hl Hi Hf Hp. apply Forall_insert; [done|].
  destruct (findIndex_found _ _ _ Hi) as (a & Ha & _). rewrite Ha.
  rewrite Forall_forall in Hl.
  destruct (record_object a (Hl a (list_elem_of_lookup_2 _ _ _ Ha))) as (o & n & -> & Ho).
  cbn [is_record own_props]. by rewrite set_fields_id, Ho.
Qed.

Lemma handle_well_formed (e : env) (r : request) (w : world) :
  well_formed (mem w) = true → well_formed (mem (run (handle e r) w).1) = true.
Proof.
  destruct w as [[u a cf un ps] c]. rewrite well_formed_store. cbn [mem users articles config understanding].
  intros (Hu & Ha & Hcf & Hn).
  destruct (records_array _ Hu) as (lu & -> & Hlu).
  destruct (records_array _ Ha) as (la & -> & Hla).
  destruct (is_obj_object _ Hcf) as (ocf & ->).
  destruct (is_obj_object _ Hn) as (oun & ->).
  destruct r; unfold_handlers; cbn [mem users articles config understanding as_array];
    repeat first [progress cbn [mem cloud users articles config understanding as_array] | split_save | split_match];
    cbn [fst snd mem]; try done.
  all: try match goal with H : mem ?w = _ |- context [mem ?w] => rewrite H end.
  all: apply well_formed_store;
    cbn [with_users with_articles with_config with_understanding with_pushSubscriptions
         users articles config understanding];
    split_and!; try done; apply array_records.
  all: try (by apply Forall_delete).
  1: { apply (Forall_records_app _ _ (date_now e)); [done|]. by rewrite lookup_object. }
  1, 2: apply (Forall_records_app _ _ (date_now e)); [done|]; apply object_id;
    [by erewrite read_fields_keys; [apply article_fields_no_id|]|not_a_key].
  all: eapply updated_record; [done|done| |not_a_key];
    by erewrite read_fields_keys; [apply article_fields_no_id|].
Qed.

Lemma handle_clean (e : env) (r : request) (w : world) :
  clean (cloud w) = true → well_formed (mem (run (handle e r) w).1) = true →
  clean (cloud (run (handle e r) w).1) = true.
Proof.
  intros Hc.
  destruct r; unfold_handlers; repeat first [keep_save | split_match];
    cbn [fst snd mem cloud]; try done.
  all: match goal with
       | H : saveDataToCloudinary ?e0 ?w0 = (?w1, _) |- _ =>
           assert (w1 = (saveDataToCloudinary e0 w0).1) as -> by (by rewrite H)
       end;
    rewrite save_mem; intros Hwf; by apply save_clean.
Qed.

Lemma shape_after (fetch : bool) (c : gmap string text) (evs : list event) :
  clean c = true →
  well_formed (mem (after fetch c evs)) = true ∧ clean (cloud (after fetch c evs)) = true.
Proof.
  intros Hc. unfold after.
  destruct (startup_well_formed fetch c Hc) as [Hw Hk]. rewrite <- Hk in Hc.
  revert Hw Hc. generalize (boot_world (startup fetch c)). clear Hk.
  induction evs as [|ev evs IH]; intros w Hw Hc; cbn [foldl]; [done|].
  apply IH; destruct ev as [e r|e|fetch']; cbn [step].
  - by apply handle_well_formed.
  - by rewrite save_mem.
  - by apply startup_well_formed.
  - apply handle_clean; [done|]. by apply handle_well_formed.
  - by apply save_clean.
  - by rewrite (proj2 (startup_well_formed fetch' _ Hc)).
Qed.

(** X8. Started on an account that holds no snapshot or a restorable one,
    the server keeps its collections in shape whatever is asked of it,
    however its uploads go and however often it is started again: the
    users and the articles are arrays of objects with a number for [id],
    the configuration and the understanding materials are objects, and
    the snapshot in the account stays restorable. *)
Theorem collections_stay_in_shape (fetch : bool) (c : gmap string text) (evs : list event) :
  clean c = true →
  ∃ (us arts : list value) (cf un : gmap string value),
    users (mem (after fetch c evs)) = VArr us ∧
    Forall (λ u, ∃ o n, u = VObj o ∧ o !! "id"%string = Some (VNum n)) us ∧
    articles (mem (after fetch c evs)) = VArr arts ∧
    Forall (λ a, ∃ o n, a = VObj o ∧ o !! "id"%string = Some (VNum n)) arts ∧
    config (mem (after fetch c evs)) = VObj cf ∧
    understanding (mem (after fetch c evs)) = VObj un ∧
    clean (cloud (after fetch c evs)) = true.
Proof.
  intros Hc. destruct (shape_after fetch c evs Hc) as [Hw Hk].
  apply well_formed_store in Hw as (Hu & Ha & Hcf & Hn).
  destruct (records_array _ Hu) as (us & Hus & Hrec).
  destruct (records_array _ Ha) as (arts & Harts & Hrec').
  destruct (is_obj_object _ Hcf) as (cf & Hcf').
  destruct (is_obj_object _ Hn) as (un & Hun).
  exists us, arts, cf, un. split_and!; try done.
  - eapply Forall_impl; [exact Hrec|]. apply record_object.
  - eapply Forall_impl; [exact Hrec'|]. apply record_object.
Qed.

Lemma collections_stay_in_shape_witness :
  clean ∅ = true ∧
  ∃ (us arts : list value) (cf un : gmap string value),
    users (mem twins) = VArr us ∧
    Forall (λ u, ∃ o n, u = VObj o ∧ o !! "id"%string = Some (VNum n)) us ∧
    articles (mem twins) = VArr arts ∧
    Forall (λ a, ∃ o n, a = VObj o ∧ o !! "id"%string = Some (VNum n)) arts ∧
    config (mem twins) = VObj cf ∧
    understanding (mem twins) = VObj un ∧
    clean (cloud twins) = true.
Proof.
  split; [reflexivity|].
  apply (collections_stay_in_shape true ∅
           [Request clock (PostArticle article_A None);
            Request clock (PostArticle article_B None)]).
  reflexivity.
Defined.

(** ** Answers to the usual requests *)

Section Total.
Context {A : Type}.

Lemma find_total (p : value → result bool) (l : list value) :
  Forall (λ a, ∃ b, p a = Ok b) l → ∃ r, find p l = Ok r.
Proof.
  induction 1 as [|a l [b Ha] _ [r IH]]; cbn [find]; [eauto|].
  rewrite Ha. cbn [rbind]. destruct b; eauto.
Qed.

Lemma findIndex_total (p : value → result bool) (l : list value) :
  Forall (λ a, ∃ b, p a = Ok b) l → ∃ r, findIndex p l = Ok r.
Proof.
  induction 1 as [|a l [b Ha] _ [r IH]]; cbn [findIndex]; [eauto|].
  rewrite Ha. cbn [rbind]. destruct b; [eauto|]. rewrite IH. cbn [rbind]. eauto.
Qed.

Lemma filter_array_total (p : value → result bool) (l : list value) :
  Forall (λ a, ∃ b, p a = Ok b) l → ∃ r, filter_array p l = Ok r.
Proof.
  induction 1 as [|a l [b Ha] _ [r IH]]; cbn [filter_array]; [eauto|].
  rewrite Ha, IH. cbn [rbind]. eauto.
Qed.

Lemma map_array_total (f : value → result A) (l : list value) :
  Forall (λ a, ∃ b, f a = Ok b) l → ∃ r, map_array f l = Ok r.
Proof.
  induction 1 as [|a l [b Ha] _ [r IH]]; cbn [map_array]; [eauto|].
  rewrite Ha, IH. cbn [rbind]. eauto.
Qed.

End Total.

Lemma parsed_not_null (body : value) : parsed body = true → body ≠ VNull.
Proof. by destruct body. Qed.

(** The length of a password that is truthy and no object compares with
    a number without a conversion that could fail. *)
Lemma password_length_compares (body : value) (password len : option value) (n : Z) :
  plain_password body = true → get_prop (Some body) "password" = Ok password →
  truthy password = true → get_prop password "length" = Ok len →
  ∃ b, less_than len n = Ok b.
Proof.
  unfold plain_password. intros Hp Hb. rewrite Hb in Hp.
  destruct password as [[| | |s|l|]|]; try done; cbv [get_prop]; intros _ [= <-];
    unfold less_than, ToNumber; cbn [rbind]; eauto.
Qed.

Lemma truthy_readable (v : option value) (k : string) :
  truthy v = true → ∃ r, get_prop v k = Ok r.
Proof. destruct v as [[]|]; try done; cbv [get_prop]; eauto. Qed.

Ltac total_on_records Hl :=
  eapply Forall_impl; [exact Hl|];
  let a := fresh "a" in
  let Ha := fresh "Ha" in
  let Ho := fresh "Ho" in
  intros a Ha; cbv beta in Ha;
  first [ destruct (record_object a Ha) as (? & ? & -> & Ho);
          cbv [id_loosely endpoint_is get_prop rbind loose_eq own_props]; rewrite ?Ho
        | destruct Ha as [? ->];
          cbv [id_loosely endpoint_is get_prop rbind loose_eq own_props] ];
  repeat case_match; eauto.

Lemma usual_request_expected (e : env) (r : request) (w : world) :
  well_formed (mem w) = true → subscriptions_ok w → usual r = true →
  expected (run (handle e r) w).2 = true.
Proof.
  destruct w as [[u a cf un ps] c]. rewrite well_formed_store.
  unfold subscriptions_ok.
  cbn [mem users articles config understanding pushSubscriptions].
  intros (Hu & Ha & Hcf & Hn) (lp & -> & Hlp) Hr.
  destruct (records_array _ Hu) as (lu & -> & Hlu).
  destruct (records_array _ Ha) as (la & -> & Hla).
  destruct (is_obj_object _ Hcf) as (ocf & ->).
  destruct (is_obj_object _ Hn) as (oun & ->).
  destruct r; cbn [usual] in Hr;
    try match type of Hr with
        | (_ && _ = true) =>
            let Hpw := fresh "Hpw" in apply andb_true_iff in Hr; destruct Hr as [Hr Hpw]
        end;
    try apply parsed_not_null in Hr;
    unfold_handlers;
    repeat first [progress cbn [mem cloud users articles config understanding pushSubscriptions as_array]
                 | split_save | split_match];
    cbn [fst snd]; try reflexivity.
  all: try match goal with
           | H : get_prop (Some ?b) _ = Throw _ |- _ => by apply get_prop_throws in H
           end.
  all: try match goal with
           | H : find ?p ?l = Throw _ |- _ =>
               destruct (find_total p l) as [? ?];
               [first [total_on_records Hlu | total_on_records Hla | total_on_records Hlp]
               |congruence]
           | H : findIndex ?p ?l = Throw _ |- _ =>
               destruct (findIndex_total p l) as [? ?];
               [first [total_on_records Hlu | total_on_records Hla | total_on_records Hlp]
               |congruence]
           | H : filter_array ?p ?l = Throw _ |- _ =>
               destruct (filter_array_total p l) as [? ?];
               [first [total_on_records Hlu | total_on_records Hla | total_on_records Hlp]
               |congruence]
           | H : map_array ?p ?l = Throw _ |- _ =>
               destruct (map_array_total p l) as [? ?];
               [first [total_on_records Hlu | total_on_records Hla | total_on_records Hlp]
               |congruence]
           end.
  all: try match goal with
           | Hb : _ || negb (truthy ?pw) = false, Hp : plain_password ?body = true,
             Hg : get_prop (Some ?body) "password" = Ok ?pw,
             Hl : get_prop ?pw "length" = Ok ?len,
             H : less_than ?len ?n = Throw _ |- _ =>
               apply orb_false_iff in Hb as [_ Hb]; apply negb_false_iff in Hb;
               destruct (password_length_compares body pw len n Hp Hg Hb Hl) as [? ?];
               congruence
           | Hb : _ || negb (truthy ?pw) = false, H : get_prop ?pw ?k = Throw _ |- _ =>
               apply orb_false_iff in Hb as [_ Hb]; apply negb_false_iff in Hb;
               destruct (truthy_readable pw k Hb) as [? ?]; congruence
           end.
  all: try done.
  all: try match goal with
           | Hi : findIndex _ ?l = Ok (Some ?i), H : get_prop (?l !! ?i) ?k = Throw _ |- _ =>
               destruct (found_readable _ _ _ k Hi) as [? ?]; congruence
           end.
  all: match goal with
       | H : read_fields _ _ = Throw _ |- _ => by rewrite read_fields_parsed in H
       end.
Qed.

(** X9. Started on an account that holds no snapshot or a restorable one,
    the server answers every usual request, one whose body is not [null]
    and whose password, for a registration, is not an object, with one of
    the statuses its handlers choose: 200, 400, 401 or 404. None fails
    with a 500 or with an exception that leaves the handler, whatever
    came before. *)
Theorem usual_requests_never_fail (fetch : bool) (c : gmap string text) (evs : list event)
    (e : env) (r : request) :
  clean c = true → usual r = true →
  expected (run (handle e r) (after fetch c evs)).2 = true.
Proof.
  intros Hc Hr. apply usual_request_expected; [|apply subscriptions_after|done].
  by apply shape_after.
Qed.

Lemma usual_requests_never_fail_witness :
  clean ∅ = true ∧ usual (Register alice) = true ∧
  expected (run (handle later (Register alice)) twins).2 = true.
Proof.
  split; [reflexivity|]. split; [reflexivity|].
  apply (usual_requests_never_fail true ∅
           [Request clock (PostArticle article_A None);
            Request clock (PostArticle article_B None)]
           later (Register alice)); reflexivity.
Defined.


(** ** Registering and logging in *)

Lemma find_falsy (p : value → result bool) (l : list value) (found : option value) :
  (∀ a, p a = Ok true → truthy (Some a) = true) →
  find p l = Ok found → truthy found = false → Forall (λ a, p a = Ok false) l.
Proof.
  intros Hp. induction l as [|a l IH]; cbn [find]; [constructor|].
  destruct (p a) as [[]|] eqn:Ha; cbn [rbind]; [| |done].
  - intros [= <-] Hf. rewrite (Hp a Ha) in Hf. done.
  - intros Hfind Hf. constructor; [done|by apply IH].
Qed.

Lemma same_email_truthy (email : string) (a : value) :
  (let* m := get_prop (Some a) "email" in Ok (strict_eq m (Some (VStr email)))) = Ok true → truthy (Some a) = true.
Proof.
  by destruct a as [|[]|n|s| |].
Qed.

(** What a registration that is answered with a 200 found and did. *)
Lemma register_accepted (e : env) (body : value) (w : world) :
  replied_ok (run (register e body) w).2 = true →
  ∃ l name email password found,
    users (mem w) = VArr l ∧
    get_prop (Some body) "name" = Ok name ∧ get_prop (Some body) "email" = Ok email ∧
    get_prop (Some body) "password" = Ok password ∧
    truthy name = true ∧ truthy email = true ∧ truthy password = true ∧
    find (λ u, let* m := get_prop (Some u) "email" in Ok (strict_eq m email)) l = Ok found ∧ truthy found = false ∧
    mem (run (register e body) w).1 = with_users (VArr (l ++ [VObj (new_user e body)])) (mem w) ∧
    (run (register e body) w).2 =
      Reply 200 (Some (VObj (object [("user", Some (VObj (delete "password" (new_user e body))));
                                     ("session", Some (session e))]%string))).
Proof.
  unfold new_user.
  cbv [run register try_catch bind gets lift ret modify rest_without set_users].
  repeat first [split_save | split_match]; try done.
  intros _. destruct (users (mem w)) as [| | | |l|] eqn:Hl; try done.
  cbn [as_array] in *. simplify_eq.
  match goal with H : _ || _ || _ = false |- _ =>
    apply orb_false_iff in H as [H ?]; apply orb_false_iff in H as [? ?] end.
  eexists _, _, _, _, _. split_and!; try done; by apply negb_false_iff.
Qed.

Lemma new_user_fields (e : env) (body : value) (name email password : option value) :
  get_prop (Some body) "name" = Ok name → get_prop (Some body) "email" = Ok email →
  get_prop (Some body) "password" = Ok password →
  new_user e body !! "email"%string = email ∧ new_user e body !! "password"%string = password ∧
  new_user e body !! "name"%string = name.
Proof.
  intros Hn He Hp. unfold new_user. rewrite !lookup_object, Hn, He, Hp. by cbn.
Qed.

Lemma strict_eq_string (s : string) : strict_eq (Some (VStr s)) (Some (VStr s)) = true.
Proof. unfold strict_eq. by rewrite bool_decide_eq_true_2. Qed.

(** The users after an accepted registration, as a log-in with the
    email of the registration searches them: none of the users there were
    has the email, the new user has it. *)
Lemma credentials_after_register (e : env) (body : value) (w : world) (email password : string) :
  get_prop (Some body) "email" = Ok (Some (VStr email)) →
  get_prop (Some body) "password" = Ok (Some (VStr password)) →
  replied_ok (run (register e body) w).2 = true →
  ∃ l,
    users (mem (run (register e body) w).1) = VArr (l ++ [VObj (new_user e body)]) ∧
    Forall (λ a, (let* m := get_prop (Some a) "email" in
                  Ok (strict_eq m (Some (VStr email)))) = Ok false) l ∧
    new_user e body !! "email"%string = Some (VStr email) ∧
    new_user e body !! "password"%string = Some (VStr password) ∧
    (run (register e body) w).2 =
      Reply 200 (Some (VObj (object [("user", Some (VObj (delete "password" (new_user e body))));
                                     ("session", Some (session e))]%string))).
Proof.
  intros He Hp Hok.
  destruct (register_accepted e body w Hok)
    as (l & name & email' & password' & found & Hl & Hn & He' & Hp' & _ & _ & _ &
        Hfind & Hfalsy & Hmem & Hr).
  rewrite He in He'. rewrite Hp in Hp'. simplify_eq.
  destruct (new_user_fields e body _ _ _ Hn He Hp) as (Hue & Hup & _).
  exists l. rewrite Hmem. split_and!; try done.
  eapply find_falsy; [|exact Hfind|exact Hfalsy]. apply same_email_truthy.
Qed.

(** X10. A user who has registered can log in: after a registration that is
    answered with a 200, a log-in with the same email and password, both
    strings, is answered with a 200 and the same user, which has no
    password; it changes nothing. *)
Theorem register_then_login (e e' : env) (body body' : value) (w : world)
    (email password : string) :
  get_prop (Some body) "email" = Ok (Some (VStr email)) →
  get_prop (Some body) "password" = Ok (Some (VStr password)) →
  get_prop (Some body') "email" = Ok (Some (VStr email)) →
  get_prop (Some body') "password" = Ok (Some (VStr password)) →
  replied_ok (run (register e body) w).2 = true →
  ∃ user : value,
    no_password user ∧
    (run (register e body) w).2 =
      Reply 200 (Some (VObj (object [("user", Some user); ("session", Some (session e))]%string))) ∧
    run (login e' body') (run (register e body) w).1 =
      ((run (register e body) w).1,
       Reply 200 (Some (VObj (object [("user", Some user); ("session", Some (session e'))]%string)))).
Proof.
  intros He Hp He' Hp' Hok.
  destruct (credentials_after_register e body w email password He Hp Hok)
    as (l & Hl & Hno & Hue & Hup & Hr).
  apply (register_accepted e body w) in Hok
    as (? & ? & ? & ? & ? & _ & _ & He2 & Hp2 & _ & Te & Tp & _).
  rewrite He in He2. rewrite Hp in Hp2. simplify_eq.
  destruct (run (register e body) w) as [w1 r]. cbn [fst snd] in *.
  exists (VObj (delete "password" (new_user e body))). split; [|split; [done|]].
  { unfold no_password, get_prop. by rewrite lookup_delete_eq. }
  cbv [run login try_catch bind gets lift ret]. rewrite He', Hp', Te, Tp.
  cbn [negb orb]. cbv beta iota. rewrite Hl. cbn [as_array]. cbv beta iota.
  rewrite (find_last _ l (VObj (new_user e body))).
  - done.
  - eapply Forall_impl; [exact Hno|]. intros a. cbv beta.
    destruct (get_prop (Some a) "email") as [m|]; cbn [rbind]; [|done].
    by intros [= ->].
  - cbv [get_prop rbind]. by rewrite Hue, Hup, !strict_eq_string.
Qed.

Lemma register_then_login_witness :
  get_prop (Some alice) "email" = Ok (Some (VStr "alice@muk.ac.zm")) ∧
  get_prop (Some alice) "password" = Ok (Some (VStr "s3cret!")) ∧
  replied_ok (run (register clock alice) (World initial_store ∅)).2 = true ∧
  ∃ user : value,
    no_password user ∧
    (run (register clock alice) (World initial_store ∅)).2 =
      Reply 200 (Some (VObj (object [("user", Some user);
                                     ("session", Some (session clock))]%string))) ∧
    run (login later alice) (run (register clock alice) (World initial_store ∅)).1 =
      ((run (register clock alice) (World initial_store ∅)).1,
       Reply 200 (Some (VObj (object [("user", Some user);
                                      ("session", Some (session later))]%string)))).
Proof.
  split; [reflexivity|]. split; [reflexivity|]. split; [reflexivity|].
  apply (register_then_login clock later alice alice (World initial_store ∅)
           "alice@muk.ac.zm" "s3cret!"); reflexivity.
Defined.

(** X11. The password is needed: after a registration that is answered with
    a 200, a log-in with the email of the registration and another
    password is answered with a 401, whoever else is registered. *)
Theorem login_needs_the_password (e e' : env) (body body' : value) (w : world)
    (email password password' : string) :
  get_prop (Some body) "email" = Ok (Some (VStr email)) →
  get_prop (Some body) "password" = Ok (Some (VStr password)) →
  get_prop (Some body') "email" = Ok (Some (VStr email)) →
  get_prop (Some body') "password" = Ok (Some (VStr password')) →
  password' ≠ password → password' ≠ EmptyString →
  replied_ok (run (register e body) w).2 = true →
  run (login e' body') (run (register e body) w).1 =
    ((run (register e body) w).1, Reply 401 (error_body "Invalid email or password")).
Proof.
  intros He Hp He' Hp' Hne Hnn Hok.
  destruct (credentials_after_register e body w email password He Hp Hok)
    as (l & Hl & Hno & Hue & Hup & Hr).
  apply (register_accepted e body w) in Hok
    as (? & ? & ? & ? & ? & _ & _ & He2 & Hp2 & _ & Te & Tp & _).
  rewrite He in He2. rewrite Hp in Hp2. simplify_eq.
  destruct (run (register e body) w) as [w1 r]. cbn [fst snd] in *.
  assert (truthy (Some (VStr password')) = true) as Tp' by (by destruct password').
  cbv [run login try_catch bind gets lift ret]. rewrite He', Hp', Te, Tp'.
  cbn [negb orb]. cbv beta iota. rewrite Hl. cbn [as_array]. cbv beta iota.
  rewrite find_no_match; [done|].
  apply Forall_app. split.
  - eapply Forall_impl; [exact Hno|]. intros a. cbv beta.
    destruct (get_prop (Some a) "email") as [m|]; cbn [rbind]; [|done].
    by intros [= ->].
  - constructor; [|constructor]. cbv [get_prop rbind]. rewrite Hue, Hup, strict_eq_string.
    unfold strict_eq. rewrite bool_decide_eq_false_2; [done|congruence].
Qed.

Lemma login_needs_the_password_witness :
  get_prop (Some alice) "email" = Ok (Some (VStr "alice@muk.ac.zm")) ∧
  get_prop (Some alice) "password" = Ok (Some (VStr "s3cret!")) ∧
  get_prop (Some mallory) "email" = Ok (Some (VStr "alice@muk.ac.zm")) ∧
  get_prop (Some mallory) "password" = Ok (Some (VStr "letmein")) ∧
  replied_ok (run (register clock alice) (World initial_store ∅)).2 = true ∧
  run (login later mallory) (run (register clock alice) (World initial_store ∅)).1 =
    ((run (register clock alice) (World initial_store ∅)).1,
     Reply 401 (error_body "Invalid email or password")).
Proof.
  split; [reflexivity|]. split; [reflexivity|]. split; [reflexivity|].
  split; [reflexivity|]. split; [reflexivity|].
  apply (login_needs_the_password clock later alice mallory (World initial_store ∅)
           "alice@muk.ac.zm" "s3cret!" "letmein"); done.
Defined.

Lemma string_length (s : string) :
  get_prop (Some (VStr s)) "length" = Ok (Some (VNum (Z.of_nat (String.length s)))).
Proof. done. Qed.



(** ** Requests that lack a field *)

(** X13. A registration is checked before the users are looked at: without a
    name, an email or a password, each of them truthy, it is answered
    with a 400, and so it is when the password is a string of fewer than
    six characters. Nothing changes, whatever the collections hold. *)
Theorem register_checks_its_fields (e : env) (body : value) (w : world)
    (name email password : option value) :
  get_prop (Some body) "name" = Ok name → get_prop (Some body) "email" = Ok email →
  get_prop (Some body) "password" = Ok password →
  (truthy name && truthy email && truthy password = false →
   run (register e body) w = (w, Reply 400 (error_body "Please fill in all fields"))) ∧
  (∀ p, truthy name && truthy email = true → password = Some (VStr p) →
        (0 < String.length p < 6)%nat →
        run (register e body) w =
          (w, Reply 400 (error_body "Password must be at least 6 characters"))).
Proof.
  intros Hn He Hp. split.
  - intros Hf. cbv [run register try_catch bind gets lift ret]. rewrite Hn, He, Hp.
    cbv beta iota.
    assert (negb (truthy name) || negb (truthy email) || negb (truthy password) = true) as ->;
      [|done].
    destruct (truthy name), (truthy email), (truthy password); done.
  - intros p Ht -> Hlen. apply andb_true_iff in Ht as [Tn Te].
    assert (truthy (Some (VStr p)) = true) as Tp by (destruct p; [simpl in Hlen; lia|done]).
    cbv [run register try_catch bind gets lift ret]. rewrite Hn, He, Hp, Tn, Te, Tp.
    cbn [negb orb]. cbv beta iota. rewrite string_length. cbv beta iota.
    unfold less_than, ToNumber. cbn [rbind]. by rewrite bool_decide_eq_true_2 by lia.
Qed.

Lemma register_checks_its_fields_witness :
  get_prop (Some short_password) "name" = Ok (Some (VStr "Carol")) ∧
  get_prop (Some short_password) "email" = Ok (Some (VStr "carol@muk.ac.zm")) ∧
  get_prop (Some short_password) "password" = Ok (Some (VStr "12345")) ∧
  (0 < String.length "12345" < 6)%nat ∧
  run (register clock short_password) one_article =
    (one_article, Reply 400 (error_body "Password must be at least 6 characters")).
Proof.
  split; [reflexivity|]. split; [reflexivity|]. split; [reflexivity|]. split; [simpl; lia|].
  apply (proj2 (register_checks_its_fields clock short_password one_article
                  (Some (VStr "Carol")) (Some (VStr "carol@muk.ac.zm")) (Some (VStr "12345"))
                  eq_refl eq_refl eq_refl) "12345"); [reflexivity|reflexivity|simpl; lia].
Defined.



(** ** Creating and deleting *)

Lemma findIndex_last (p : value → result bool) (l : list value) (x : value) :
  Forall (λ a, p a = Ok false) l → p x = Ok true →
  findIndex p (l ++ [x]) = Ok (Some (length l)).
Proof.
  intros Hl Hx. induction Hl as [|a l Ha _ IH]; cbn [app findIndex length].
  - by rewrite Hx.
  - by rewrite Ha, IH.
Qed.

Lemma delete_last (l : list value) (x : value) : delete (length l) (l ++ [x]) = l.
Proof. by rewrite delete_middle, app_nil_r. Qed.

Lemma delete_user_spec (e : env) (id : string) (w : world) (l : list value) :
  users (mem w) = VArr l →
  run (delete_user e id) w =
    match findIndex (id_loosely id) l with
    | Ok None => (w, Reply 404 (error_body "User not found"))
    | Ok (Some i) =>
        ((saveDataToCloudinary e (World (with_users (VArr (delete i l)) (mem w)) (cloud w))).1,
         Reply 200 (message_body "User deleted successfully"))
    | Throw err => (w, ServerError err)
    end.
Proof.
  intros Hl. cbv [run delete_user try_catch bind gets lift ret set_users modify].
  rewrite Hl. cbv [as_array].
  destruct (findIndex (id_loosely id) l) as [[i|]|] eqn:Hi; [|done..].
  destruct (found_readable id l i "email" Hi) as [email Hemail].
  match goal with |- context [saveDataToCloudinary e ?w0] =>
    pose proof (save_returns e w0) as Hs; destruct (saveDataToCloudinary e w0) as [w' r] end.
  simpl in Hs. subst r. by rewrite Hemail.
Qed.

Lemma new_user_found (e : env) (body : value) :
  id_loosely (NumberToString (date_now e)) (VObj (new_user e body)) = Ok true.
Proof. unfold id_loosely, get_prop. rewrite new_user_id. apply loose_eq_number. Qed.

Lemma with_users_back (s : store) (l : list value) (v : value) :
  users s = VArr l → with_users (VArr l) (with_users v s) = s.
Proof. destruct s. cbn. by intros ->. Qed.

Lemma with_articles_back (s : store) (l : list value) (v : value) :
  articles s = VArr l → with_articles (VArr l) (with_articles v s) = s.
Proof. destruct s. cbn. by intros ->. Qed.

Lemma post_article_accepted (e : env) (body : value) (f : option file) (w : world)
    (l : list value) :
  articles (mem w) = VArr l → replied_ok (run (post_article e body f) w).2 = true →
  mem (run (post_article e body f) w).1 =
    with_articles (VArr (l ++ [VObj (new_article e body f)])) (mem w) ∧
  (run (post_article e body f) w).2 = Reply 200 (Some (VObj (new_article e body f))).
Proof.
  intros Hl.
  assert (body = VNull ∨ body ≠ VNull) as [->|Hb]
    by (destruct body; (by left) || (by right)); [done|].
  rewrite (post_article_spec e body f w l Hl Hb).
  destruct (truthy _ && truthy _); [|done]. cbn [fst snd]. by rewrite save_mem.
Qed.

(** X15. A record that has just been created can be deleted by the id it
    was given, which puts the collection back as it was: when none of
    the records there were has the id of the clock reading, a
    [POST /articles] that is answered with a 200 followed by a
    [DELETE /articles/:id] of that id leaves the memory as it was before
    both, and so do a registration and a [DELETE /users/:id]. *)
Theorem create_then_delete_restores :
  (∀ (e e' : env) (body : value) (f : option file) (w : world) (l : list value),
     articles (mem w) = VArr l →
     Forall (λ a, id_loosely (NumberToString (date_now e)) a = Ok false) l →
     replied_ok (run (post_article e body f) w).2 = true →
     let w1 := (run (post_article e body f) w).1 in
     (run (delete_article e' (NumberToString (date_now e))) w1).2 =
       Reply 200 (message_body "Article deleted successfully") ∧
     mem (run (delete_article e' (NumberToString (date_now e))) w1).1 = mem w) ∧
  (∀ (e e' : env) (body : value) (w : world) (l : list value),
     users (mem w) = VArr l →
     Forall (λ a, id_loosely (NumberToString (date_now e)) a = Ok false) l →
     replied_ok (run (register e body) w).2 = true →
     let w1 := (run (register e body) w).1 in
     (run (delete_user e' (NumberToString (date_now e))) w1).2 =
       Reply 200 (message_body "User deleted successfully") ∧
     mem (run (delete_user e' (NumberToString (date_now e))) w1).1 = mem w).
Proof.
  split.
  - intros e e' body f w l Hl Hno Hok w1. subst w1.
    destruct (post_article_accepted e body f w l Hl Hok) as [Hm _].
    destruct (run (post_article e body f) w) as [w1 r]. cbn [fst snd] in *.
    assert (articles (mem w1) = VArr (l ++ [VObj (new_article e body f)])) as Hl1
      by (by rewrite Hm; destruct (mem w)).
    rewrite (delete_article_spec e' _ w1 _ Hl1).
    rewrite (findIndex_last _ l _ Hno (new_article_found e body f)). cbn [fst snd].
    split; [done|]. rewrite save_mem. cbn [mem]. rewrite delete_last, Hm.
    by apply with_articles_back.
  - intros e e' body w l Hl Hno Hok w1. subst w1.
    destruct (register_accepted e body w Hok)
      as (l' & ? & ? & ? & ? & Hl' & _ & _ & _ & _ & _ & _ & _ & _ & Hm & _).
    rewrite Hl in Hl'. simplify_eq.
    destruct (run (register e body) w) as [w1 r]. cbn [fst snd] in *.
    assert (users (mem w1) = VArr (l' ++ [VObj (new_user e body)])) as Hl1
      by (by rewrite Hm; destruct (mem w)).
    rewrite (delete_user_spec e' _ w1 _ Hl1).
    rewrite (findIndex_last _ l' _ Hno (new_user_found e body)). cbn [fst snd].
    split; [done|]. rewrite save_mem. cbn [mem]. rewrite delete_last, Hm.
    by apply with_users_back.
Qed.

Lemma create_then_delete_restores_witness :
  (articles (mem (World initial_store ∅)) = VArr [] ∧
   replied_ok (run (post_article clock article_A None) (World initial_store ∅)).2 = true ∧
   (run (delete_article later "1700000000000" ) one_article).2 =
     Reply 200 (message_body "Article deleted successfully") ∧
   mem (run (delete_article later "1700000000000") one_article).1 = initial_store) ∧
  (users (mem (World initial_store ∅)) = VArr [] ∧
   replied_ok (run (register clock alice) (World initial_store ∅)).2 = true ∧
   (run (delete_user later "1700000000000")
        (run (register clock alice) (World initial_store ∅)).1).2 =
     Reply 200 (message_body "User deleted successfully") ∧
   mem (run (delete_user later "1700000000000")
            (run (register clock alice) (World initial_store ∅)).1).1 = initial_store).
Proof.
  split.
  - split; [reflexivity|]. split; [reflexivity|].
    apply (proj1 create_then_delete_restores clock later article_A None
             (World initial_store ∅) []); [reflexivity|constructor|reflexivity].
  - split; [reflexivity|]. split; [reflexivity|].
    apply (proj2 create_then_delete_restores clock later alice
             (World initial_store ∅) []); [reflexivity|constructor|reflexivity].
Defined.




(** ** Updating an article *)

Lemma find_insert (p : value → result bool) (l : list value) (i : nat) (x : value) :
  findIndex p l = Ok (Some i) → p x = Ok true → find p (<[i := x]> l) = Ok (Some x).
Proof.
  revert i. induction l as [|a l IH]; intros i; cbn [findIndex]; [done|].
  destruct (p a) as [[]|] eqn:Ha; cbn [rbind]; [| |done].
  - intros [= <-] Hx. cbn. by rewrite Hx.
  - destruct (findIndex p l) as [[j|]|]; cbn; try done.
    intros [= <-] Hx. cbn. rewrite Ha. cbn. by apply IH.
Qed.

(** Only an object can have an [id] that matches. *)
Lemma id_loosely_object (id : string) (a : value) :
  id_loosely id a = Ok true → ∃ o, a = VObj o.
Proof.
  assert (to_index "id" = None) as Hid by (by vm_compute).
  destruct a as [|b|n|s|l|o]; [done| | | | |eauto];
    unfold id_loosely, get_prop, array_prop, string_prop;
    rewrite ?bool_decide_eq_false_2, ?Hid by done; done.
Qed.

(** What a [PUT /articles/:id] that is answered with a 200 found and
    did. *)
Lemma put_article_accepted (e : env) (id : string) (body : value) (f : option file) (w : world) :
  replied_ok (run (put_article e id body f) w).2 = true →
  ∃ l i old,
    articles (mem w) = VArr l ∧ body ≠ VNull ∧
    findIndex (id_loosely id) l = Ok (Some i) ∧ l !! i = Some (VObj old) ∧
    id_loosely id (VObj old) = Ok true ∧
    let pdf := match f with
               | Some f => [("pdfName", f !! "originalname");
                            ("pdfUrl", file_url f);
                            ("pdfFile", Some (VBool true))]%string
               | None => []
               end in
    let fields := (λ k, (k, match get_prop (Some body) k with Ok v => v | Throw _ => None end))
                    <$> article_fields in
    let updated := VObj (set_fields (fields ++ pdf) old) in
    (run (put_article e id body f) w).2 = Reply 200 (Some updated) ∧
    mem (run (put_article e id body f) w).1 =
      with_articles (VArr (<[i := updated]> l)) (mem w).
Proof.
  intros Hok.
  assert (body ≠ VNull) as Hb by (by intros ->).
  destruct (articles (mem w)) as [| | | |l|] eqn:Hl;
    try (revert Hok; cbv [run put_article try_catch bind gets lift ret];
         rewrite read_fields_parsed, Hl by done; done).
  rewrite (put_article_spec e id body f w l Hl Hb) in Hok |- *.
  destruct (findIndex (id_loosely id) l) as [[i|]|] eqn:Hi; [|done..].
  destruct (findIndex_found _ _ _ Hi) as (a & Ha & Hmatch).
  destruct (id_loosely_object id a Hmatch) as [old ->].
  exists l, i, old. rewrite Ha. cbn [fst snd own_props]. rewrite save_mem.
  split_and!; done.
Qed.

(** X17. An update can be read back: after a [PUT /articles/:id] that is
    answered with a 200, a [GET /articles/:id] of the same id is answered
    with the article the update returned, whether or not other articles
    have that id; the articles are as many as before. *)
Theorem put_then_get (e : env) (id : string) (body : value) (f : option file) (w : world) :
  replied_ok (run (put_article e id body f) w).2 = true →
  ∃ (updated : value) (l l' : list value),
    (run (put_article e id body f) w).2 = Reply 200 (Some updated) ∧
    run (get_article id) (run (put_article e id body f) w).1 =
      ((run (put_article e id body f) w).1, Reply 200 (Some updated)) ∧
    articles (mem w) = VArr l ∧ articles (mem (run (put_article e id body f) w).1) = VArr l' ∧
    length l' = length l.
Proof.
  intros Hok.
  destruct (put_article_accepted e id body f w Hok)
    as (l & i & old & Hl & Hb & Hi & Hold & Hmatch & Hr & Hm).
  cbv zeta in Hr, Hm. eexists _, l, _. split; [exact Hr|].
  destruct (run (put_article e id body f) w) as [w1 r]. cbn [fst snd] in *.
  assert (articles (mem w1) = VArr (<[i := VObj (set_fields
            (((λ k, (k, match get_prop (Some body) k with Ok v => v | Throw _ => None end))
                <$> article_fields) ++
             match f with
             | Some f => [("pdfName", f !! "originalname"); ("pdfUrl", file_url f);
                          ("pdfFile", Some (VBool true))]%string
             | None => []
             end) old)]> l)) as Hl1 by (by rewrite Hm; destruct (mem w)).
  rewrite (get_article_spec id w1 _ Hl1). split_and!; [|done|done|by rewrite length_insert].
  rewrite (find_insert _ l i _ Hi); [done|].
  revert Hmatch. unfold id_loosely, get_prop.
  rewrite set_fields_id; [done|unfold article_fields; not_a_key|destruct f; not_a_key].
Qed.

Lemma put_then_get_witness :
  replied_ok (run (put_article later "1700000000000" article_B None) one_article).2 = true ∧
  ∃ (updated : value) (l l' : list value),
    (run (put_article later "1700000000000" article_B None) one_article).2 =
      Reply 200 (Some updated) ∧
    run (get_article "1700000000000")
        (run (put_article later "1700000000000" article_B None) one_article).1 =
      ((run (put_article later "1700000000000" article_B None) one_article).1,
       Reply 200 (Some updated)) ∧
    articles (mem one_article) = VArr l ∧
    articles (mem (run (put_article later "1700000000000" article_B None) one_article).1) =
      VArr l' ∧
    length l' = length l.
Proof.
  split; [reflexivity|].
  apply (put_then_get later "1700000000000" article_B None one_article). reflexivity.
Defined.

Lemma binding_fmap (g : string → option value) (k : string) (ks : list string) :
  k ∈ ks → binding k ((λ k, (k, g k)) <$> ks) = Some (g k).
Proof.
  induction ks as [|k' ks IH] using rev_ind; [by intros ?%elem_of_nil|].
  rewrite fmap_app, binding_app. cbn. case_bool_decide as Hk; [by subst k'|].
  intros [?|Hin%list_elem_of_singleton]%elem_of_app; [by apply IH|]. by subst k'.
Qed.

(** X18. An update writes the six fields of an article and nothing else:
    each of [title], [category], [description], [authors],
    [institution] and [publicationDate] takes the value the request has
    for it, so a field the request leaves out is removed; every other
    property of the article, its [id] and [createdAt] among them, stays,
    but for the three properties of the PDF when a file comes with the
    request. The article keeps its place in the collection. *)
Theorem put_writes_the_six_fields (e : env) (id : string) (body : value) (f : option file)
    (w : world) :
  replied_ok (run (put_article e id body f) w).2 = true →
  ∃ (i : nat) (l : list value) (old updated : gmap string value),
    articles (mem w) = VArr l ∧ l !! i = Some (VObj old) ∧
    (run (put_article e id body f) w).2 = Reply 200 (Some (VObj updated)) ∧
    articles (mem (run (put_article e id body f) w).1) = VArr (<[i := VObj updated]> l) ∧
    (∀ k, k ∈ article_fields → get_prop (Some body) k = Ok (updated !! k)) ∧
    (∀ k, k ∉ article_fields →
          f = None ∨ k ∉ ["pdfName"; "pdfUrl"; "pdfFile"]%string →
          updated !! k = old !! k).
Proof.
  intros Hok.
  destruct (put_article_accepted e id body f w Hok)
    as (l & i & old & Hl & Hb & Hi & Hold & Hmatch & Hr & Hm).
  cbv zeta in Hr, Hm. eexists i, l, old, _.
  split; [done|]. split; [done|]. split; [exact Hr|].
  split; [by rewrite Hm; destruct (mem w)|]. split.
  - intros k Hk. destruct (get_prop_total body k Hb) as [v Hv]. rewrite Hv. f_equal.
    rewrite lookup_set_fields, binding_app.
    rewrite (binding_none k (match f with Some _ => _ | None => _ end)).
    + by rewrite (binding_fmap _ k article_fields Hk), Hv.
    + unfold article_fields in Hk. destruct f; [|apply not_elem_of_nil].
      cbn [fmap list_fmap fst]. rewrite !elem_of_cons, elem_of_nil in Hk.
      rewrite !not_elem_of_cons.
      split_and!; try apply not_elem_of_nil; intros ->;
        repeat (destruct Hk as [Hk|Hk]; [discriminate|]); done.
  - intros k Hk Hpdf. rewrite lookup_set_fields, binding_app.
    rewrite (binding_none k (match f with Some _ => _ | None => _ end)).
    + rewrite binding_none; [done|]. by rewrite <- list_fmap_compose, list_fmap_id.
    + destruct Hpdf as [->|Hpdf]; [apply not_elem_of_nil|]. by destruct f; [|apply not_elem_of_nil].
Qed.

Lemma put_writes_the_six_fields_witness :
  replied_ok (run (put_article later "1700000000000" article_B None) one_article).2 = true ∧
  ∃ (i : nat) (l : list value) (old updated : gmap string value),
    articles (mem one_article) = VArr l ∧ l !! i = Some (VObj old) ∧
    (run (put_article later "1700000000000" article_B None) one_article).2 =
      Reply 200 (Some (VObj updated)) ∧
    articles (mem (run (put_article later "1700000000000" article_B None) one_article).1) =
      VArr (<[i := VObj updated]> l) ∧
    (∀ k, k ∈ article_fields → get_prop (Some article_B) k = Ok (updated !! k)) ∧
    (∀ k, k ∉ article_fields →
          @None file = None ∨ k ∉ ["pdfName"; "pdfUrl"; "pdfFile"]%string →
          updated !! k = old !! k).
Proof.
  split; [reflexivity|].
  apply (put_writes_the_six_fields later "1700000000000" article_B None one_article).
  reflexivity.
Defined.

(** ** The configuration *)

Lemma post_config_spec (e : env) (body : value) (w : world) :
  run (post_config e body) w =
    ((saveDataToCloudinary e
        (World (with_config (VObj (own_props (Some body) ∪ own_props (Some (config (mem w)))))
                            (mem w)) (cloud w))).1,
     Reply 200 (Some (VObj (own_props (Some body) ∪ own_props (Some (config (mem w))))))).
Proof.
  cbv [run post_config try_catch bind gets set_config modify ret].
  match goal with |- context [saveDataToCloudinary e ?w0] =>
    pose proof (save_returns e w0) as Hs; destruct (saveDataToCloudinary e w0) as [w' r] end.
  simpl in Hs. by subst r.
Qed.

(** X19. What [POST /config] answers is what [GET /config] answers from then
    on, and the same update sent again changes nothing more. *)
Theorem config_update_is_read_back (e e' : env) (body : value) (w : world) :
  let w1 := (run (post_config e body) w).1 in
  (run get_config w1).2 = (run (post_config e body) w).2 ∧
  (run (post_config e' body) w1).2 = (run (post_config e body) w).2 ∧
  mem (run (post_config e' body) w1).1 = mem w1.
Proof.
  intros w1. subst w1. rewrite !post_config_spec. cbn [fst snd].
  rewrite !save_mem. cbn [mem config with_config].
  cbv [run get_config bind gets ret]. rewrite save_mem. cbn [mem config with_config own_props].
  rewrite (map_union_assoc (own_props (Some body))), map_union_idemp.
  split; [done|]. split; [done|]. by destruct (mem w).
Qed.

(** ** Unsubscribing *)

Lemma filter_array_sublist (p : value → result bool) (l kept : list value) :
  filter_array p l = Ok kept → sublist kept l.
Proof.
  revert kept. induction l as [|a l IH]; intros kept; cbn [filter_array].
  - by intros [= <-].
  - destruct (p a) as [b|]; cbn [rbind]; [|done].
    destruct (filter_array p l) as [r|]; cbn [rbind]; [|done].
    intros [= <-]. destruct b; [apply sublist_skip|apply sublist_cons]; by apply IH.
Qed.

Lemma filter_array_spec (p : value → result bool) (l kept : list value) :
  filter_array p l = Ok kept →
  Forall (λ a, p a = Ok true) kept ∧ (∀ a, a ∈ l → p a = Ok true → a ∈ kept).
Proof.
  revert kept. induction l as [|a l IH]; intros kept; cbn [filter_array].
  - intros [= <-]. split; [constructor|]. by intros a ?%elem_of_nil.
  - destruct (p a) as [b|] eqn:Ha; cbn [rbind]; [|done].
    destruct (filter_array p l) as [r|]; cbn [rbind]; [|done].
    destruct (IH r eq_refl) as [Hr Hin]. intros [= <-]. destruct b.
    + split; [by constructor|]. intros x [->|Hx]%elem_of_cons Hp;
        [apply list_elem_of_here|apply list_elem_of_further; by apply Hin].
    + split; [done|]. intros x [->|Hx]%elem_of_cons Hp; [congruence|by apply Hin].
Qed.

Lemma push_unsubscribe_spec (body : value) (w : world) (l : list value) (endpoint : option value) :
  get_prop (Some body) "endpoint" = Ok endpoint →
  pushSubscriptions (mem w) = VArr l → Forall is_object l →
  ∃ kept,
    filter_array (λ s, let* b := endpoint_is endpoint s in Ok (negb b)) l = Ok kept ∧
    run (push_unsubscribe body) w =
      (World (with_pushSubscriptions (VArr kept) (mem w)) (cloud w),
       Reply 200 (message_body "Unsubscribed successfully")).
Proof.
  intros He Hl Hobj.
  destruct (filter_array_total (λ s, let* b := endpoint_is endpoint s in Ok (negb b)) l)
    as [kept Hkept].
  { eapply Forall_impl; [exact Hobj|]. intros s [o ->].
    unfold endpoint_is, get_prop. cbn. eauto. }
  exists kept. split; [done|].
  cbv [run push_unsubscribe try_catch bind gets lift ret set_pushSubscriptions modify].
  rewrite He, Hl. cbv [as_array]. by rewrite Hkept.
Qed.

(** X20. After [POST /push/unsubscribe] no subscription with the endpoint of
    the request is left, whatever number of them there was; every other
    subscription is kept, in order, and nothing else changes. *)
Theorem unsubscribe_removes_the_endpoint (body : value) (w : world) (l : list value)
    (endpoint : option value) :
  get_prop (Some body) "endpoint" = Ok endpoint →
  pushSubscriptions (mem w) = VArr l → Forall is_object l →
  ∃ kept,
    run (push_unsubscribe body) w =
      (World (with_pushSubscriptions (VArr kept) (mem w)) (cloud w),
       Reply 200 (message_body "Unsubscribed successfully")) ∧
    sublist kept l ∧
    Forall (λ s, endpoint_is endpoint s = Ok false) kept ∧
    (∀ s, s ∈ l → endpoint_is endpoint s = Ok false → s ∈ kept).
Proof.
  intros He Hl Hobj.
  destruct (push_unsubscribe_spec body w l endpoint He Hl Hobj) as (kept & Hkept & Hrun).
  exists kept. split; [done|]. split; [by eapply filter_array_sublist|].
  destruct (filter_array_spec _ _ _ Hkept) as [Hall Hin]. split.
  - eapply Forall_impl; [exact Hall|]. intros s. cbv beta.
    destruct (endpoint_is endpoint s) as [[]|]; cbn [rbind negb]; done.
  - intros s Hs Hno. apply Hin; [done|]. by rewrite Hno.
Qed.

Lemma unsubscribe_removes_the_endpoint_witness :
  get_prop (Some device) "endpoint" = Ok (Some (VStr "https://push.example/device-1")) ∧
  (∃ l, pushSubscriptions (mem subscribed) = VArr l ∧ Forall is_object l ∧
   ∃ kept,
     run (push_unsubscribe device) subscribed =
       (World (with_pushSubscriptions (VArr kept) (mem subscribed)) (cloud subscribed),
        Reply 200 (message_body "Unsubscribed successfully")) ∧
     sublist kept l ∧
     Forall (λ s, endpoint_is (Some (VStr "https://push.example/device-1")) s = Ok false) kept ∧
     (∀ s, s ∈ l → endpoint_is (Some (VStr "https://push.example/device-1")) s = Ok false →
           s ∈ kept)).
Proof.
  split; [reflexivity|]. eexists. split; [reflexivity|].
  assert (Forall is_object
            [VObj (object [("endpoint", Some (VStr "https://push.example/device-1"));
                           ("keys", Some (VObj {[ "auth"%string := VStr "k1" ]}))]%string)])
    as Hobj by (constructor; [by eexists|constructor]).
  split; [exact Hobj|].
  exact (unsubscribe_removes_the_endpoint device subscribed _ _ eq_refl eq_refl Hobj).
Defined.

(** ** One subscription for an endpoint *)

Lemma strict_eq_sym (a b : option value) : strict_eq a b = strict_eq b a.
Proof.
  destruct a as [[]|], b as [[]|]; try done; unfold strict_eq;
    apply bool_decide_ext; split; congruence.
Qed.

Lemma endpoint_is_of (endpoint : option value) (s : value) :
  is_object s → endpoint_is endpoint s = Ok (strict_eq (endpoint_of s) endpoint).
Proof. by intros [o ->]. Qed.

Lemma forallb_sublist {A} (f : A → bool) (k l : list A) :
  sublist k l → forallb f l = true → forallb f k = true.
Proof.
  induction 1 as [|x k l _ IH|x k l _ IH]; cbn [forallb]; [done|..].
  - intros [Hx Hl]%andb_true_iff. by rewrite Hx, IH.
  - intros [_ Hl]%andb_true_iff. by apply IH.
Qed.

Lemma distinct_sublist (k l : list value) :
  sublist k l → distinct_endpoints l = true → distinct_endpoints k = true.
Proof.
  induction 1 as [|x k l Hkl IH|x k l _ IH]; cbn [distinct_endpoints]; [done|..].
  - intros [Hx Hl]%andb_true_iff. by rewrite (forallb_sublist _ k l Hkl Hx), IH.
  - intros [_ Hl]%andb_true_iff. by apply IH.
Qed.

Lemma distinct_snoc (l : list value) (s : value) :
  distinct_endpoints l = true →
  Forall (λ s', strict_eq (endpoint_of s') (endpoint_of s) = false) l →
  distinct_endpoints (l ++ [s]) = true.
Proof.
  intros Hl Hs. induction Hs as [|a l Ha Hs IH]; [done|].
  cbn [app distinct_endpoints] in *. apply andb_true_iff in Hl as [Ha' Hl].
  rewrite (IH Hl), andb_true_r. rewrite forallb_app, Ha'. cbn.
  by rewrite strict_eq_sym, Ha.
Qed.

Lemma new_subscription_endpoint (endpoint keys : option value) :
  endpoint_of (VObj (object [("endpoint", endpoint); ("keys", keys)]%string)) = endpoint.
Proof. unfold endpoint_of, get_prop. by rewrite lookup_object. Qed.

Lemma other_requests_keep_subscriptions (e : env) (r : request) (w : world) :
  match r with PushSubscribe _ | PushUnsubscribe _ => False | _ => True end →
  pushSubscriptions (mem (run (handle e r) w).1) = pushSubscriptions (mem w).
Proof.
  destruct r; try done; intros _; unfold_handlers;
    repeat first [split_save | split_match]; cbn [fst snd mem]; try done.
  all: match goal with H : mem ?w0 = _ |- context [mem ?w0] => rewrite H end;
    by destruct (mem w).
Qed.

(** The subscriptions are an array of objects no two of which have the
    same endpoint. *)
Lemma distinct_handle (e : env) (r : request) (w : world) (l : list value) :
  pushSubscriptions (mem w) = VArr l → Forall is_object l → distinct_endpoints l = true →
  ∃ l', pushSubscriptions (mem (run (handle e r) w).1) = VArr l' ∧ Forall is_object l' ∧
        distinct_endpoints l' = true.
Proof.
  intros Hl Hobj Hd.
  destruct r; try (exists l; by rewrite other_requests_keep_subscriptions).
  - (* subscribe *)
    cbn [handle].
    assert (body = VNull ∨ body ≠ VNull) as [->|Hb]
      by (destruct body; (by left) || (by right)); [by exists l|].
    destruct (get_prop_total body "endpoint" Hb) as [endpoint He].
    destruct (get_prop_total body "keys" Hb) as [keys Hk].
    destruct (match_or_not _ l (endpoint_is_total endpoint l Hobj)) as [Hex|Hno].
    + destruct (push_subscribe_present body w l _ He Hl Hobj Hex) as [-> _]. by exists l.
    + rewrite (push_subscribe_absent body w l _ _ He Hk Hl Hno). cbn [fst mem pushSubscriptions with_pushSubscriptions].
      eexists. split; [done|]. split.
      * apply Forall_app. split; [done|]. constructor; [by eexists|constructor].
      * apply distinct_snoc; [done|]. rewrite new_subscription_endpoint.
        rewrite Forall_forall in Hno, Hobj |- *. intros s Hs.
        specialize (Hno s Hs). rewrite (endpoint_is_of _ _ (Hobj s Hs)) in Hno. congruence.
  - (* unsubscribe *)
    cbn [handle].
    assert (body = VNull ∨ body ≠ VNull) as [->|Hb]
      by (destruct body; (by left) || (by right)); [by exists l|].
    destruct (get_prop_total body "endpoint" Hb) as [endpoint He].
    destruct (push_unsubscribe_spec body w l endpoint He Hl Hobj) as (kept & Hkept & ->).
    exists kept. cbn. split; [done|]. split.
    + by eapply filter_array_Forall.
    + eapply distinct_sublist; [|done]. by eapply filter_array_sublist.
Qed.

(** X21. However the server has been used, its push subscriptions are an
    array of objects of which no two have the same endpoint, as [===]
    compares endpoints: a client that subscribes again and again is
    stored once. *)
Theorem endpoints_stay_distinct (fetch : bool) (c : gmap string text) (evs : list event) :
  ∃ l, pushSubscriptions (mem (after fetch c evs)) = VArr l ∧ Forall is_object l ∧
       distinct_endpoints l = true.
Proof.
  unfold after.
  assert (∃ l, pushSubscriptions (mem (boot_world (startup fetch c))) = VArr l ∧
               Forall is_object l ∧ distinct_endpoints l = true) as H0.
  { exists []. split; [|by split].
    unfold startup.
    pose proof (kept_load (VArr []) fetch (World initial_store c) eq_refl) as H.
    by destruct (loadDataFromCloudinary fetch (World initial_store c)) as [w [l|e]]. }
  revert H0. generalize (boot_world (startup fetch c)).
  induction evs as [|ev evs IH]; intros w Hw; cbn [foldl]; [done|].
  apply IH. destruct Hw as (l & Hl & Hobj & Hd). destruct ev as [e r|e|fetch']; cbn [step].
  - by eapply distinct_handle.
  - exists l. by rewrite save_mem.
  - exists []. split; [|by split].
    unfold startup.
    pose proof (kept_load (VArr []) fetch' (World initial_store (cloud w)) eq_refl) as H.
    by destruct (loadDataFromCloudinary fetch' (World initial_store (cloud w))) as [w' [l'|e]].
Qed.

(** ** The files of the server on JSON files *)

Lemma initFile_keeps (filePath : string) (v : value) (d : JsonFile.disk) (f : string) (t : text) :
  JsonFile.data d !! f = Some t → JsonFile.data (JsonFile.initFile filePath v d) !! f = Some t.
Proof.
  intros Hf. unfold JsonFile.initFile.
  destruct (JsonFile.data d !! filePath) as [t'|] eqn:Hp; [done|]. cbn.
  rewrite lookup_insert_ne; [done|]. intros ->. congruence.
Qed.

Lemma initFile_present (filePath : string) (v : value) (d : JsonFile.disk) :
  is_Some (JsonFile.data (JsonFile.initFile filePath v d) !! filePath).
Proof.
  unfold JsonFile.initFile.
  destruct (JsonFile.data d !! filePath) as [t'|] eqn:Hp; [by rewrite Hp|].
  cbn. by rewrite lookup_insert_eq.
Qed.

Lemma initFile_uploads (filePath : string) (v : value) (d : JsonFile.disk) :
  JsonFile.uploads (JsonFile.initFile filePath v d) = JsonFile.uploads d.
Proof. unfold JsonFile.initFile. by destruct (JsonFile.data d !! filePath). Qed.

Lemma initFile_again (filePath : string) (v : value) (d : JsonFile.disk) :
  is_Some (JsonFile.data d !! filePath) → JsonFile.initFile filePath v d = d.
Proof. intros [t Ht]. unfold JsonFile.initFile. by rewrite Ht. Qed.

Lemma initFile_keeps_present (filePath : string) (v : value) (d : JsonFile.disk) (f : string) :
  is_Some (JsonFile.data d !! f) → is_Some (JsonFile.data (JsonFile.initFile filePath v d) !! f).
Proof. intros [t Ht]. exists t. by apply initFile_keeps. Qed.

(** X22. A start creates the data files that are missing and touches no
    other: a file that is there keeps its content, the uploads stay, the
    four data files are there afterwards, and a second start changes
    nothing. *)
Theorem start_keeps_the_files (d : JsonFile.disk) :
  (∀ f t, JsonFile.data d !! f = Some t → JsonFile.data (JsonFile.init_files d) !! f = Some t) ∧
  JsonFile.uploads (JsonFile.init_files d) = JsonFile.uploads d ∧
  (∀ f, f ∈ [JsonFile.USERS_FILE; JsonFile.ARTICLES_FILE; JsonFile.CONFIG_FILE;
             JsonFile.UNDERSTANDING_FILE] →
        is_Some (JsonFile.data (JsonFile.init_files d) !! f)) ∧
  JsonFile.init_files (JsonFile.init_files d) = JsonFile.init_files d.
Proof.
  assert (∀ d f, f ∈ [JsonFile.USERS_FILE; JsonFile.ARTICLES_FILE; JsonFile.CONFIG_FILE;
                      JsonFile.UNDERSTANDING_FILE] →
                 is_Some (JsonFile.data (JsonFile.init_files d) !! f)) as Hpresent.
  { intros d' f Hf. unfold JsonFile.init_files.
    rewrite !elem_of_cons, elem_of_nil in Hf. destruct Hf as [->|[->|[->|[->|[]]]]].
    - do 3 apply initFile_keeps_present. apply initFile_present.
    - do 2 apply initFile_keeps_present. apply initFile_present.
    - apply initFile_keeps_present. apply initFile_present.
    - apply initFile_present. }
  split; [|split; [|split]].
  - intros f t Hf. unfold JsonFile.init_files. by do 4 apply initFile_keeps.
  - unfold JsonFile.init_files. by rewrite !initFile_uploads.
  - apply Hpresent.
  - unfold JsonFile.init_files at 1.
    rewrite (initFile_again JsonFile.USERS_FILE) by (apply Hpresent; rewrite !elem_of_cons; tauto).
    rewrite (initFile_again JsonFile.ARTICLES_FILE) by (apply Hpresent; rewrite !elem_of_cons; tauto).
    rewrite (initFile_again JsonFile.CONFIG_FILE) by (apply Hpresent; rewrite !elem_of_cons; tauto).
    by rewrite (initFile_again JsonFile.UNDERSTANDING_FILE) by (apply Hpresent; rewrite !elem_of_cons; tauto).
Qed.

Lemma start_keeps_the_files_witness :
  JsonFile.data file_one !! JsonFile.ARTICLES_FILE =
    Some (JSON_stringify (VArr [VObj (JsonFile.new_article file_clock article_A None)])) ∧
  JsonFile.data (JsonFile.init_files file_one) !! JsonFile.ARTICLES_FILE =
    Some (JSON_stringify (VArr [VObj (JsonFile.new_article file_clock article_A None)])).
Proof.
  split; [reflexivity|].
  apply (proj1 (start_keeps_the_files file_one)). reflexivity.
Defined.

(** ** Verifying a session on JSON files *)

Lemma verified_user_hides_password (v : option value) (rest : gmap string value) :
  rest_without "password" v = Ok rest →
  hides_password (Reply 200 (Some (VObj (object [("user", Some (VObj rest))]%string)))).
Proof.
  intros Hrest u. unfold get_prop at 1. rewrite lookup_object. simpl.
  intros [= <-]. by eapply rest_without_password.
Qed.

Lemma verify_hides_password (userId : option string) :
  returns (S := JsonFile.disk) hides_password (JsonFile.verify userId).
Proof.
  unfold JsonFile.verify.
  repeat returns_step; try apply error_hides_password; try done.
  by eapply verified_user_hides_password.
Qed.

(** X23. [GET /auth/verify] shows no password: whatever the [user-id] header
    and whatever the users file holds, the user it answers with has no
    [password]. Without the header, or with an empty one, the answer is
    a 401 and the users file is not read. *)
Theorem verify_shows_no_password (userId : option string) (d : JsonFile.disk) :
  hides_password (run (JsonFile.verify userId) d).2 ∧
  (userId = None ∨ userId = Some EmptyString →
   run (JsonFile.verify userId) d = (d, Reply 401 (error_body "No user ID provided"))).
Proof.
  split.
  - by apply returns_run; [apply verify_hides_password|].
  - by intros [->| ->].
Qed.

Lemma verify_shows_no_password_witness :
  run (JsonFile.verify None) file_one = (file_one, Reply 401 (error_body "No user ID provided")).
Proof.
  apply (proj2 (verify_shows_no_password None file_one)). by left.
Defined.

(** ** The users of the server on JSON files *)

Ltac unfold_json_handlers :=
  cbv [run JsonFile.handle JsonFile.health JsonFile.register JsonFile.login JsonFile.verify
       JsonFile.get_articles JsonFile.get_article JsonFile.post_article JsonFile.put_article
       JsonFile.delete_article JsonFile.get_config JsonFile.post_config
       JsonFile.get_understanding JsonFile.get_understanding_of JsonFile.post_understanding
       JsonFile.writeJSON JsonFile.unlink_pdf
       bind gets lift ret modify rest_without].

Lemma stored_other_file (f g : string) (t : text) (d : JsonFile.disk) (u : gset string) :
  f ≠ g →
  JsonFile.stored f (JsonFile.Disk (<[g := t]> (JsonFile.data d)) u) = JsonFile.stored f d.
Proof.
  intros Hfg. unfold JsonFile.stored. cbv [JsonFile.readJSON bind gets ret JsonFile.data].
  rewrite lookup_insert_ne; [|congruence].
  destruct (_ !! f) as [t0|]; [|done]. by destruct (JSON_parse t0).
Qed.

Lemma stored_uploads (f : string) (d : JsonFile.disk) (u : gset string) :
  JsonFile.stored f (JsonFile.Disk (JsonFile.data d) u) = JsonFile.stored f d.
Proof.
  unfold JsonFile.stored. cbv [JsonFile.readJSON bind gets ret JsonFile.data].
  destruct (_ !! f) as [t0|]; [|done]. by destruct (JSON_parse t0).
Qed.

Lemma other_requests_keep_users (e : JsonFile.env) (r : JsonFile.request) (d : JsonFile.disk) :
  match r with JsonFile.Register _ => False | _ => True end →
  JsonFile.stored JsonFile.USERS_FILE (run (JsonFile.handle e r) d).1 =
    JsonFile.stored JsonFile.USERS_FILE d.
Proof.
  destruct r; try done; intros _; unfold_json_handlers;
    rewrite ?readJSON_stored;
    repeat first [progress rewrite ?readJSON_stored | split_match];
    cbn [fst snd JsonFile.data JsonFile.uploads];
    rewrite ?stored_other_file, ?stored_uploads by done; done.
Qed.

(** The user [POST /auth/register] stores on JSON files for a request
    that passes the checks. *)
Lemma json_register_cases (e : JsonFile.env) (body : value) (d : JsonFile.disk) (l : list value) :
  JsonFile.stored JsonFile.USERS_FILE d = VArr l →
  (∃ user : gmap string value,
     user !! "id"%string = Some (VNum (Z.of_nat (length l) + 1)) ∧
     (run (JsonFile.register e body) d).2 =
       Reply 200 (Some (VObj (object [("user", Some (VObj (delete "password" user)));
                                      ("session", Some (JsonFile.session e))]%string))) ∧
     (run (JsonFile.register e body) d).1 =
       if JsonFile.write_ok e
       then JsonFile.Disk (<[JsonFile.USERS_FILE := JSON_stringify (VArr (l ++ [VObj user]))]>
                             (JsonFile.data d)) (JsonFile.uploads d)
       else d) ∨
  ((run (JsonFile.register e body) d).1 = d ∧
   replied_ok (run (JsonFile.register e body) d).2 = false).
Proof.
  intros Hl. unfold_json_handlers. rewrite ?readJSON_stored.
  repeat first [progress rewrite ?readJSON_stored, ?Hl | progress cbn [as_array] | split_match];
    cbn [fst snd own_props]; try (by right).
  all: left; eexists; (split; [|split; [reflexivity|reflexivity]]); by rewrite lookup_object.
Qed.

Lemma stored_users_init (d : JsonFile.disk) :
  JsonFile.stored JsonFile.USERS_FILE (JsonFile.init_files d) =
    JsonFile.stored JsonFile.USERS_FILE d.
Proof.
  unfold JsonFile.init_files.
  assert (∀ f v d, f ≠ JsonFile.USERS_FILE →
            JsonFile.stored JsonFile.USERS_FILE (JsonFile.initFile f v d) =
              JsonFile.stored JsonFile.USERS_FILE d) as Hother.
  { intros f v d' Hf. unfold JsonFile.initFile.
    destruct (JsonFile.data d' !! f); [done|]. by rewrite stored_other_file. }
  rewrite !Hother by done.
  unfold JsonFile.initFile. destruct (JsonFile.data d !! JsonFile.USERS_FILE) eqn:Hu; [done|].
  rewrite stored_after_write. unfold JsonFile.stored.
  cbv [JsonFile.readJSON bind gets ret]. by rewrite Hu.
Qed.

Lemma counting_S (n : nat) :
  JsonFile.counting (S n) = JsonFile.counting n ++ [Ok (Some (VNum (Z.of_nat n + 1)))].
Proof.
  unfold JsonFile.counting. rewrite seq_S, fmap_app. cbn. do 5 f_equal. lia.
Qed.

Lemma numbered_register (e : JsonFile.env) (body : value) (d : JsonFile.disk) :
  JsonFile.numbered d → JsonFile.numbered (run (JsonFile.register e body) d).1.
Proof.
  intros (l & Hl & Hids).
  destruct (json_register_cases e body d l Hl) as [(user & Hid & _ & ->)|[-> _]];
    [|by exists l].
  destruct (JsonFile.write_ok e); [|by exists l].
  exists (l ++ [VObj user]). rewrite stored_after_write. split; [done|].
  rewrite length_app, Nat.add_1_r, counting_S, <- Hids.
  unfold ids. rewrite fmap_app. cbn. unfold get_prop. by rewrite Hid.
Qed.

(** X24. On JSON files the users are numbered: whatever is asked of the
    server and however its writes go, the users it has stored have the
    ids 1, 2, 3 and so on, in the order they registered in, so no two of
    them share an id. *)
Theorem users_are_numbered (d : JsonFile.disk) (evs : list JsonFile.event) :
  JsonFile.numbered d → JsonFile.numbered (JsonFile.after d evs).
Proof.
  intros Hd. unfold JsonFile.after.
  assert (JsonFile.numbered (JsonFile.init_files d)) as H0.
  { destruct Hd as (l & Hl & Hids). exists l. by rewrite stored_users_init. }
  revert H0. generalize (JsonFile.init_files d). clear Hd d.
  induction evs as [|ev evs IH]; intros d Hd; cbn [foldl]; [done|].
  apply IH. destruct ev as [e r|]; cbn [JsonFile.step].
  - destruct r; try (destruct Hd as (l & Hl & Hids); exists l;
                     by rewrite other_requests_keep_users).
    by apply numbered_register.
  - destruct Hd as (l & Hl & Hids). exists l. by rewrite stored_users_init.
Qed.

Lemma users_are_numbered_witness :
  JsonFile.numbered (JsonFile.Disk ∅ ∅) ∧
  JsonFile.numbered
    (JsonFile.after (JsonFile.Disk ∅ ∅)
       [JsonFile.Request file_clock (JsonFile.Register alice);
        JsonFile.Restart;
        JsonFile.Request file_clock (JsonFile.Register bob)]).
Proof.
  assert (JsonFile.numbered (JsonFile.Disk ∅ ∅)) as H0 by (by exists []).
  split; [exact H0|].
  exact (users_are_numbered (JsonFile.Disk ∅ ∅) _ H0).
Defined.

Lemma numbered_below (l : list value) (s : nat) (m : Z) :
  ids l = (λ i, Ok (Some (VNum (Z.of_nat i)))) <$> seq s (length l) →
  Z.of_nat (s + length l) ≤ m →
  Forall (λ a, id_strictly (NumberToString m) a = Ok false) l.
Proof.
  revert s. induction l as [|a l IH]; intros s Hids Hm; [constructor|].
  cbn in Hids. injection Hids as Ha Hl. constructor.
  - unfold id_strictly. rewrite Ha. cbn [rbind]. rewrite parseInt_NumberToString.
    unfold strict_eq. rewrite bool_decide_eq_false_2; [done|]. cbn [length] in Hm. lia.
  - apply (IH (S s)); [done|]. cbn [length] in Hm. lia.
Qed.

Lemma number_string_truthy (n : Z) : truthy (Some (VStr (NumberToString n))) = true.
Proof.
  pose proof (parseInt_NumberToString n) as Hn.
  destruct (NumberToString n); [done|done].
Qed.

(** X25. A user who has registered is verified by the id they were given:
    when the users are numbered and the write goes through, a
    registration that is answered with a 200 is followed by a 200 to
    [GET /auth/verify] with that id in the [user-id] header, and the
    user in that answer is the user of the registration. *)
Theorem register_then_verify (e : JsonFile.env) (body : value) (d : JsonFile.disk) :
  JsonFile.numbered d → JsonFile.write_ok e = true →
  replied_ok (run (JsonFile.register e body) d).2 = true →
  ∃ (user : gmap string value) (id : Z),
    user !! "id"%string = Some (VNum id) ∧
    (run (JsonFile.register e body) d).2 =
      Reply 200 (Some (VObj (object [("user", Some (VObj user));
                                     ("session", Some (JsonFile.session e))]%string))) ∧
    (run (JsonFile.verify (Some (NumberToString id))) (run (JsonFile.register e body) d).1).2 =
      Reply 200 (Some (VObj (object [("user", Some (VObj user))]%string))).
Proof.
  intros (l & Hl & Hids) Hw Hok.
  destruct (json_register_cases e body d l Hl) as [(user & Hid & Hr & Hd)|[_ Hno]];
    [|congruence].
  rewrite Hw in Hd. rewrite Hr, Hd.
  exists (delete "password" user), (Z.of_nat (length l) + 1).
  split; [by rewrite lookup_delete_ne|]. split; [done|].
  cbv [run JsonFile.verify bind lift ret from_option id]. cbn [fmap option_fmap option_map].
  rewrite number_string_truthy. cbn [negb]. rewrite readJSON_stored, stored_after_write.
  cbn [as_array].
  rewrite (find_last _ l (VObj user)); [done| |].
  - unfold id. by apply (numbered_below l 1); [|lia].
  - unfold id_strictly, get_prop. rewrite Hid. cbn [rbind]. unfold id. rewrite parseInt_NumberToString.
    unfold strict_eq. by rewrite bool_decide_eq_true_2.
Qed.

Lemma register_then_verify_witness :
  JsonFile.numbered fresh_disk ∧ JsonFile.write_ok file_clock = true ∧
  replied_ok (run (JsonFile.register file_clock alice) fresh_disk).2 = true ∧
  ∃ (user : gmap string value) (id : Z),
    user !! "id"%string = Some (VNum id) ∧
    (run (JsonFile.register file_clock alice) fresh_disk).2 =
      Reply 200 (Some (VObj (object [("user", Some (VObj user));
                                     ("session", Some (JsonFile.session file_clock))]%string))) ∧
    (run (JsonFile.verify (Some (NumberToString id)))
         (run (JsonFile.register file_clock alice) fresh_disk).1).2 =
      Reply 200 (Some (VObj (object [("user", Some (VObj user))]%string))).
Proof.
  assert (JsonFile.numbered fresh_disk) as H0 by (by exists []).
  split; [exact H0|]. split; [reflexivity|]. split; [reflexivity|].
  exact (register_then_verify file_clock alice fresh_disk H0 eq_refl eq_refl).
Defined.

(** ** Writes that fail on JSON files *)


(** ** The PDF of a deleted article *)



(** ** Snapshots of the server with the 30 second auto-save *)



(** ** Data files that cannot be read *)

(** X29. An articles file that is missing or is not JSON reads as no
    articles: the list is empty and every lookup answers 404. The next
    [POST /articles] whose write goes through then leaves a file that
    holds the new article and nothing of what the file held. *)
Theorem unreadable_articles_read_as_none (e : JsonFile.env) (id : string) (body : value)
    (f : option file) (d : JsonFile.disk) :
  (JsonFile.data d !! JsonFile.ARTICLES_FILE = None ∨
   ∃ raw, JsonFile.data d !! JsonFile.ARTICLES_FILE = Some (Garbled raw)) →
  run JsonFile.get_articles d = (d, Reply 200 (Some (VArr []))) ∧
  run (JsonFile.get_article id) d = (d, Reply 404 (error_body "Article not found")) ∧
  (body ≠ VNull → JsonFile.write_ok e = true →
   JsonFile.stored JsonFile.ARTICLES_FILE (run (JsonFile.post_article e body f) d).1 =
     VArr [VObj (JsonFile.new_article e body f)]).
Proof.
  intros Hd.
  assert (JsonFile.stored JsonFile.ARTICLES_FILE d = VArr []) as Hs.
  { unfold JsonFile.stored. cbv [JsonFile.readJSON bind gets ret].
    by destruct Hd as [->|[raw ->]]. }
  split; [|split].
  - cbv [run JsonFile.get_articles bind ret]. by rewrite readJSON_stored, Hs.
  - by rewrite (json_get_article_spec id d [] Hs).
  - intros Hb Hw. rewrite (json_post_article_spec e body f d [] Hs Hb Hw). cbn [fst].
    apply stored_after_write.
Qed.

Lemma unreadable_articles_read_as_none_witness :
  (∃ raw, JsonFile.data torn_disk !! JsonFile.ARTICLES_FILE = Some (Garbled raw)) ∧
  run JsonFile.get_articles torn_disk = (torn_disk, Reply 200 (Some (VArr []))) ∧
  run (JsonFile.get_article "1700000000000") torn_disk =
    (torn_disk, Reply 404 (error_body "Article not found")) ∧
  (article_B ≠ VNull → JsonFile.write_ok file_clock = true →
   JsonFile.stored JsonFile.ARTICLES_FILE
     (run (JsonFile.post_article file_clock article_B None) torn_disk).1 =
     VArr [VObj (JsonFile.new_article file_clock article_B None)]).
Proof.
  assert (∃ raw, JsonFile.data torn_disk !! JsonFile.ARTICLES_FILE = Some (Garbled raw)) as H
    by (by eexists).
  split; [exact H|].
  exact (unreadable_articles_read_as_none file_clock "1700000000000" article_B None torn_disk
           (or_intror H)).
Defined.

(** ** Ids in the address, on JSON files *)

Section Leading_integer.
Import Decimal.

Variable c : ascii.
Variable rest : string.
Hypothesis not_a_digit : is_digit c = false.

Lemma render_trim_left_more (d : uint) :
  d ≠ Nil →
  trim_left (NilEmpty.string_of_uint d +:+ String c rest) =
    NilEmpty.string_of_uint d +:+ String c rest.
Proof. by destruct d. Qed.

Lemma render_digit_prefix_more (d : uint) :
  digit_prefix (NilEmpty.string_of_uint d +:+ String c rest) = NilEmpty.string_of_uint d.
Proof.
  induction d as [|d IH|d IH|d IH|d IH|d IH|d IH|d IH|d IH|d IH|d IH];
    [simpl; by rewrite not_a_digit|..];
    cbn [NilEmpty.string_of_uint];
    match goal with |- digit_prefix (String ?x ?s +:+ ?t) = _ =>
      change (String x s +:+ t) with (String x (s +:+ t)) end;
    cbn [digit_prefix]; by rewrite IH.
Qed.

Lemma render_no_prefix_more (d : uint) :
  d ≠ Nil → d ≠ D0 Nil →
  unsigned_prefix (NilEmpty.string_of_uint d +:+ String c rest) =
    digits (digit_prefix (NilEmpty.string_of_uint d +:+ String c rest)).
Proof.
  intros Hn H0. destruct d as [|d|d|d|d|d|d|d|d|d|d]; try done.
  destruct d; try done.
Qed.

Lemma pos_not_zero (p : positive) : Pos.to_uint p ≠ D0 Nil.
Proof.
  intros Hp. pose proof (DecimalPos.Unsigned.of_to p) as H. rewrite Hp in H. done.
Qed.

(** [parseInt] stops at the first character that is no digit. *)
Lemma parseInt_leading_integer (n : Z) :
  0 < n → parseInt (NumberToString n +:+ String c rest) = Some n.
Proof.
  destruct n as [|p|p]; try done. intros _. unfold NumberToString, parseInt.
  simpl Z.to_int. cbn [NilZero.string_of_int]. rewrite render_positive.
  pose proof (DecimalPos.Unsigned.to_uint_nonnil p) as Hnil.
  pose proof (pos_not_zero p) as Hzero.
  rewrite render_trim_left_more by done.
  assert (unsigned_prefix (NilEmpty.string_of_uint (Pos.to_uint p) +:+ String c rest) =
          Some (Z.pos p)) as Hp
    by (by rewrite render_no_prefix_more, render_digit_prefix_more, digits_positive).
  destruct (Pos.to_uint p) as [|d|d|d|d|d|d|d|d|d|d]; try done.
Qed.

End Leading_integer.

Lemma find_ext (p q : value → result bool) (l : list value) :
  (∀ a, p a = q a) → find p l = find q l.
Proof.
  intros Hpq. induction l as [|a l IH]; [done|]. cbn [find]. by rewrite Hpq, IH.
Qed.

Lemma findIndex_ext (p q : value → result bool) (l : list value) :
  (∀ a, p a = q a) → findIndex p l = findIndex q l.
Proof.
  intros Hpq. induction l as [|a l IH]; [done|]. cbn [findIndex]. by rewrite Hpq, IH.
Qed.

(** X30. On JSON files the id in the address is read with [parseInt], which
    stops at the first character that is no digit: an id followed by
    anything that does not start with a digit names the same article,
    for a lookup and for a delete. *)
Theorem address_reads_leading_integer (e : JsonFile.env) (n : Z) (c : ascii) (rest : string)
    (d : JsonFile.disk) :
  0 < n → is_digit c = false →
  run (JsonFile.get_article (NumberToString n +:+ String c rest)) d =
    run (JsonFile.get_article (NumberToString n)) d ∧
  run (JsonFile.delete_article e (NumberToString n +:+ String c rest)) d =
    run (JsonFile.delete_article e (NumberToString n)) d.
Proof.
  intros Hn Hc.
  assert (∀ a, id_strictly (NumberToString n +:+ String c rest) a =
               id_strictly (NumberToString n) a) as Hid.
  { intros a. unfold id_strictly.
    by rewrite parseInt_leading_integer, parseInt_NumberToString. }
  split.
  - cbv [run JsonFile.get_article bind lift ret]. rewrite !readJSON_stored.
    destruct (as_array _) as [l|]; [|done]. by rewrite (find_ext _ _ l Hid).
  - cbv [run JsonFile.delete_article bind lift ret]. rewrite !readJSON_stored.
    destruct (as_array _) as [l|]; [|done]. by rewrite (findIndex_ext _ _ l Hid).
Qed.

Lemma address_reads_leading_integer_witness :
  0 < 1700000000000 ∧ is_digit "a" = false ∧
  run (JsonFile.get_article "1700000000000abc") file_one =
    run (JsonFile.get_article "1700000000000") file_one ∧
  run (JsonFile.delete_article file_clock "1700000000000abc") file_one =
    run (JsonFile.delete_article file_clock "1700000000000") file_one.
Proof.
  split; [done|]. split; [reflexivity|].
  apply (address_reads_leading_integer file_clock 1700000000000 "a" "bc" file_one);
    [done|reflexivity].
Defined.
